(** * generate_timestamps.py: a shallow embedding and its properties

    The script [Examples/Stereo/generate_timestamps.py] lists the PNG files
    of a directory and writes a [timestamps.txt] for them, either at a fixed
    frame rate or from the rows of a CSV table.

    Layout of this development:
    - [Py]: the pieces of the Python runtime the script calls
      ([os.path], [glob], [list.sort], [float], string formatting,
      [csv.reader]), as executable functions;
    - the script itself: [get_sorted_images], [generate_from_fps],
      [generate_from_csv], [main], written in a small state-and-exit monad
      over a [world] (directory listings, file contents, standard output);
    - the properties.

    Scope of the model.  The runtime is CPython 3.11 on a POSIX system
    with a UTF-8 locale.  Text is a [string] of bytes holding UTF-8, as the
    files and the file names of such a system do.  A
    Python [float] is an IEEE 754 binary64 value ([spec_float] with
    precision 53 and maximal exponent 1024).  What the file system answers
    is part of the [world]: the listing of a directory, the expansion of a
    directory pattern with wildcards, and whether a file opens for reading
    or for writing.  A file that is open takes what is written to it, and
    the standard streams take what is printed, as long as the text is valid
    UTF-8 (a full disk or a closed stream is outside the model).  [main]
    starts from the [Namespace] that [parse_args] returned.  The
    properties that depend on the order of the names or on writing them say
    that the names are valid UTF-8: Python compares and writes them as
    text, and on valid UTF-8 the order of the code points is the order of
    the bytes. *)

From Stdlib Require Import ZArith Lia Ascii String List Sorted Permutation.
From Stdlib Require Import SpecFloat DecimalString.
From stdpp Require Import base option list strings gmap.

Local Open Scope Z_scope.

(** ** The Python runtime used by the script *)

Module Py.

(** *** Strings *)

Definition LF : ascii := ascii_of_nat 10.
Definition CR : ascii := ascii_of_nat 13.
Definition DQUOTE : ascii := ascii_of_nat 34.

Definition nl : string := String LF EmptyString.

(** [s.startswith(p)] *)
Definition startswith (s p : string) : bool := String.prefix p s.

(** [s.endswith(p)] *)
Definition endswith (s p : string) : bool :=
  let n := String.length s in
  let k := String.length p in
  (k <=? n)%nat && String.eqb (String.substring (n - k) k s) p.

(** [str(n)] for a non-negative integer. *)
Definition str_of_N (n : N) : string :=
  NilZero.string_of_uint (N.to_uint n).

Definition str_of_nat (n : nat) : string := str_of_N (N.of_nat n).

(** [row[i]] with Python's negative indices; [None] stands for IndexError. *)
Definition getitem {A} (l : list A) (i : Z) : option A :=
  let n := Z.of_nat (length l) in
  if (0 <=? i) && (i <? n) then nth_error l (Z.to_nat i)
  else if (- n <=? i) && (i <? 0) then nth_error l (Z.to_nat (n + i))
  else None.

(** Does some character of [s] satisfy [p]? *)
Fixpoint any_char (p : ascii -> bool) (s : string) : bool :=
  match s with
  | EmptyString => false
  | String c s' => p c || any_char p s'
  end.

(** An embedded NUL character: the system calls refuse such a path with
    ValueError. *)
Definition has_nul (s : string) : bool := any_char (Ascii.eqb Ascii.zero) s.

(** *** Text as UTF-8 *)

Definition in_range (lo hi b : N) : bool := ((lo <=? b) && (b <=? hi))%N.

(** A byte [10xxxxxx], which continues a character. *)
Definition is_continuation (c : ascii) : bool := in_range 128 191 (N_of_ascii c).

Definition is_ascii (c : ascii) : bool := (N_of_ascii c <? 128)%N.

(** [bytes.decode('utf-8')]: the code points of the text, [None] where
    Python raises UnicodeDecodeError (a stray or missing continuation
    byte, an overlong form, a surrogate, a code point above U+10FFFF). *)
Fixpoint utf8_decode (s : list ascii) : option (list N) :=
  match s with
  | [] => Some []
  | c0 :: s1 =>
      let b0 := N_of_ascii c0 in
      if (b0 <? 128)%N then option_map (cons b0) (utf8_decode s1)
      else if in_range 194 223 b0 then
        match s1 with
        | c1 :: s2 =>
            if is_continuation c1
            then option_map (cons ((b0 - 192) * 64 + (N_of_ascii c1 - 128))%N)
                            (utf8_decode s2)
            else None
        | _ => None
        end
      else if in_range 224 239 b0 then
        match s1 with
        | c1 :: c2 :: s3 =>
            let b1 := N_of_ascii c1 in
            if in_range (if (b0 =? 224)%N then 160 else 128)
                        (if (b0 =? 237)%N then 159 else 191) b1
               && is_continuation c2
            then option_map
                   (cons (((b0 - 224) * 64 + (b1 - 128)) * 64
                          + (N_of_ascii c2 - 128))%N)
                   (utf8_decode s3)
            else None
        | _ => None
        end
      else if in_range 240 244 b0 then
        match s1 with
        | c1 :: c2 :: c3 :: s4 =>
            let b1 := N_of_ascii c1 in
            if in_range (if (b0 =? 240)%N then 144 else 128)
                        (if (b0 =? 244)%N then 143 else 191) b1
               && is_continuation c2 && is_continuation c3
            then option_map
                   (cons ((((b0 - 240) * 64 + (b1 - 128)) * 64
                           + (N_of_ascii c2 - 128)) * 64
                          + (N_of_ascii c3 - 128))%N)
                   (utf8_decode s4)
            else None
        | _ => None
        end
      else None
  end.

(** The text is valid UTF-8: Python can read it from a file, print it and
    write it. *)
Definition utf8_valid (s : string) : bool :=
  match utf8_decode (list_ascii_of_string s) with
  | Some _ => true
  | None => false
  end.

(** *** posixpath *)

Definition sep : string := "/".

(** Index just after the last ['/'] of [p] ([p.rfind('/') + 1]). *)
Fixpoint after_last_sep (p : string) : nat :=
  match p with
  | EmptyString => 0
  | String c p' =>
      match after_last_sep p' with
      | O => if Ascii.eqb c "/" then 1 else 0
      | S k => S (S k)
      end
  end%nat.

Definition path_join (a b : string) : string :=
  if startswith b sep then b
  else if String.eqb a "" || endswith a sep then a +:+ b
  else a +:+ sep +:+ b.

Definition path_basename (p : string) : string :=
  let i := after_last_sep p in
  String.substring i (String.length p - i) p.

Fixpoint all_sep (s : string) : bool :=
  match s with
  | EmptyString => true
  | String c s' => Ascii.eqb c "/" && all_sep s'
  end.

(** [s.rstrip('/')] *)
Fixpoint rstrip_sep (s : string) : string :=
  match s with
  | EmptyString => EmptyString
  | String c s' =>
      match rstrip_sep s' with
      | EmptyString => if Ascii.eqb c "/" then EmptyString else String c EmptyString
      | r => String c r
      end
  end.

Definition path_split (p : string) : string * string :=
  let i := after_last_sep p in
  let head := String.substring 0 i p in
  let tail := String.substring i (String.length p - i) p in
  let head := if negb (String.eqb head "") && negb (all_sep head)
              then rstrip_sep head else head in
  (head, tail).

(** *** fnmatch and glob *)

(** [fnmatch.fnmatchcase(name, pat)] for patterns made of literal
    characters, ['?'] and ['*']. *)
Fixpoint fnmatch (pat : string) : string -> bool :=
  match pat with
  | EmptyString => fun name => String.eqb name ""
  | String c pat' =>
      if Ascii.eqb c "*" then
        fix star (name : string) : bool :=
          fnmatch pat' name ||
          match name with
          | EmptyString => false
          | String _ name' => star name'
          end
      else if Ascii.eqb c "?" then
        fun name =>
          match name with
          | EmptyString => false
          | String _ name' => fnmatch pat' name'
          end
      else
        fun name =>
          match name with
          | EmptyString => false
          | String d name' => Ascii.eqb c d && fnmatch pat' name'
          end
  end.

(** [glob.has_magic(s)]: one of the characters [*], [?] and the opening
    bracket occurs in [s]. *)
Definition is_magic (c : ascii) : bool :=
  Ascii.eqb c "*" || Ascii.eqb c "?" || Ascii.eqb c "[".

Definition has_magic (s : string) : bool := any_char is_magic s.

(** [glob._ishidden] *)
Definition ishidden (name : string) : bool := startswith name ".".

(** [glob._glob1(dirname, pattern)] on the names [os.listdir] returned. *)
Definition glob1 (names : list string) (pattern : string) : list string :=
  let names := if ishidden pattern then names
               else List.filter (fun x => negb (ishidden x)) names in
  List.filter (fnmatch pattern) names.

(** *** list.sort() on strings

    Python compares two strings code point by code point; on valid UTF-8
    that is the byte-wise lexicographic order, which is the order taken
    here.  The sort is an insertion sort, which on a total order returns
    the same list as any other sort. *)

Fixpoint insert_sorted (x : string) (l : list string) : list string :=
  match l with
  | [] => [x]
  | y :: l' => if String.leb x y then x :: l else y :: insert_sorted x l'
  end.

Fixpoint list_sort (l : list string) : list string :=
  match l with
  | [] => []
  | x :: l' => insert_sorted x (list_sort l')
  end.


(** *** float *)

Definition float := spec_float.
Definition prec : Z := 53.
Definition emax : Z := 1024.

Definition float_mul : float -> float -> float := SFmul prec emax.
Definition float_div : float -> float -> float := SFdiv prec emax.

(** The float nearest to an integer ([float(n)], used when an [int] meets a
    [float] in arithmetic). *)
Definition float_of_Z (n : Z) : float := binary_normalize prec emax n 0 false.

Definition float_one : float := Eval vm_compute in float_of_Z 1.

(** [x == 0.0] *)
Definition is_zero (x : float) : bool :=
  match x with S754_zero _ => true | _ => false end.

(** [bool(x)] *)
Definition float_truthy (x : float) : bool := negb (is_zero x).

(** [0 < x] *)
Definition float_pos (x : float) : bool := SFltb (S754_zero false) x.

(** [a / b]; [None] stands for ZeroDivisionError. *)
Definition truediv (a b : float) : option float :=
  if is_zero b then None else Some (float_div a b).

(** The float nearest to [d * 10^k] for [d > 0], ties to even. *)
Definition float_of_decimal (s : bool) (d : positive) (k : Z) : float :=
  if 0 <=? k then binary_round prec emax s (d * Z.to_pos (10 ^ k))%positive 0
  else
    let '(q, e, l) := SFdiv_core_binary prec emax (Zpos d) 0 (10 ^ (- k)) 0 in
    binary_round_aux prec emax s q e l.

(** *** float(text) *)

Definition is_space (c : ascii) : bool :=
  let n := nat_of_ascii c in
  ((9 <=? n) && (n <=? 13) || (n =? 32))%nat.

Definition is_digit (c : ascii) : bool :=
  let n := nat_of_ascii c in ((48 <=? n) && (n <=? 57))%nat.

Definition digit_val (c : ascii) : Z := Z.of_nat (nat_of_ascii c) - 48.

Definition to_lower (c : ascii) : ascii :=
  let n := nat_of_ascii c in
  if ((65 <=? n) && (n <=? 90))%nat then ascii_of_nat (n + 32) else c.

Fixpoint lstrip (s : list ascii) : list ascii :=
  match s with
  | c :: s' => if is_space c then lstrip s' else s
  | [] => []
  end.

Definition strip (s : list ascii) : list ascii :=
  rev (lstrip (rev (lstrip s))).

(** Underscores may only stand between two digits; they are then dropped.
    [prev] is the previous character. *)
Fixpoint drop_underscores (prev : ascii) (s : list ascii) : option (list ascii) :=
  match s with
  | [] => if Ascii.eqb prev "_" then None else Some []
  | c :: s' =>
      if Ascii.eqb c "_" then
        if is_digit prev then drop_underscores c s' else None
      else if Ascii.eqb prev "_" && negb (is_digit c) then None
      else option_map (cons c) (drop_underscores c s')
  end.

(** Leading digits of [s]: their value continued from [acc], how many there
    are, and what follows them. *)
Fixpoint read_digits (acc : Z) (n : nat) (s : list ascii) : Z * nat * list ascii :=
  match s with
  | c :: s' => if is_digit c then read_digits (10 * acc + digit_val c) (S n) s'
               else (acc, n, s)
  | [] => (acc, n, [])
  end.

Definition read_sign (s : list ascii) : bool * list ascii :=
  match s with
  | c :: s' => if Ascii.eqb c "-" then (true, s')
               else if Ascii.eqb c "+" then (false, s')
               else (false, s)
  | [] => (false, [])
  end.

(** The exponent part: [e], optional sign, at least one digit, then the end
    of the text; no exponent part at all counts as exponent 0. *)
Definition read_exponent (s : list ascii) : option Z :=
  match s with
  | [] => Some 0
  | c :: s' =>
      if Ascii.eqb (to_lower c) "e" then
        let '(neg, s'') := read_sign s' in
        match read_digits 0 0 s'' with
        | (_, O, _) => None
        | (v, _, []) => Some (if neg then - v else v)
        | _ => None
        end
      else None
  end.

Definition float_of_parts (neg : bool) (d : Z) (k : Z) : float :=
  match d with
  | Zpos p => float_of_decimal neg p k
  | _ => S754_zero neg
  end.

(** The characters outside ASCII that [str.isspace] accepts and the
    characters that write the digit zero in the scripts of Unicode 14 (the
    nine characters after each write the digits one to nine). *)
Definition unicode_spaces : list N :=
  [133; 160; 5760; 8192; 8193; 8194; 8195; 8196; 8197; 8198; 8199; 8200; 8201;
   8202; 8232; 8233; 8239; 8287; 12288]%N.

Definition unicode_zeros : list N :=
  [1632; 1776; 1984; 2406; 2534; 2662; 2790; 2918; 3046; 3174; 3302; 3430; 3558;
   3664; 3792; 3872; 4160; 4240; 6112; 6160; 6470; 6608; 6784; 6800; 6992; 7088;
   7232; 7248; 42528; 43216; 43264; 43472; 43504; 43600; 44016; 65296; 66720;
   68912; 69734; 69872; 69942; 70096; 70384; 70736; 70864; 71248; 71360; 71472;
   71904; 72016; 72784; 73040; 73120; 92768; 92864; 93008; 120782; 120792;
   120802; 120812; 120822; 123200; 123632; 125264; 130032]%N.

(** [Py_UNICODE_ISSPACE] outside ASCII. *)
Definition unicode_isspace (cp : N) : bool := existsb (N.eqb cp) unicode_spaces.

(** [Py_UNICODE_TODECIMAL] outside ASCII. *)
Definition unicode_decimal (cp : N) : option N :=
  match List.find (fun z => ((z <=? cp) && (cp <? z + 10))%N) unicode_zeros with
  | Some z => Some (cp - z)%N
  | None => None
  end.

(** [_PyUnicode_TransformDecimalAndSpaceToASCII] on a text that is not
    all ASCII: spaces become [' '], decimal digits become ASCII digits, and
    the text is cut after a [?] put for the first other character outside
    ASCII. *)
Fixpoint transform_decimal_and_space (cps : list N) : list ascii :=
  match cps with
  | [] => []
  | cp :: rest =>
      if (cp <? 127)%N then ascii_of_N cp :: transform_decimal_and_space rest
      else if unicode_isspace cp then " "%char :: transform_decimal_and_space rest
      else
        match unicode_decimal cp with
        | Some d => ascii_of_N (48 + d) :: transform_decimal_and_space rest
        | None => ["?"%char]
        end
  end.

(** The ASCII text [float] parses for a [str]. *)
Definition float_text (text : string) : option (list ascii) :=
  let bytes := list_ascii_of_string text in
  if forallb is_ascii bytes then Some bytes
  else option_map transform_decimal_and_space (utf8_decode bytes).

(** The parser of [float] on ASCII text. *)
Definition float_of_ascii (chars : list ascii) : option float :=
  match drop_underscores "000" (strip chars) with
  | None => None
  | Some s =>
      let '(neg, body) := read_sign s in
      let low := string_of_list_ascii (map to_lower body) in
      if String.eqb low "inf" || String.eqb low "infinity" then Some (S754_infinity neg)
      else if String.eqb low "nan" then Some S754_nan
      else
        let '(ip, ni, rest) := read_digits 0 0 body in
        let '(fp, nf, rest) :=
          match rest with
          | c :: rest' => if Ascii.eqb c "." then read_digits ip 0 rest'
                          else (ip, O, rest)
          | [] => (ip, O, [])
          end in
        if (ni + nf =? 0)%nat then None
        else
          match read_exponent rest with
          | Some ex => Some (float_of_parts neg fp (ex - Z.of_nat nf))
          | None => None
          end
  end.

(** [float(text)]; [None] stands for ValueError. *)
Definition float_of_string (text : string) : option float :=
  match float_text text with
  | Some chars => float_of_ascii chars
  | None => None
  end.

(** *** "%.6f" *)

(** [num / den] rounded to the nearest integer, ties to even ([den > 0]). *)
Definition round_half_even (num den : Z) : Z :=
  let q := num / den in
  match (2 * (num mod den)) ?= den with
  | Lt => q
  | Eq => if Z.even q then q else q + 1
  | Gt => q + 1
  end.

(** [m * 2^e * 10^6] rounded to the nearest integer. *)
Definition scaled6 (m : positive) (e : Z) : Z :=
  if 0 <=? e then Zpos m * 2 ^ e * 1000000
  else round_half_even (Zpos m * 1000000) (2 ^ (- e)).

Definition str_of_Z (n : Z) : string := str_of_N (Z.to_N n).

(** The last [k] decimal digits of [n], zero padded. *)
Fixpoint last_digits (k : nat) (n : Z) : string :=
  match k with
  | O => ""
  | S k' => last_digits k' (n / 10) +:+ str_of_Z (n mod 10)
  end.

Definition fixed6 (neg : bool) (q : Z) : string :=
  (if neg then "-" else "") +:+ str_of_Z (q / 1000000) +:+ "." +:+ last_digits 6 q.

(** [f"{x:.6f}"] *)
Definition format_6f (x : float) : string :=
  match x with
  | S754_nan => "nan"
  | S754_infinity s => if s then "-inf" else "inf"
  | S754_zero s => fixed6 s 0
  | S754_finite s m e => fixed6 s (scaled6 m e)
  end.

(** *** repr(x), as f"{x}" prints a float *)

(** [num / den < 10^k] *)
Definition lt_pow10 (num den k : Z) : bool :=
  if 0 <=? k then num <? den * 10 ^ k else num * 10 ^ (- k) <? den.

(** The least [k >= k0] with [num / den < 10^k]. *)
Fixpoint find_decpt (fuel : nat) (k0 num den : Z) : Z :=
  match fuel with
  | O => k0
  | S fuel' => if lt_pow10 num den k0 then k0 else find_decpt fuel' (k0 + 1) num den
  end.

(** The [n]-digit decimals just below and just above [m * 2^e] that read
    back as the same float; of two, the nearer one (ties to even). *)
Definition repr_candidate (m : positive) (e : Z) (decpt : Z) (n : Z) : option (Z * Z) :=
  let k := decpt - n in
  let num := (if 0 <=? e then Zpos m * 2 ^ e else Zpos m) * (if 0 <=? k then 1 else 10 ^ (- k)) in
  let den := (if 0 <=? e then 1 else 2 ^ (- e)) * (if 0 <=? k then 10 ^ k else 1) in
  let lo := num / den in
  let back d := match float_of_parts false d k with
                | S754_finite _ m' e' => Pos.eqb m m' && (e =? e')
                | _ => false
                end in
  match back lo, back (lo + 1) with
  | true, true => Some (round_half_even num den, k)
  | true, false => Some (lo, k)
  | false, true => Some (lo + 1, k)
  | false, false => None
  end.

Fixpoint shortest_digits (fuel : nat) (m : positive) (e : Z) (decpt : Z) (n : Z) : Z * Z :=
  match fuel with
  | O => (round_half_even (if 0 <=? e then Zpos m * 2 ^ e else Zpos m)
                          (if 0 <=? e then 1 else 2 ^ (- e)), 0)
  | S fuel' =>
      match repr_candidate m e decpt n with
      | Some r => r
      | None => shortest_digits fuel' m e decpt (n + 1)
      end
  end.

Fixpoint rstrip_zeros (s : string) : string :=
  match s with
  | EmptyString => EmptyString
  | String c s' =>
      match rstrip_zeros s' with
      | EmptyString => if Ascii.eqb c "0" then EmptyString else String c EmptyString
      | r => String c r
      end
  end.

Fixpoint zeros (n : nat) : string :=
  match n with O => "" | S n' => String "0" (zeros n') end.

Definition repr_finite (m : positive) (e : Z) : string :=
  let num := if 0 <=? e then Zpos m * 2 ^ e else Zpos m in
  let den := if 0 <=? e then 1 else 2 ^ (- e) in
  let k0 := (Z.log2 (Zpos m) + e) * 30103 / 100000 - 1 in
  let '(d, k) := shortest_digits 17 m e (find_decpt 5 k0 num den) 1 in
  let all := str_of_Z d in
  let decpt := Z.of_nat (String.length all) + k in
  let ds := rstrip_zeros all in
  let nd := String.length ds in
  if (16 <? decpt) || (decpt <? -3) then
    let ex := decpt - 1 in
    let exs := str_of_Z (Z.abs ex) in
    String.substring 0 1 ds
      +:+ (if (1 <? nd)%nat then "." +:+ String.substring 1 (nd - 1) ds else "")
      +:+ "e" +:+ (if ex <? 0 then "-" else "+")
      +:+ (if (String.length exs <? 2)%nat then "0" else "") +:+ exs
  else if decpt <=? 0 then "0." +:+ zeros (Z.to_nat (- decpt)) +:+ ds
  else if Z.of_nat nd <=? decpt then ds +:+ zeros (Z.to_nat decpt - nd) +:+ ".0"
  else String.substring 0 (Z.to_nat decpt) ds +:+ "."
         +:+ String.substring (Z.to_nat decpt) (nd - Z.to_nat decpt) ds.

Definition float_repr (x : float) : string :=
  match x with
  | S754_nan => "nan"
  | S754_infinity s => if s then "-inf" else "inf"
  | S754_zero s => if s then "-0.0" else "0.0"
  | S754_finite s m e => (if s then "-" else "") +:+ repr_finite m e
  end.

(** *** Reading a text file line by line

    A file opened in text mode translates the line ends CR LF and CR to LF
    and is iterated line by line, each line keeping its final LF. *)

Fixpoint universal_newlines (s : list ascii) : list ascii :=
  match s with
  | [] => []
  | c :: s' =>
      if Ascii.eqb c CR then
        LF :: match s' with
              | d :: s'' => if Ascii.eqb d LF then universal_newlines s''
                            else universal_newlines s'
              | [] => []
              end
      else c :: universal_newlines s'
  end.

(** [cur] holds the current line so far, last character first. *)
Fixpoint split_lines (cur : list ascii) (s : list ascii) : list (list ascii) :=
  match s with
  | [] => match cur with [] => [] | _ => [rev cur] end
  | c :: s' =>
      if Ascii.eqb c LF then rev (c :: cur) :: split_lines [] s'
      else split_lines (c :: cur) s'
  end.

Definition text_lines (text : string) : list (list ascii) :=
  split_lines [] (universal_newlines (list_ascii_of_string text)).

(** *** csv.reader with the default (excel) dialect

    The reader is the state machine of the [_csv] module with delimiter
    [,], quote character DQUOTE, doubled quotes, no escape character, no
    skipping of initial spaces, no strict mode, and the default limit of
    131072 characters for one field. *)

Inductive ParserState :=
| START_RECORD | START_FIELD | IN_FIELD | IN_QUOTED_FIELD
| QUOTE_IN_QUOTED_FIELD | EAT_CRNL.

Definition ParserState_eqb (a b : ParserState) : bool :=
  match a, b with
  | START_RECORD, START_RECORD | START_FIELD, START_FIELD | IN_FIELD, IN_FIELD
  | IN_QUOTED_FIELD, IN_QUOTED_FIELD
  | QUOTE_IN_QUOTED_FIELD, QUOTE_IN_QUOTED_FIELD | EAT_CRNL, EAT_CRNL => true
  | _, _ => false
  end.

(** [field] is the field being read, last character first, and
    [field_len] the number of its characters. *)
Record ReaderObj := mkReader {
  state : ParserState;
  fields : list string;
  field : list ascii;
  field_len : N
}.

Definition parse_reset : ReaderObj := mkReader START_RECORD [] [] 0.

Definition parse_save_field (r : ReaderObj) : ReaderObj :=
  mkReader (state r) (fields r ++ [string_of_list_ascii (rev (field r))]) [] 0.

Definition field_limit : N := 131072.

(** One more character, a byte at a time: the bytes that continue a
    character do not count.  [None] is the [csv.Error] for a field larger
    than the limit. *)
Definition parse_add_char (r : ReaderObj) (c : ascii) : option ReaderObj :=
  if is_continuation c then
    Some (mkReader (state r) (fields r) (c :: field r) (field_len r))
  else if (field_limit <=? field_len r)%N then None
  else Some (mkReader (state r) (fields r) (c :: field r) (N.succ (field_len r))).

Definition set_state (r : ReaderObj) (s : ParserState) : ReaderObj :=
  mkReader s (fields r) (field r) (field_len r).

Definition is_newline (c : ascii) : bool := Ascii.eqb c LF || Ascii.eqb c CR.

(** One step of the reader; the input [None] is the end of a line, the
    result [None] is [csv.Error]. *)
Definition parse_process_char (r : ReaderObj) (c : option ascii) : option ReaderObj :=
  let add_char (r : ReaderObj) (ch : ascii) (s : ParserState) :=
    option_map (fun r' => set_state r' s) (parse_add_char r ch) in
  let start_field (r : ReaderObj) :=
    match c with
    | None => Some (set_state (parse_save_field r) START_RECORD)
    | Some ch =>
        if is_newline ch then Some (set_state (parse_save_field r) EAT_CRNL)
        else if Ascii.eqb ch DQUOTE then Some (set_state r IN_QUOTED_FIELD)
        else if Ascii.eqb ch "," then Some (set_state (parse_save_field r) START_FIELD)
        else add_char r ch IN_FIELD
    end in
  match state r with
  | START_RECORD =>
      match c with
      | None => Some r
      | Some ch => if is_newline ch then Some (set_state r EAT_CRNL)
                   else start_field r
      end
  | START_FIELD => start_field r
  | IN_FIELD =>
      match c with
      | None => Some (set_state (parse_save_field r) START_RECORD)
      | Some ch =>
          if is_newline ch then Some (set_state (parse_save_field r) EAT_CRNL)
          else if Ascii.eqb ch "," then Some (set_state (parse_save_field r) START_FIELD)
          else add_char r ch IN_FIELD
      end
  | IN_QUOTED_FIELD =>
      match c with
      | None => Some r
      | Some ch =>
          if Ascii.eqb ch DQUOTE then Some (set_state r QUOTE_IN_QUOTED_FIELD)
          else add_char r ch IN_QUOTED_FIELD
      end
  | QUOTE_IN_QUOTED_FIELD =>
      match c with
      | None => Some (set_state (parse_save_field r) START_RECORD)
      | Some ch =>
          if Ascii.eqb ch DQUOTE then add_char r ch IN_QUOTED_FIELD
          else if Ascii.eqb ch "," then Some (set_state (parse_save_field r) START_FIELD)
          else if is_newline ch then Some (set_state (parse_save_field r) EAT_CRNL)
          else add_char r ch IN_FIELD
      end
  | EAT_CRNL =>
      match c with
      | None => Some (set_state r START_RECORD)
      | Some ch => if is_newline ch then Some r else None
      end
  end.

(** The characters of one line, then the end of the line. *)
Fixpoint parse_line (r : ReaderObj) (line : list ascii) : option ReaderObj :=
  match line with
  | [] => parse_process_char r None
  | c :: line' =>
      match parse_process_char r (Some c) with
      | Some r' => parse_line r' line'
      | None => None
      end
  end.

(** All rows of the reader: a row is complete when a line ends in state
    [START_RECORD]; input that ends inside a record yields what was read. *)
Fixpoint reader_rows (r : ReaderObj) (lines : list (list ascii)) : option (list (list string)) :=
  match lines with
  | [] =>
      if negb (length (field r) =? 0)%nat || ParserState_eqb (state r) IN_QUOTED_FIELD
      then Some [fields (parse_save_field r)]
      else Some []
  | line :: rest =>
      match parse_line r line with
      | None => None
      | Some r' =>
          if ParserState_eqb (state r') START_RECORD
          then option_map (cons (fields r')) (reader_rows parse_reset rest)
          else reader_rows r' rest
      end
  end.

(** [list(csv.reader(f))] for a text file with contents [text]. *)
Definition csv_reader (text : string) : option (list (list string)) :=
  reader_rows parse_reset (text_lines text).

End Py.

(** ** The world of a run and the monad of the script *)

Inductive exn :=
| ZeroDivisionError | FileNotFoundError | CsvError | TypeError
| ValueError | UnicodeDecodeError
| IsADirectoryError | NotADirectoryError | PermissionError | OSError.

(** Why the system refuses to open a file: it does not exist (or, for
    writing, its directory does not exist or its name is empty), it is a
    directory, a part of its path is no directory, the permissions forbid
    it, the path holds a NUL character, or another error of the system. *)
Inductive open_failure :=
| NoSuchFile | IsADirectory | NotADirectory | PermissionDenied | EmbeddedNul
| OtherFailure.

Definition exn_of_failure (f : open_failure) : exn :=
  match f with
  | NoSuchFile => FileNotFoundError
  | IsADirectory => IsADirectoryError
  | NotADirectory => NotADirectoryError
  | PermissionDenied => PermissionError
  | EmbeddedNul => ValueError
  | OtherFailure => OSError
  end.

(** How a piece of the script ends: it returns, it leaves the process with
    [sys.exit(code)], or an exception escapes. *)
Inductive result (A : Type) :=
| Ret (a : A)
| Exit (code : Z)
| Raise (e : exn).
Arguments Ret {A} a.
Arguments Exit {A} code.
Arguments Raise {A} e.

(** [listdir d] is the names in directory [d] in the order the system gives
    them, or [None] when [d] is not a directory; [glob_dirs p] is the
    directories [glob] finds for a directory pattern [p] that holds a
    wildcard, in the order it yields them, or [None] when that search
    raises ValueError; [read_error] and [write_error] tell why a path does
    not open for reading or for writing, if it does not; [prog] and [usage]
    are the program name and the usage text of the argument parser;
    [files] maps a path to the bytes of the file there; [stdout] and
    [stderr] hold what was printed so far, piece by piece. *)
Record world := mkWorld {
  listdir : string -> option (list string);
  glob_dirs : string -> option (list string);
  read_error : string -> option open_failure;
  write_error : string -> option open_failure;
  prog : string;
  usage : string;
  files : gmap string string;
  stdout : list string;
  stderr : list string
}.

Definition set_files (w : world) (f : gmap string string) : world :=
  mkWorld (listdir w) (glob_dirs w) (read_error w) (write_error w) (prog w) (usage w)
          f (stdout w) (stderr w).

Definition set_stdout (w : world) (out : list string) : world :=
  mkWorld (listdir w) (glob_dirs w) (read_error w) (write_error w) (prog w) (usage w)
          (files w) out (stderr w).

Definition set_stderr (w : world) (err : list string) : world :=
  mkWorld (listdir w) (glob_dirs w) (read_error w) (write_error w) (prog w) (usage w)
          (files w) (stdout w) err.

Definition Prog (A : Type) : Type := world -> result A * world.

Definition ret {A} (a : A) : Prog A := fun w => (Ret a, w).

Definition bind {A B} (m : Prog A) (k : A -> Prog B) : Prog B :=
  fun w =>
    match m w with
    | (Ret a, w') => k a w'
    | (Exit c, w') => (Exit c, w')
    | (Raise e, w') => (Raise e, w')
    end.

Declare Scope prog_scope.
Delimit Scope prog_scope with prog.
Notation "x <- m ;; k" := (bind m (fun x => k))
  (at level 100, m at next level, right associativity) : prog_scope.
Notation "m ;; k" := (bind m (fun _ => k))
  (at level 100, right associativity) : prog_scope.
Local Open Scope prog_scope.

(** [sys.exit(code)] *)
Definition sys_exit {A} (code : Z) : Prog A := fun w => (Exit code, w).

Definition raise {A} (e : exn) : Prog A := fun w => (Raise e, w).

(** [print(line)], for a line that is valid UTF-8 (Python refuses to
    encode any other). *)
Definition print (line : string) : Prog unit :=
  fun w => (Ret tt, set_stdout w (stdout w ++ [line])).

(** [parser.error(message)]: the usage text and the message, after the
    program name, go to the standard error stream and the process ends
    with status 2. *)
Definition parser_error {A} (message : string) : Prog A :=
  fun w => (Exit 2,
            set_stderr w (stderr w ++ [usage w; prog w +:+ ": error: " +:+ message])).

(** [os.path.isdir(path)] *)
Definition os_path_isdir (path : string) : Prog bool :=
  fun w => (Ret (bool_decide (is_Some (listdir w path))), w).

(** The names in a directory as [glob] reads them with [os.scandir]: none
    when the system cannot list it (OSError is caught); a NUL character in
    the path raises ValueError, which is not caught. *)
Definition glob_listdir (dirname : string) : Prog (list string) :=
  fun w =>
    if Py.has_nul dirname then (Raise ValueError, w)
    else (Ret (default [] (listdir w dirname)), w).

(** The whole text of [open(path, 'r')], as the loop over its lines gets
    it.  A file that is not valid UTF-8 is refused as a whole: Python finds
    the undecodable byte while it reads, and nothing that was read before
    has any effect outside the loop. *)
Definition read_text (path : string) : Prog string :=
  fun w =>
    match read_error w path with
    | Some f => (Raise (exn_of_failure f), w)
    | None =>
        match files w !! path with
        | Some text =>
            if Py.utf8_valid text then (Ret text, w)
            else (Raise UnicodeDecodeError, w)
        | None => (Raise FileNotFoundError, w)
        end
    end.

(** [open(path, 'w')]: the file is created or emptied, unless the system
    refuses. *)
Definition open_w (path : string) : Prog unit :=
  fun w =>
    match write_error w path with
    | Some f => (Raise (exn_of_failure f), w)
    | None => (Ret tt, set_files w (<[path := ""]> (files w)))
    end.

(** [f.write(s)] on the file opened at [path], for a text that is valid
    UTF-8 (Python refuses to encode any other). *)
Definition f_write (path : string) (s : string) : Prog unit :=
  fun w => (Ret tt,
            set_files w (<[path := default "" (files w !! path) +:+ s]> (files w))).

(** A [for] loop over a list. *)
Fixpoint for_each {A} (l : list A) (body : A -> Prog unit) : Prog unit :=
  match l with
  | [] => ret tt
  | x :: l' => body x ;; for_each l' body
  end.

(** [enumerate(l)] *)
Definition enumerate {A} (l : list A) : list (nat * A) :=
  combine (seq 0 (length l)) l.

(** ** The script *)

(** The directories [glob] searches for the directory part of a pattern:
    the part itself when it is literal, what the search of the file system
    finds when it holds a wildcard. *)
Definition glob_dirs_of (dirname : string) : Prog (list string) :=
  if Py.has_magic dirname then
    fun w =>
      match glob_dirs w dirname with
      | Some dirs => (Ret dirs, w)
      | None => (Raise ValueError, w)
      end
  else ret [dirname].

(** The matches of [basename] in each of [dirs], with the directory put
    before each name. *)
Fixpoint glob_in_dirs (dirs : list string) (basename : string) : Prog (list string) :=
  match dirs with
  | [] => ret []
  | dirname :: rest =>
      names <- glob_listdir dirname ;;
      more <- glob_in_dirs rest basename ;;
      ret (map (Py.path_join dirname) (Py.glob1 names basename) ++ more)
  end.

(** [glob.glob(pathname)] for a pattern whose last component holds a
    wildcard. *)
Definition glob_glob (pathname : string) : Prog (list string) :=
  let '(dirname, basename) := Py.path_split pathname in
  if String.eqb dirname "" then
    names <- glob_listdir "." ;;
    ret (Py.glob1 names basename)
  else
    dirs <- glob_dirs_of dirname ;;
    glob_in_dirs dirs basename.

Definition get_sorted_images (directory : string) : Prog (list string) :=
  let pattern := Py.path_join directory "*.png" in
  images <- glob_glob pattern ;;
  let images := Py.list_sort images in
  ret (map Py.path_basename images).

(** One line of the output file: [f"{timestamp:.6f} {filename}\n"]. *)
Definition record_line (timestamp : Py.float) (filename : string) : string :=
  Py.format_6f timestamp +:+ " " +:+ filename +:+ Py.nl.

Definition is_empty {A} (l : list A) : bool :=
  match l with [] => true | _ => false end.

Definition generate_from_fps (fps : Py.float) (left_dir output_file : string) : Prog unit :=
  images <- get_sorted_images left_dir ;;
  (if is_empty images then
     print ("Error: No PNG files found in " +:+ left_dir) ;;
     sys_exit 1
   else ret tt) ;;
  dt <- match Py.truediv Py.float_one fps with
        | Some dt => ret dt
        | None => raise ZeroDivisionError
        end ;;
  open_w output_file ;;
  f_write output_file
    ("# Generated timestamps for " +:+ Py.str_of_nat (length images)
       +:+ " frames at " +:+ Py.float_repr fps +:+ " fps" +:+ Py.nl) ;;
  f_write output_file ("# timestamp(s) filename" +:+ Py.nl) ;;
  for_each (enumerate images) (fun '(idx, filename) =>
    let timestamp := Py.float_mul (Py.float_of_Z (Z.of_nat idx)) dt in
    f_write output_file (record_line timestamp filename)) ;;
  print ("Generated " +:+ output_file +:+ " with " +:+ Py.str_of_nat (length images)
           +:+ " timestamps at " +:+ Py.float_repr fps +:+ " fps").

(** The body of the loop over the rows of the table.  The two lists are
    Python lists changed in place: what was appended before an exception
    stays appended when [except] continues with the next row. *)
Definition csv_row (time_column : Z) (filename_column : option Z)
    (acc : list Py.float * list string) (row : list string)
    : list Py.float * list string :=
  let '(timestamps, filenames_from_csv) := acc in
  match row with
  | [] => acc
  | first :: _ =>
      if Py.startswith first "#" then acc
      else
        match Py.getitem row time_column with
        | None => acc                                     (* IndexError *)
        | Some cell =>
            match Py.float_of_string cell with
            | None => acc                                 (* ValueError *)
            | Some timestamp =>
                let timestamps := timestamps ++ [timestamp] in
                match filename_column with
                | None => (timestamps, filenames_from_csv)
                | Some fc =>
                    match Py.getitem row fc with
                    | None => (timestamps, filenames_from_csv)   (* IndexError *)
                    | Some name => (timestamps, filenames_from_csv ++ [name])
                    end
                end
            end
        end
  end.

Definition csv_rows (time_column : Z) (filename_column : option Z)
    (rows : list (list string)) : list Py.float * list string :=
  fold_left (csv_row time_column filename_column) rows ([], []).

Definition generate_from_csv (csv_file left_dir output_file : string)
    (time_column : Z) (filename_column : option Z) : Prog unit :=
  images <- get_sorted_images left_dir ;;
  (if is_empty images then
     print ("Error: No PNG files found in " +:+ left_dir) ;;
     sys_exit 1
   else ret tt) ;;
  text <- read_text csv_file ;;
  rows <- match Py.csv_reader text with
          | Some rows => ret rows
          | None => raise CsvError
          end ;;
  let '(timestamps, filenames_from_csv) := csv_rows time_column filename_column rows in
  (if is_empty timestamps then
     print ("Error: No valid timestamps found in " +:+ csv_file) ;;
     sys_exit 1
   else ret tt) ;;
  output_list <-
    (if negb (is_empty filenames_from_csv)
        && (length filenames_from_csv =? length timestamps)%nat
     then ret (combine timestamps filenames_from_csv)
     else if (length timestamps =? length images)%nat
     then ret (combine timestamps images)
     else
       print ("Error: Number of timestamps (" +:+ Py.str_of_nat (length timestamps)
                +:+ ") doesn't match number of images ("
                +:+ Py.str_of_nat (length images) +:+ ")") ;;
       sys_exit 1) ;;
  open_w output_file ;;
  f_write output_file ("# Generated from " +:+ csv_file +:+ Py.nl) ;;
  f_write output_file ("# timestamp(s) filename" +:+ Py.nl) ;;
  for_each output_list (fun '(timestamp, filename) =>
    f_write output_file (record_line timestamp filename)) ;;
  print ("Generated " +:+ output_file +:+ " with " +:+ Py.str_of_nat (length output_list)
           +:+ " timestamps from " +:+ csv_file).

(** The parsed command line. *)
Record Namespace := mkArgs {
  fps : option Py.float;
  csv_file : option string;
  time_column : Z;
  filename_column : option Z;
  left_dir : string;
  output : string
}.

(** Truth value of [args.fps]: [None] and zero are false. *)
Definition fps_truthy (args : Namespace) : bool :=
  match fps args with Some f => Py.float_truthy f | None => false end.

(** Truth value of [args.csv_file]: [None] and the empty string are false. *)
Definition csv_file_truthy (args : Namespace) : bool :=
  match csv_file args with Some s => negb (String.eqb s "") | None => false end.

(** [main] after [parse_args], with the two generators it calls as
    parameters. *)
Definition main_with
    (gen_fps : Py.float -> string -> string -> Prog unit)
    (gen_csv : string -> string -> string -> Z -> option Z -> Prog unit)
    (args : Namespace) : Prog unit :=
  (if negb (fps_truthy args) && negb (csv_file_truthy args) then
     parser_error "Either --fps or --csv-file must be specified"
   else ret tt) ;;
  (if fps_truthy args && csv_file_truthy args then
     parser_error "Cannot specify both --fps and --csv-file"
   else ret tt) ;;
  isdir <- os_path_isdir (left_dir args) ;;
  (if negb isdir then
     print ("Error: Directory not found: " +:+ left_dir args) ;;
     sys_exit 1
   else ret tt) ;;
  if fps_truthy args then
    match fps args with
    | Some f => gen_fps f (left_dir args) (output args)
    | None => raise TypeError
    end
  else
    match csv_file args with
    | Some c => gen_csv c (left_dir args) (output args)
                  (time_column args) (filename_column args)
    | None => raise TypeError
    end.

Definition main : Namespace -> Prog unit :=
  main_with generate_from_fps generate_from_csv.

(** ** Vocabulary of the properties *)

(** The directory [glob] lists for [get_sorted_images directory]. *)
Definition scan_dir (directory : string) : string :=
  let d := (Py.path_split (Py.path_join directory "*.png")).1 in
  if String.eqb d "" then "." else d.

(** The PNG files of the directory: the names in it that [glob] matches
    against [*.png], in the order the system lists them. *)
Definition png_names (w : world) (directory : string) : list string :=
  Py.glob1 (default [] (listdir w (scan_dir directory))) "*.png".

(** What [get_sorted_images] returns in a world. *)
Definition sorted_images (w : world) (directory : string) : list string :=
  match get_sorted_images directory w with
  | (Ret images, _) => images
  | _ => []
  end.

(** A name of a directory entry holds no ['/']. *)
Fixpoint no_sep (s : string) : bool :=
  match s with
  | EmptyString => true
  | String c s' => negb (Ascii.eqb c "/") && no_sep s'
  end.

(** Entries of a directory whose names are plain names and valid text. *)
Definition plain_names (names : list string) : Prop :=
  Forall (fun name => no_sep name = true /\ Py.utf8_valid name = true) names.

(** A directory argument that is taken as it is written: valid text with
    no NUL character and none of the wildcard characters of [glob]. *)
Definition literal_path (p : string) : Prop :=
  Py.utf8_valid p = true /\ Py.has_nul p = false /\ Py.has_magic p = false.

(** The table at [csv_file] opens for reading, its bytes [text] are valid
    UTF-8, and the reader gets through it. *)
Definition reads_table (w : world) (csv_file text : string) : Prop :=
  Py.utf8_valid csv_file = true
  /\ read_error w csv_file = None
  /\ files w !! csv_file = Some text
  /\ Py.utf8_valid text = true
  /\ is_Some (Py.csv_reader text).

(** The output file has a name that is valid text, and opens for
    writing. *)
Definition writable (w : world) (output_file : string) : Prop :=
  Py.utf8_valid output_file = true /\ write_error w output_file = None.

(** The world after one more line on the standard output. *)
Definition printed (w : world) (line : string) : world :=
  set_stdout w (stdout w ++ [line]).

(** The world after the file at [path] has been written with [content] and
    one line printed. *)
Definition written (w : world) (path content line : string) : world :=
  set_stdout (set_files w (<[path := content]> (files w))) (stdout w ++ [line]).

(** The text a loop over pairs writes, [h a b] for the pair [(a, b)]. *)
Fixpoint pairs_text {A B} (h : A -> B -> string) (l : list (A * B)) : string :=
  match l with
  | [] => ""
  | (a, b) :: rest => h a b +:+ pairs_text h rest
  end.

(** The text of a list of records, one line each. *)
Definition lines_text (records : list (Py.float * string)) : string :=
  pairs_text record_line records.

(** A prefix that is empty or ends with the separator. *)
Definition dir_prefix (p : string) : Prop := p = "" \/ exists y, p = y +:+ "/".

(** What [os.path.join] puts before a name. *)
Definition glob_prefix (dirname : string) : string :=
  if String.eqb dirname "" || Py.endswith dirname Py.sep then dirname
  else dirname +:+ "/".

(** The records of the fixed-rate mode for a frame interval [dt]. *)
Definition fps_records (dt : Py.float) (images : list string) : list (Py.float * string) :=
  map (fun '(idx, filename) => (Py.float_mul (Py.float_of_Z (Z.of_nat idx)) dt, filename))
      (enumerate images).

Definition fps_header (n : nat) (fps : Py.float) : string :=
  "# Generated timestamps for " +:+ Py.str_of_nat n
    +:+ " frames at " +:+ Py.float_repr fps +:+ " fps" +:+ Py.nl
    +:+ "# timestamp(s) filename" +:+ Py.nl.

Definition fps_summary (output_file : string) (n : nat) (fps : Py.float) : string :=
  "Generated " +:+ output_file +:+ " with " +:+ Py.str_of_nat n
    +:+ " timestamps at " +:+ Py.float_repr fps +:+ " fps".

Definition csv_header (csv_file : string) : string :=
  "# Generated from " +:+ csv_file +:+ Py.nl +:+ "# timestamp(s) filename" +:+ Py.nl.

Definition csv_summary (output_file : string) (n : nat) (csv_file : string) : string :=
  "Generated " +:+ output_file +:+ " with " +:+ Py.str_of_nat n
    +:+ " timestamps from " +:+ csv_file.

(** The three fatal messages of the script. *)
Definition msg_empty_directory (left_dir : string) : string :=
  "Error: No PNG files found in " +:+ left_dir.

Definition msg_no_valid_rows (csv_file : string) : string :=
  "Error: No valid timestamps found in " +:+ csv_file.

Definition msg_count_mismatch (n_timestamps n_images : nat) : string :=
  "Error: Number of timestamps (" +:+ Py.str_of_nat n_timestamps
    +:+ ") doesn't match number of images (" +:+ Py.str_of_nat n_images +:+ ")".

(** A row the loop looks at: not empty and not a comment. *)
Definition is_data_row (row : list string) : bool :=
  match row with
  | [] => false
  | first :: _ => negb (Py.startswith first "#")
  end.

(** The timestamp a row yields: its timestamp column read as a float. *)
Definition row_timestamp (time_column : Z) (row : list string) : option Py.float :=
  if is_data_row row then
    match Py.getitem row time_column with
    | Some cell => Py.float_of_string cell
    | None => None
    end
  else None.

(** The file name a row yields next to its timestamp. *)
Definition row_filename (filename_column : Z) (row : list string) : option string :=
  Py.getitem row filename_column.

(** A float that is neither infinite nor a NaN. *)
Definition is_finite (x : Py.float) : bool :=
  match x with
  | S754_zero _ | S754_finite _ _ _ => true
  | _ => false
  end.

(** The rows [csv.reader] yields for the text of a table. *)
Definition table_rows (text : string) : list (list string) :=
  default [] (Py.csv_reader text).

(** The choice of the records to write, in the order the script tries:
    the file names of the table, then the images of the directory, then
    nothing. *)
Definition select_output (timestamps : list Py.float) (filenames images : list string)
    : option (list (Py.float * string)) :=
  if negb (is_empty filenames) && (length filenames =? length timestamps)%nat
  then Some (combine timestamps filenames)
  else if (length timestamps =? length images)%nat
  then Some (combine timestamps images)
  else None.

(** A character that ends no line. *)
Definition plain (c : ascii) : Prop := Py.is_newline c = false.

(** A line of a text file: plain characters, then possibly one LF. *)
Definition good_line (line : list ascii) : Prop :=
  exists body, Forall plain body /\ (line = body \/ line = body ++ [Py.LF]).

(** The timestamps of a table, row by row. *)
Fixpoint table_timestamps (time_column : Z) (rows : list (list string)) : list Py.float :=
  match rows with
  | [] => []
  | row :: rest =>
      match row_timestamp time_column row with
      | Some t => t :: table_timestamps time_column rest
      | None => table_timestamps time_column rest
      end
  end.

(** The file names taken from a table: one for each row that yields a
    timestamp and has the file name column. *)
Fixpoint table_filenames (time_column : Z) (filename_column : option Z)
    (rows : list (list string)) : list string :=
  match rows with
  | [] => []
  | row :: rest =>
      match row_timestamp time_column row, filename_column with
      | Some _, Some fc =>
          match row_filename fc row with
          | Some name => name :: table_filenames time_column filename_column rest
          | None => table_filenames time_column filename_column rest
          end
      | _, _ => table_filenames time_column filename_column rest
      end
  end.

(** The (timestamp, file name) pairs a table carries itself, row by row. *)
Fixpoint table_pairs (time_column filename_column : Z)
    (rows : list (list string)) : list (Py.float * string) :=
  match rows with
  | [] => []
  | row :: rest =>
      match row_timestamp time_column row, row_filename filename_column row with
      | Some t, Some name => (t, name) :: table_pairs time_column filename_column rest
      | _, _ => table_pairs time_column filename_column rest
      end
  end.

(** [q] is the integer nearest to [m * 2^e * 10^6], and the even one when
    two integers are equally near. *)
Definition nearest_micro (m : positive) (e : Z) (q : Z) : Prop :=
  if 0 <=? e then q = Zpos m * 2 ^ e * 1000000
  else
    let d := 2 * Z.abs (q * 2 ^ (- e) - Zpos m * 1000000) in
    d <= 2 ^ (- e) /\ (d = 2 ^ (- e) -> Z.even q = true).

(** The number a string of decimal digits writes, continued from [acc];
    [None] when a character is no digit. *)
Fixpoint digits_value (acc : Z) (s : string) : option Z :=
  match s with
  | EmptyString => Some acc
  | String c s' =>
      if Py.is_digit c then digits_value (10 * acc + Py.digit_val c) s' else None
  end.

(** The text of a float shows it rounded to six decimals: for a finite
    float the sign, the integer part, a point and exactly six digits, which
    together write the multiple of [10^-6] nearest to the float (the even
    one of two); [nan], [inf] and [-inf] for the other floats. *)
Definition rounded_to_6_decimals (x : Py.float) (text : string) : Prop :=
  match x with
  | S754_finite s m e =>
      exists q d6,
        nearest_micro m e q
        /\ String.length d6 = 6%nat
        /\ digits_value 0 d6 = Some (q mod 1000000)
        /\ text = (if s then "-" else "") +:+ Py.str_of_Z (q / 1000000) +:+ "." +:+ d6
  | S754_zero s => text = (if s then "-" else "") +:+ "0.000000"
  | S754_infinity s => text = if s then "-inf" else "inf"
  | S754_nan => text = "nan"
  end.

(** Every row the loop looks at carries a timestamp and a file name. *)
Definition full_rows (time_column fc : Z) (rows : list (list string)) : Prop :=
  Forall (fun row => is_data_row row = true ->
            is_Some (row_timestamp time_column row) /\ is_Some (row_filename fc row))
         rows.

(** ** A small world for the examples

    Directory [frames] holds two PNG files among other entries, [one] holds
    one, [empty] holds none; the directory whose name is written
    [fr[a]mes] holds one PNG file, but [glob] reads that name as a pattern,
    which stands for [frames].  [times.csv] is a table with a comment, two
    good rows and a malformed one; [short.csv] has a second row without a
    file name; every row of [good.csv] has a timestamp and a file name, no
    row of [bad.csv] has a timestamp; [none.csv] is empty; the first row
    of [hash.csv] starts with [#]; [latin1.csv] is not UTF-8; [secret.csv]
    may not be read.  [out.txt] is left from an earlier run; [locked.txt]
    may not be written, and an output file with the empty name cannot be
    opened. *)

Definition ex_listdir (d : string) : option (list string) :=
  if String.eqb d "frames" then Some ["b.png"; "a.png"; "notes.txt"; ".hidden.png"]
  else if String.eqb d "one" then Some ["a.png"]
  else if String.eqb d "empty" then Some ["notes.txt"]
  else if String.eqb d "fr[a]mes" then Some ["x.png"]
  else None.

Definition ex_glob_dirs (p : string) : option (list string) :=
  if String.eqb p "fr[a]mes" then Some ["frames"] else Some [].

Definition ex_read_error (path : string) : option open_failure :=
  if String.eqb path "secret.csv" then Some PermissionDenied
  else if String.eqb path "frames" then Some IsADirectory
  else None.

Definition ex_write_error (path : string) : option open_failure :=
  if String.eqb path "locked.txt" then Some PermissionDenied
  else if String.eqb path "" then Some NoSuchFile
  else if String.eqb path "frames" then Some IsADirectory
  else None.

Definition ex_table : string :=
  "# header" +:+ Py.nl +:+ "1.0,imgA.png" +:+ Py.nl +:+ "bad,row" +:+ Py.nl
    +:+ "2.0,imgB.png" +:+ Py.nl.

Definition ex_short_table : string :=
  "1.0,imgA.png" +:+ Py.nl +:+ "2.0" +:+ Py.nl.

Definition ex_good_table : string :=
  "1.0,imgA.png" +:+ Py.nl +:+ "2.0,imgB.png" +:+ Py.nl.

Definition ex_bad_table : string :=
  "# only a comment" +:+ Py.nl +:+ "x,y" +:+ Py.nl +:+ Py.nl +:+ "z" +:+ Py.nl.

Definition ex_hash_table : string :=
  "#1,1.0,imgA.png" +:+ Py.nl +:+ "2,2.0,imgB.png" +:+ Py.nl.

(** The byte 0xE9, [e] with an acute accent in Latin-1, between ASCII
    characters. *)
Definition ex_latin1_table : string :=
  "1.0,caf" +:+ String (ascii_of_nat 233) ".png" +:+ Py.nl.

Definition ex_files : gmap string string :=
  {[ "times.csv" := ex_table; "short.csv" := ex_short_table;
     "good.csv" := ex_good_table; "bad.csv" := ex_bad_table;
     "none.csv" := ""; "hash.csv" := ex_hash_table;
     "latin1.csv" := ex_latin1_table; "secret.csv" := ex_good_table;
     "out.txt" := "old"; "locked.txt" := "kept" ]}.

Definition ex_usage : string :=
  "usage: generate_timestamps.py [-h] [--fps FPS] [--csv-file CSV_FILE]"
    +:+ " [--time-column TIME_COLUMN] [--filename-column FILENAME_COLUMN]"
    +:+ " --left-dir LEFT_DIR [--output OUTPUT]".

Definition ex_world : world :=
  mkWorld ex_listdir ex_glob_dirs ex_read_error ex_write_error
          "generate_timestamps.py" ex_usage ex_files [] [].

(** 30.0, -5.0, and the least positive float [2^-1074]. *)
Definition f30 : Py.float := Eval vm_compute in Py.float_of_Z 30.
Definition fminus5 : Py.float := Eval vm_compute in Py.float_of_Z (-5).
Definition ftiny : Py.float := S754_finite false 1 (-1074).

(** [--fps -5 --left-dir frames --output out.txt] and
    [--fps 0 --left-dir frames --output out.txt] *)
Definition ex_args_negative : Namespace :=
  mkArgs (Some fminus5) None 0 None "frames" "out.txt".
Definition ex_args_zero : Namespace :=
  mkArgs (Some (S754_zero false)) None 0 None "frames" "out.txt".

(** ** More of the vocabulary and of the examples *)

(** The world [w] with the file at [path] holding [old]. *)
Definition with_file (w : world) (path old : string) : world :=
  set_files w (<[path := old]> (files w)).

(** The directories of [ex_listdir], with [frames] listed in another
    order. *)
Definition ex_listdir_reordered (d : string) : option (list string) :=
  if String.eqb d "frames" then Some [".hidden.png"; "a.png"; "notes.txt"; "b.png"]
  else ex_listdir d.

Definition ex_world_reordered : world :=
  mkWorld ex_listdir_reordered ex_glob_dirs ex_read_error ex_write_error
          "generate_timestamps.py" ex_usage ex_files [] [].

(** [--csv-file times.csv --filename-column 1 --left-dir nowhere] *)
Definition ex_args_nowhere : Namespace :=
  mkArgs None (Some "times.csv") 0 (Some 1) "nowhere" "out.txt".

(** ** The runtime on small inputs *)

Section RuntimeExamples.

Example path_join_plain : Py.path_join "frames" "*.png" = "frames/*.png".
Proof. reflexivity. Qed.

Example path_join_slash : Py.path_join "frames/" "*.png" = "frames/*.png".
Proof. reflexivity. Qed.

Example path_split_pattern_plain :
  Py.path_split "frames/*.png" = ("frames", "*.png")
  /\ Py.path_split "*.png" = ("", "*.png")
  /\ Py.path_split "/*.png" = ("/", "*.png").
Proof. repeat split. Qed.

Example scan_dir_examples :
  scan_dir "frames" = "frames" /\ scan_dir "frames/" = "frames"
  /\ scan_dir "" = "." /\ scan_dir "/" = "/".
Proof. repeat split. Qed.

Example path_basename_plain : Py.path_basename "frames/a.png" = "a.png".
Proof. reflexivity. Qed.

Example glob1_png :
  Py.glob1 ["b.png"; "a.png"; "notes.txt"; ".hidden.png"; "A.PNG"; "c.png.bak"]
           "*.png"
  = ["b.png"; "a.png"].
Proof. reflexivity. Qed.

(** The order is that of the bytes, not of the numbers in the names. *)
Example list_sort_bytes :
  Py.list_sort ["b.png"; "a.png"; "10.png"; "9.png"; "B.png"]
  = ["10.png"; "9.png"; "B.png"; "a.png"; "b.png"].
Proof. reflexivity. Qed.

Example getitem_examples :
  Py.getitem ["a"; "b"; "c"] 0 = Some "a"
  /\ Py.getitem ["a"; "b"; "c"] (-1) = Some "c"
  /\ Py.getitem ["a"; "b"; "c"] 3 = None
  /\ Py.getitem ["a"; "b"; "c"] (-4) = None.
Proof. repeat split. Qed.

Example float_of_string_examples :
  Py.float_of_string "1.0" = Some Py.float_one
  /\ Py.float_of_string " 3e1 " = Some f30
  /\ Py.float_of_string "-5" = Some fminus5
  /\ Py.float_of_string "5e-324" = Some ftiny
  /\ Py.float_of_string "-inf" = Some (S754_infinity true)
  /\ Py.float_of_string "NaN" = Some S754_nan
  /\ Py.float_of_string "1_0" = Some (Py.float_of_Z 10)
  /\ Py.float_of_string "bad" = None
  /\ Py.float_of_string "" = None
  /\ Py.float_of_string "1e" = None
  /\ Py.float_of_string "1__0" = None
  /\ Py.float_of_string "0x10" = None.
Proof. repeat split; vm_compute; reflexivity. Qed.

Example format_6f_examples :
  Py.format_6f (Py.float_div Py.float_one f30) = "0.033333"
  /\ Py.format_6f (Py.float_of_Z 12) = "12.000000"
  /\ Py.format_6f (S754_zero true) = "-0.000000"
  /\ Py.format_6f S754_nan = "nan"
  /\ Py.format_6f (S754_infinity false) = "inf".
Proof. repeat split; vm_compute; reflexivity. Qed.

Example float_repr_examples :
  Py.float_repr f30 = "30.0"
  /\ Py.float_repr (Py.float_div Py.float_one f30) = "0.03333333333333333"
  /\ Py.float_repr fminus5 = "-5.0"
  /\ Py.float_repr (Py.float_of_Z (10 ^ 16)) = "1e+16".
Proof. repeat split; vm_compute; reflexivity. Qed.

(** A quoted field may hold the delimiter, a doubled quote and a line end. *)
Example csv_reader_quoted :
  Py.csv_reader
    ("a," +:+ String Py.DQUOTE "b,c" +:+ String Py.DQUOTE (String Py.DQUOTE "d")
       +:+ Py.nl +:+ "e" +:+ String Py.DQUOTE "" +:+ Py.nl
       +:+ Py.nl +:+ "x,," +:+ String Py.CR "y")
  = Some [["a"; "b,c" +:+ String Py.DQUOTE "d" +:+ Py.nl +:+ "e"]; []; ["x"; ""; ""]; ["y"]].
Proof. vm_compute. reflexivity. Qed.

Example csv_reader_table :
  Py.csv_reader ex_table
  = Some [["# header"]; ["1.0"; "imgA.png"]; ["bad"; "row"]; ["2.0"; "imgB.png"]].
Proof. vm_compute. reflexivity. Qed.

Example has_magic_examples :
  Py.has_magic "frames" = false /\ Py.has_magic "./ir_left" = false
  /\ Py.has_magic "fr[a]mes" = true /\ Py.has_magic "d?" = true
  /\ Py.has_magic "run*/left" = true.
Proof. repeat split. Qed.

(** [caf] followed by the two bytes of an [e] with an acute accent is
    valid UTF-8; the single byte of Latin-1, an overlong form and a
    surrogate are not. *)
Example utf8_valid_examples :
  Py.utf8_valid ("caf" +:+ String (ascii_of_nat 195) (String (ascii_of_nat 169) "")) = true
  /\ Py.utf8_valid ("caf" +:+ String (ascii_of_nat 233) "") = false
  /\ Py.utf8_valid (String (ascii_of_nat 192) (String (ascii_of_nat 128) "")) = false
  /\ Py.utf8_valid (String (ascii_of_nat 237) (String (ascii_of_nat 160)
                      (String (ascii_of_nat 128) ""))) = false
  /\ Py.utf8_decode (map ascii_of_nat [226; 130; 172]%nat) = Some [8364%N].
Proof. repeat split. Qed.

(** [float] reads the decimal digits and the spaces of Unicode: the
    Arabic-Indic digits one and two, and a no-break space after [1]; a
    letter outside ASCII is refused. *)
Example float_of_string_unicode :
  Py.float_of_string (string_of_list_ascii (map ascii_of_nat [217; 161; 217; 162]%nat))
  = Some (Py.float_of_Z 12)
  /\ Py.float_of_string (string_of_list_ascii (map ascii_of_nat [49; 194; 160]%nat))
     = Some Py.float_one
  /\ Py.float_of_string (string_of_list_ascii (map ascii_of_nat [49; 195; 169]%nat))
     = None.
Proof. repeat split; vm_compute; reflexivity. Qed.

End RuntimeExamples.

(** ** The file system of the examples *)

Section WorldExamples.

(** The directory written [fr[a]mes] holds [x.png], but as a pattern the
    name stands for [frames], whose images are listed instead. *)
Example wildcard_directory_example :
  png_names ex_world "fr[a]mes" = ["x.png"]
  /\ get_sorted_images "fr[a]mes" ex_world = (Ret ["a.png"; "b.png"], ex_world)
  /\ get_sorted_images "frames" ex_world = (Ret ["a.png"; "b.png"], ex_world).
Proof. repeat split. Qed.

Example nul_directory_example :
  get_sorted_images (String Ascii.zero "") ex_world = (Raise ValueError, ex_world).
Proof. reflexivity. Qed.

(** An output file that does not open: the exception escapes after the
    validation, and nothing is changed. *)
Example unwritable_output_examples :
  generate_from_fps f30 "frames" "locked.txt" ex_world
  = (Raise PermissionError, ex_world)
  /\ generate_from_fps f30 "frames" "" ex_world = (Raise FileNotFoundError, ex_world)
  /\ generate_from_csv "good.csv" "frames" "frames" 0 (Some 1) ex_world
     = (Raise IsADirectoryError, ex_world)
  /\ generate_from_fps f30 "empty" "locked.txt" ex_world
     = (Exit 1, printed ex_world "Error: No PNG files found in empty").
Proof. repeat split; vm_compute; reflexivity. Qed.

(** A table that does not open or cannot be decoded. *)
Example unreadable_table_examples :
  generate_from_csv "secret.csv" "frames" "out.txt" 0 None ex_world
  = (Raise PermissionError, ex_world)
  /\ generate_from_csv "missing.csv" "frames" "out.txt" 0 None ex_world
     = (Raise FileNotFoundError, ex_world)
  /\ generate_from_csv "frames" "frames" "out.txt" 0 None ex_world
     = (Raise IsADirectoryError, ex_world)
  /\ generate_from_csv "latin1.csv" "frames" "out.txt" 0 None ex_world
     = (Raise UnicodeDecodeError, ex_world).
Proof. repeat split; vm_compute; reflexivity. Qed.

(** What [parser.error] leaves on the standard error stream. *)
Example parser_error_example :
  main ex_args_zero ex_world
  = (Exit 2,
     set_stderr ex_world
       [ex_usage;
        "generate_timestamps.py: error: Either --fps or --csv-file must be specified"]).
Proof. reflexivity. Qed.

End WorldExamples.

(** ** Strings, paths and sorting *)

Section StringFacts.

Lemma append_cons (c : ascii) (a b : string) : String c a +:+ b = String c (a +:+ b).
Proof. reflexivity. Qed.

Lemma append_nil_l (b : string) : "" +:+ b = b.
Proof. reflexivity. Qed.

Lemma append_nil_r (a : string) : a +:+ "" = a.
Proof. induction a as [|c a IH]; [reflexivity|]. rewrite append_cons, IH. reflexivity. Qed.

Lemma append_assoc (a b c : string) : (a +:+ b) +:+ c = a +:+ (b +:+ c).
Proof.
  induction a as [|x a IH]; [reflexivity|].
  rewrite !append_cons, IH. reflexivity.
Qed.

Lemma length_append (a b : string) :
  String.length (a +:+ b) = (String.length a + String.length b)%nat.
Proof.
  induction a as [|x a IH]; [reflexivity|].
  rewrite append_cons. simpl. rewrite IH. reflexivity.
Qed.

Lemma substring_all (s : string) : String.substring 0 (String.length s) s = s.
Proof. induction s as [|c s IH]; [reflexivity|]. simpl. rewrite IH. reflexivity. Qed.

Lemma substring_app_l (a b : string) :
  String.substring 0 (String.length a) (a +:+ b) = a.
Proof.
  induction a as [|c a IH].
  - simpl. destruct b; reflexivity.
  - rewrite append_cons. simpl. rewrite IH. reflexivity.
Qed.

Lemma substring_app_r (a b : string) :
  String.substring (String.length a) (String.length b) (a +:+ b) = b.
Proof.
  induction a as [|c a IH].
  - simpl. apply substring_all.
  - rewrite append_cons. simpl. exact IH.
Qed.

Lemma substring_split (i : nat) (s : string) :
  (i <= String.length s)%nat ->
  s = String.substring 0 i s +:+ String.substring i (String.length s - i) s.
Proof.
  revert i. induction s as [|c s IH]; intros i Hi.
  - simpl in Hi. assert (i = 0%nat) as -> by lia. reflexivity.
  - destruct i as [|i].
    + simpl. rewrite substring_all. reflexivity.
    + simpl in Hi. simpl. rewrite append_cons. f_equal. apply IH. lia.
Qed.

Lemma ascii_compare_refl (c : ascii) : Ascii.compare c c = Eq.
Proof. unfold Ascii.compare. apply N.compare_refl. Qed.

Lemma compare_app_prefix (p a b : string) :
  String.compare (p +:+ a) (p +:+ b) = String.compare a b.
Proof.
  induction p as [|c p IH]; [reflexivity|].
  rewrite !append_cons. simpl. rewrite ascii_compare_refl. exact IH.
Qed.

Lemma leb_app_prefix (p a b : string) :
  String.leb (p +:+ a) (p +:+ b) = String.leb a b.
Proof. unfold String.leb. rewrite compare_app_prefix. reflexivity. Qed.

End StringFacts.

Section Sorting.

Lemma insert_sorted_perm (x : string) (l : list string) :
  Permutation (Py.insert_sorted x l) (x :: l).
Proof.
  induction l as [|y l IH]; simpl; [reflexivity|].
  destruct (String.leb x y); [reflexivity|].
  rewrite IH. apply perm_swap.
Qed.

Lemma list_sort_perm (l : list string) : Permutation (Py.list_sort l) l.
Proof.
  induction l as [|x l IH]; simpl; [reflexivity|].
  rewrite insert_sorted_perm. constructor. exact IH.
Qed.

Lemma list_sort_length (l : list string) : length (Py.list_sort l) = length l.
Proof. apply Permutation_length, list_sort_perm. Qed.

Lemma insert_sorted_sorted (x : string) (l : list string) :
  StronglySorted String.le l -> StronglySorted String.le (Py.insert_sorted x l).
Proof.
  induction 1 as [|y l Hl IH Hy]; simpl.
  - repeat constructor.
  - destruct (String.leb x y) eqn:Hxy.
    + constructor; [constructor; assumption|].
      constructor.
      * unfold String.le. rewrite Hxy. exact I.
      * eapply Forall_impl; [exact Hy|]. intros z Hz.
        transitivity y; [|exact Hz]. unfold String.le. rewrite Hxy. exact I.
    + constructor; [exact IH|].
      assert (Hyx : String.le y x).
      { destruct (String.leb_total x y) as [H|H]; [congruence|].
        unfold String.le. rewrite H. exact I. }
      eapply Permutation_Forall; [symmetry; apply insert_sorted_perm|].
      constructor; assumption.
Qed.

Lemma list_sort_sorted (l : list string) : StronglySorted String.le (Py.list_sort l).
Proof.
  induction l as [|x l IH]; simpl; [constructor|].
  apply insert_sorted_sorted, IH.
Qed.

(** Sorting commutes with putting one prefix before every string. *)
Lemma insert_sorted_prefix (p x : string) (l : list string) :
  Py.insert_sorted (p +:+ x) (map (String.append p) l)
  = map (String.append p) (Py.insert_sorted x l).
Proof.
  induction l as [|y l IH]; simpl; [reflexivity|].
  rewrite leb_app_prefix. destruct (String.leb x y); simpl; [reflexivity|].
  rewrite IH. reflexivity.
Qed.

Lemma list_sort_prefix (p : string) (l : list string) :
  Py.list_sort (map (String.append p) l) = map (String.append p) (Py.list_sort l).
Proof.
  induction l as [|x l IH]; simpl; [reflexivity|].
  rewrite IH. apply insert_sorted_prefix.
Qed.

End Sorting.

Section Paths.

Lemma after_last_sep_no_sep (s : string) :
  no_sep s = true -> Py.after_last_sep s = 0%nat.
Proof.
  induction s as [|c s IH]; simpl; [reflexivity|].
  intros [Hc Hs]%andb_prop. rewrite (IH Hs).
  destruct (Ascii.eqb c "/"); [discriminate|reflexivity].
Qed.

Lemma after_last_sep_app (Y s : string) :
  no_sep s = true ->
  Py.after_last_sep ((Y +:+ "/") +:+ s) = String.length (Y +:+ "/").
Proof.
  intros Hs. induction Y as [|c Y IH].
  - change (("" +:+ "/") +:+ s) with (String "/" s). simpl.
    rewrite (after_last_sep_no_sep s Hs). reflexivity.
  - rewrite !append_cons. simpl. rewrite IH, length_append. simpl.
    replace (String.length Y + 1)%nat with (S (String.length Y)) by lia.
    reflexivity.
Qed.

Lemma after_last_sep_prefixed (p s : string) :
  dir_prefix p -> no_sep s = true ->
  Py.after_last_sep (p +:+ s) = String.length p.
Proof.
  intros [-> | [y ->]] Hs.
  - rewrite append_nil_l. apply after_last_sep_no_sep, Hs.
  - apply after_last_sep_app, Hs.
Qed.

Lemma endswith_sep (x : string) :
  Py.endswith x Py.sep = true -> exists y, x = y +:+ "/".
Proof.
  unfold Py.endswith, Py.sep. simpl String.length.
  intros [Hn Heq]%andb_prop.
  apply Nat.leb_le in Hn. apply String.eqb_eq in Heq.
  exists (String.substring 0 (String.length x - 1) x).
  etransitivity; [apply (substring_split (String.length x - 1) x); lia|].
  f_equal. rewrite <- Heq. f_equal. lia.
Qed.

Lemma glob_prefix_dir (dirname : string) : dir_prefix (glob_prefix dirname).
Proof.
  unfold glob_prefix, dir_prefix.
  destruct (String.eqb dirname "") eqn:He; simpl.
  - left. apply String.eqb_eq, He.
  - destruct (Py.endswith dirname Py.sep) eqn:Hs.
    + right. apply endswith_sep, Hs.
    + right. eexists. reflexivity.
Qed.

Lemma no_sep_not_startswith (name : string) :
  no_sep name = true -> Py.startswith name Py.sep = false.
Proof.
  unfold Py.startswith, Py.sep. destruct name as [|c name]; [reflexivity|].
  intros [Hc _]%andb_prop.
  change (String.prefix "/" (String c name))
    with (if ascii_dec "/" c then String.prefix "" name else false).
  destruct (ascii_dec "/" c) as [<-|]; [discriminate|reflexivity].
Qed.

Lemma path_join_name (dirname name : string) :
  no_sep name = true ->
  Py.path_join dirname name = glob_prefix dirname +:+ name.
Proof.
  intros Hn. unfold Py.path_join, glob_prefix.
  rewrite (no_sep_not_startswith name Hn).
  destruct (String.eqb dirname "" || Py.endswith dirname Py.sep); [reflexivity|].
  unfold Py.sep. rewrite append_assoc. reflexivity.
Qed.

Lemma path_basename_prefixed (p name : string) :
  dir_prefix p -> no_sep name = true -> Py.path_basename (p +:+ name) = name.
Proof.
  intros Hp Hn. unfold Py.path_basename.
  rewrite (after_last_sep_prefixed p name Hp Hn), length_append.
  replace (String.length p + String.length name - String.length p)%nat
    with (String.length name) by lia.
  apply substring_app_r.
Qed.

Lemma path_split_prefixed (p s : string) :
  dir_prefix p -> no_sep s = true ->
  (Py.path_split (p +:+ s)).2 = s.
Proof.
  intros Hp Hs. unfold Py.path_split. cbv zeta. simpl snd.
  rewrite (after_last_sep_prefixed p s Hp Hs), length_append.
  replace (String.length p + String.length s - String.length p)%nat
    with (String.length s) by lia.
  apply substring_app_r.
Qed.

Lemma path_split_pattern (directory : string) :
  (Py.path_split (Py.path_join directory "*.png")).2 = "*.png".
Proof.
  rewrite path_join_name by reflexivity.
  apply path_split_prefixed; [apply glob_prefix_dir|reflexivity].
Qed.

End Paths.

Section CleanPaths.

Variable p : ascii -> bool.

Lemma any_char_app (a b : string) :
  Py.any_char p (a +:+ b) = Py.any_char p a || Py.any_char p b.
Proof.
  induction a as [|c a IH]; [reflexivity|].
  rewrite append_cons. cbn [Py.any_char]. rewrite IH, orb_assoc. reflexivity.
Qed.

Lemma any_char_rstrip_sep (s : string) :
  Py.any_char p s = false -> Py.any_char p (Py.rstrip_sep s) = false.
Proof.
  induction s as [|c s IH]; [reflexivity|].
  cbn [Py.any_char Py.rstrip_sep]. intros [Hc Hs]%orb_false_elim. specialize (IH Hs).
  destruct (Py.rstrip_sep s) as [|c' r].
  - destruct (Ascii.eqb c "/"); cbn [Py.any_char]; rewrite ?Hc; reflexivity.
  - cbn [Py.any_char] in *. rewrite Hc. exact IH.
Qed.

Lemma any_char_glob_prefix (d : string) :
  p "/"%char = false -> Py.any_char p d = false ->
  Py.any_char p (glob_prefix d) = false.
Proof.
  intros Hsep Hd. unfold glob_prefix.
  destruct (String.eqb d "" || Py.endswith d Py.sep); [exact Hd|].
  rewrite any_char_app, Hd. cbn [Py.any_char]. rewrite Hsep. reflexivity.
Qed.

End CleanPaths.

(** The pattern of [get_sorted_images] splits into [*.png] and a directory
    part, which holds no kind of character that the directory argument
    does not hold. *)
Lemma split_pattern (directory : string) :
  exists dirname,
    Py.path_split (Py.path_join directory "*.png") = (dirname, "*.png")
    /\ forall p, p "/"%char = false -> Py.any_char p directory = false ->
                 Py.any_char p dirname = false.
Proof.
  rewrite path_join_name by reflexivity.
  pose proof (glob_prefix_dir directory) as Hp.
  unfold Py.path_split. cbv zeta.
  rewrite (after_last_sep_prefixed _ "*.png" Hp eq_refl), length_append.
  replace (String.length (glob_prefix directory) + String.length "*.png"
           - String.length (glob_prefix directory))%nat
    with (String.length "*.png") by lia.
  rewrite substring_app_l, substring_app_r.
  eexists. split; [reflexivity|].
  intros p Hsep Hd.
  destruct (negb _ && negb _).
  - apply any_char_rstrip_sep, any_char_glob_prefix; assumption.
  - apply any_char_glob_prefix; assumption.
Qed.

Section Listing.

Lemma Forall_no_sep_sort (l : list string) :
  Forall (fun name => no_sep name = true) l ->
  Forall (fun name => no_sep name = true) (Py.list_sort l).
Proof. intros H. eapply Permutation_Forall; [symmetry; apply list_sort_perm|exact H]. Qed.

Lemma map_basename_prefixed (p : string) (l : list string) :
  dir_prefix p -> Forall (fun name => no_sep name = true) l ->
  map Py.path_basename (map (String.append p) l) = l.
Proof.
  intros Hp. induction 1 as [|x l Hx Hl IH]; simpl; [reflexivity|].
  rewrite IH. f_equal. apply path_basename_prefixed; assumption.
Qed.

Lemma map_basename_names (l : list string) :
  Forall (fun name => no_sep name = true) l -> map Py.path_basename l = l.
Proof.
  induction 1 as [|x l Hx Hl IH]; simpl; [reflexivity|].
  rewrite IH. f_equal.
  apply (path_basename_prefixed "" x); [left; reflexivity|exact Hx].
Qed.

Lemma map_path_join (dirname : string) (l : list string) :
  Forall (fun name => no_sep name = true) l ->
  map (Py.path_join dirname) l = map (String.append (glob_prefix dirname)) l.
Proof.
  induction 1 as [|x l Hx Hl IH]; simpl; [reflexivity|].
  rewrite IH, (path_join_name dirname x Hx). reflexivity.
Qed.

Lemma plain_names_no_sep (names : list string) :
  plain_names names -> Forall (fun name => no_sep name = true) names.
Proof.
  intros H. eapply List.Forall_impl; [|exact H]. intros name [Hn _]. exact Hn.
Qed.

(** Listing directories reads the world and leaves it as it is; it looks
    at the listings only, and the one exception it lets through is
    ValueError. *)
Lemma glob_in_dirs_frame (dirs : list string) (basename : string) (w1 w2 : world) :
  listdir w1 = listdir w2 ->
  exists r, glob_in_dirs dirs basename w1 = (r, w1)
            /\ glob_in_dirs dirs basename w2 = (r, w2)
            /\ ((exists images, r = Ret images) \/ r = Raise ValueError).
Proof.
  intros Hl. induction dirs as [|d dirs (r & H1 & H2 & Hr)].
  - exists (Ret []). split; [reflexivity|]. split; [reflexivity|]. left. eauto.
  - cbn [glob_in_dirs]. unfold bind at 1 3. unfold glob_listdir. rewrite Hl.
    destruct (Py.has_nul d).
    + exists (Raise ValueError). auto.
    + unfold bind. rewrite H1, H2.
      destruct Hr as [[images ->] | ->].
      * eexists. split; [reflexivity|]. split; [reflexivity|]. left. eauto.
      * exists (Raise ValueError). auto.
Qed.

Lemma get_sorted_images_frame (directory : string) (w1 w2 : world) :
  listdir w1 = listdir w2 -> glob_dirs w1 = glob_dirs w2 ->
  exists r, get_sorted_images directory w1 = (r, w1)
            /\ get_sorted_images directory w2 = (r, w2)
            /\ (r = Ret (sorted_images w1 directory) \/ r = Raise ValueError).
Proof.
  intros Hl Hg.
  assert (H : exists r, glob_glob (Py.path_join directory "*.png") w1 = (r, w1)
                        /\ glob_glob (Py.path_join directory "*.png") w2 = (r, w2)
                        /\ ((exists images, r = Ret images) \/ r = Raise ValueError)).
  { unfold glob_glob.
    destruct (Py.path_split (Py.path_join directory "*.png")) as [dirname basename].
    destruct (String.eqb dirname "").
    - unfold bind, glob_listdir, ret. rewrite Hl.
      destruct (Py.has_nul "."); eexists; (split; [reflexivity|]);
        (split; [reflexivity|]); eauto.
    - unfold bind at 1 2. unfold glob_dirs_of.
      destruct (Py.has_magic dirname).
      + rewrite Hg. destruct (glob_dirs w2 dirname) as [dirs|].
        * apply glob_in_dirs_frame, Hl.
        * exists (Raise ValueError). auto.
      + unfold ret. apply glob_in_dirs_frame, Hl. }
  destruct H as (r & H1 & H2 & Hr).
  unfold sorted_images, get_sorted_images, bind. rewrite H1, H2.
  destruct Hr as [[images ->] | ->].
  - eexists. split; [reflexivity|]. split; [reflexivity|]. left. reflexivity.
  - exists (Raise ValueError). auto.
Qed.

(** [get_sorted_images] returns or raises ValueError, and leaves the world
    as it is. *)
Lemma get_sorted_images_cases (directory : string) (w : world) :
  get_sorted_images directory w = (Ret (sorted_images w directory), w)
  \/ get_sorted_images directory w = (Raise ValueError, w).
Proof.
  destruct (get_sorted_images_frame directory w w eq_refl eq_refl)
    as (r & H & _ & [-> | ->]); auto.
Qed.

(** On a literal directory argument the images are those of the one
    directory, as many as it has PNG names; when these are plain names,
    the images are the sorted PNG names. *)
Lemma get_sorted_images_literal (directory : string) (w : world) :
  Py.has_nul directory = false -> Py.has_magic directory = false ->
  get_sorted_images directory w = (Ret (sorted_images w directory), w)
  /\ length (sorted_images w directory) = length (png_names w directory)
  /\ (Forall (fun name => no_sep name = true) (png_names w directory) ->
      sorted_images w directory = Py.list_sort (png_names w directory)).
Proof.
  intros Hnul Hmagic.
  destruct (split_pattern directory) as (dirname & Hsplit & Hclean).
  pose proof (Hclean (Ascii.eqb Ascii.zero) eq_refl Hnul) as Hn.
  pose proof (Hclean Py.is_magic eq_refl Hmagic) as Hm.
  fold (Py.has_nul dirname) in Hn. fold (Py.has_magic dirname) in Hm.
  assert (Hrun : get_sorted_images directory w
                 = (Ret (map Py.path_basename
                           (Py.list_sort
                              (if String.eqb dirname ""
                               then png_names w directory
                               else map (Py.path_join dirname) (png_names w directory)))),
                    w)).
  { unfold get_sorted_images, glob_glob, png_names, scan_dir. rewrite Hsplit.
    cbn [fst]. destruct (String.eqb dirname "").
    - reflexivity.
    - unfold bind at 1 2. unfold glob_dirs_of. rewrite Hm. unfold ret at 1.
      cbn [glob_in_dirs]. unfold bind, glob_listdir, ret. rewrite Hn, app_nil_r.
      reflexivity. }
  assert (Himg : sorted_images w directory
                 = map Py.path_basename
                     (Py.list_sort
                        (if String.eqb dirname ""
                         then png_names w directory
                         else map (Py.path_join dirname) (png_names w directory)))).
  { unfold sorted_images. rewrite Hrun. reflexivity. }
  split; [rewrite Himg; exact Hrun|]. split.
  - rewrite Himg, length_map, list_sort_length.
    destruct (String.eqb dirname ""); rewrite ?length_map; reflexivity.
  - intros Hv. rewrite Himg. destruct (String.eqb dirname "").
    + apply map_basename_names, Forall_no_sep_sort, Hv.
    + rewrite (map_path_join dirname _ Hv), list_sort_prefix.
      apply map_basename_prefixed; [apply glob_prefix_dir|].
      apply Forall_no_sep_sort, Hv.
Qed.

Lemma literal_path_listing (directory : string) (w : world) :
  literal_path directory ->
  get_sorted_images directory w = (Ret (sorted_images w directory), w)
  /\ length (sorted_images w directory) = length (png_names w directory)
  /\ (Forall (fun name => no_sep name = true) (png_names w directory) ->
      sorted_images w directory = Py.list_sort (png_names w directory)).
Proof. intros (_ & Hnul & Hmagic). apply get_sorted_images_literal; assumption. Qed.

End Listing.

(** ** What a run does *)

Section Runs.

Lemma pairs_text_records {A} (f : A -> Py.float) (l : list (A * string)) :
  pairs_text (fun a filename => record_line (f a) filename) l
  = lines_text (map (fun '(a, filename) => (f a, filename)) l).
Proof.
  induction l as [|[a filename] l IH]; simpl; [reflexivity|].
  unfold lines_text in *. simpl. rewrite IH. reflexivity.
Qed.

(** A loop that only writes to one open file appends the text of its
    items to that file. *)
Lemma for_each_write {A B} (h : A -> B -> string) (path : string)
    (l : list (A * B)) (w : world) (c : string) :
  files w !! path = Some c ->
  for_each l (fun '(a, b) => f_write path (h a b)) w
  = (Ret tt, set_files w (<[path := c +:+ pairs_text h l]> (files w))).
Proof.
  revert w c. induction l as [|[a b] l IH]; intros w c Hc.
  - simpl. unfold ret, set_files. rewrite append_nil_r, (insert_id _ _ _ Hc).
    destruct w; reflexivity.
  - simpl for_each. unfold bind at 1. unfold f_write at 1.
    rewrite (IH _ (c +:+ h a b)).
    + unfold set_files. cbn [files listdir glob_dirs read_error write_error prog usage
                               stdout stderr].
      rewrite Hc. cbn [default from_option id].
      rewrite insert_insert_eq, append_assoc. reflexivity.
    + unfold set_files. cbn [files]. rewrite Hc. apply lookup_insert_eq.
Qed.

(** Opening the output file, writing a header and the records, and
    printing the summary. *)
Lemma write_output {A B} (h : A -> B -> string) (path header1 header2 summary : string)
    (l : list (A * B)) (w : world) :
  (open_w path ;;
   f_write path header1 ;;
   f_write path header2 ;;
   for_each l (fun '(a, b) => f_write path (h a b)) ;;
   print summary) w
  = match write_error w path with
    | Some f => (Raise (exn_of_failure f), w)
    | None => (Ret tt, written w path (header1 +:+ header2 +:+ pairs_text h l) summary)
    end.
Proof.
  unfold bind at 1. unfold open_w.
  destruct (write_error w path) as [f|]; [reflexivity|].
  pose proof (for_each_write h path l) as Hloop.
  unfold bind, f_write, print, set_files, set_stdout.
  cbn [files listdir glob_dirs read_error write_error prog usage stdout stderr].
  rewrite !lookup_insert_eq. cbn [default from_option id].
  erewrite Hloop by (cbn [files]; apply lookup_insert_eq).
  unfold set_files.
  cbn [files listdir glob_dirs read_error write_error prog usage stdout stderr].
  rewrite !insert_insert_eq. unfold written, set_files, set_stdout.
  cbn [files listdir glob_dirs read_error write_error prog usage stdout stderr].
  rewrite !append_assoc, ?append_nil_l. reflexivity.
Qed.

(** A run of the fixed-rate mode once the images are listed. *)
Lemma generate_from_fps_run (fps : Py.float) (left_dir output_file : string) (w : world) :
  get_sorted_images left_dir w = (Ret (sorted_images w left_dir), w) ->
  generate_from_fps fps left_dir output_file w =
  let images := sorted_images w left_dir in
  if is_empty images then (Exit 1, printed w (msg_empty_directory left_dir))
  else
    match Py.truediv Py.float_one fps with
    | None => (Raise ZeroDivisionError, w)
    | Some dt =>
        match write_error w output_file with
        | Some f => (Raise (exn_of_failure f), w)
        | None =>
            (Ret tt,
             written w output_file
               (fps_header (length images) fps +:+ lines_text (fps_records dt images))
               (fps_summary output_file (length images) fps))
        end
    end.
Proof.
  intros Himg.
  unfold generate_from_fps. unfold bind at 1. rewrite Himg.
  cbv zeta. set (images := sorted_images w left_dir).
  unfold bind at 1. destruct (is_empty images) eqn:He; [reflexivity|].
  unfold ret at 1. unfold bind at 1.
  destruct (Py.truediv Py.float_one fps) as [dt|]; [|reflexivity].
  unfold ret at 1.
  pose proof (write_output
    (fun idx filename =>
       record_line (Py.float_mul (Py.float_of_Z (Z.of_nat idx)) dt) filename)
    output_file
    ("# Generated timestamps for " +:+ Py.str_of_nat (length images)
       +:+ " frames at " +:+ Py.float_repr fps +:+ " fps" +:+ Py.nl)
    ("# timestamp(s) filename" +:+ Py.nl)
    ("Generated " +:+ output_file +:+ " with " +:+ Py.str_of_nat (length images)
       +:+ " timestamps at " +:+ Py.float_repr fps +:+ " fps")
    (enumerate images) w) as Hw.
  cbv beta in Hw. rewrite Hw.
  destruct (write_error w output_file); [reflexivity|].
  unfold fps_header, fps_summary, fps_records.
  rewrite pairs_text_records, !append_assoc. reflexivity.
Qed.

(** A run of either mode when listing the images raises. *)
Lemma generate_from_fps_raise (fps : Py.float) (left_dir output_file : string)
    (w : world) (e : exn) :
  get_sorted_images left_dir w = (Raise e, w) ->
  generate_from_fps fps left_dir output_file w = (Raise e, w).
Proof. intros H. unfold generate_from_fps. unfold bind at 1. rewrite H. reflexivity. Qed.

Lemma generate_from_csv_raise (csv_file left_dir output_file : string)
    (time_column : Z) (filename_column : option Z) (w : world) (e : exn) :
  get_sorted_images left_dir w = (Raise e, w) ->
  generate_from_csv csv_file left_dir output_file time_column filename_column w
  = (Raise e, w).
Proof. intros H. unfold generate_from_csv. unfold bind at 1. rewrite H. reflexivity. Qed.

End Runs.

(** ** The CSV reader fails only at the limit on the size of a field *)

Section ReaderTotal.

Lemma universal_newlines_no_CR_aux (n : nat) :
  forall s, (length s <= n)%nat ->
  Forall (fun c => Ascii.eqb c Py.CR = false) (Py.universal_newlines s)
  /\ (length (Py.universal_newlines s) <= length s)%nat.
Proof.
  induction n as [|n IH]; intros s Hn.
  - destruct s; [split; [constructor|reflexivity]|simpl in Hn; lia].
  - destruct s as [|c s]; [split; [constructor|reflexivity]|].
    simpl in Hn. simpl.
    destruct (Ascii.eqb c Py.CR) eqn:Hc.
    + destruct s as [|d s]; [split; [repeat constructor|reflexivity]|].
      simpl in Hn. destruct (Ascii.eqb d Py.LF).
      * destruct (IH s ltac:(lia)) as [H1 H2].
        split; [constructor; [reflexivity|exact H1]|simpl; lia].
      * destruct (IH (d :: s) ltac:(simpl; lia)) as [H1 H2].
        split; [constructor; [reflexivity|exact H1]|simpl in *; lia].
    + destruct (IH s ltac:(lia)) as [H1 H2].
      split; [constructor; [exact Hc|exact H1]|simpl; lia].
Qed.

Lemma universal_newlines_no_CR (s : list ascii) :
  Forall (fun c => Ascii.eqb c Py.CR = false) (Py.universal_newlines s).
Proof. apply (universal_newlines_no_CR_aux (length s)). lia. Qed.

Lemma universal_newlines_length (s : list ascii) :
  (length (Py.universal_newlines s) <= length s)%nat.
Proof. apply (universal_newlines_no_CR_aux (length s)). lia. Qed.

Lemma split_lines_good (s cur : list ascii) :
  Forall (fun c => Ascii.eqb c Py.CR = false) s ->
  Forall plain cur ->
  Forall good_line (Py.split_lines cur s).
Proof.
  intros Hs. revert cur. induction Hs as [|c s Hc Hs IH]; intros cur Hcur; simpl.
  - destruct cur as [|c cur]; [constructor|].
    constructor; [|constructor].
    exists (rev (c :: cur)). split; [|left; reflexivity].
    apply Forall_rev, Hcur.
  - destruct (Ascii.eqb c Py.LF) eqn:Hlf.
    + constructor; [|apply IH; constructor].
      exists (rev cur). split; [apply Forall_rev, Hcur|].
      right. simpl. apply Ascii.eqb_eq in Hlf. subst c. reflexivity.
    + apply IH. constructor; [|exact Hcur].
      unfold plain, Py.is_newline. rewrite Hlf, Hc. reflexivity.
Qed.

Lemma split_lines_length (s cur : list ascii) :
  length (concat (Py.split_lines cur s)) = (length cur + length s)%nat.
Proof.
  revert cur. induction s as [|c s IH]; intros cur; cbn [Py.split_lines].
  - destruct cur as [|c cur]; [reflexivity|].
    cbn [concat]. rewrite app_nil_r, length_rev. cbn [length]. lia.
  - destruct (Ascii.eqb c Py.LF).
    + cbn [concat]. rewrite length_app, length_rev, IH. cbn [length]. lia.
    + rewrite IH. cbn [length]. lia.
Qed.

Lemma text_lines_good (text : string) : Forall good_line (Py.text_lines text).
Proof.
  apply split_lines_good; [apply universal_newlines_no_CR|constructor].
Qed.

Lemma length_list_ascii (s : string) :
  length (list_ascii_of_string s) = String.length s.
Proof. induction s as [|c s IH]; simpl; [reflexivity|]. rewrite IH. reflexivity. Qed.

Lemma text_lines_length (text : string) :
  (length (concat (Py.text_lines text)) <= String.length text)%nat.
Proof.
  unfold Py.text_lines. rewrite split_lines_length. simpl.
  rewrite <- length_list_ascii. apply universal_newlines_length.
Qed.

(** Below the limit a character is added to the field. *)
Lemma parse_add_char_ok (r : Py.ReaderObj) (c : ascii) :
  (Py.field_len r < Py.field_limit)%N ->
  exists r', Py.parse_add_char r c = Some r'
             /\ Py.state r' = Py.state r
             /\ (Py.field_len r' <= Py.field_len r + 1)%N.
Proof.
  intros Hlt. unfold Py.parse_add_char.
  destruct (Py.is_continuation c).
  - eexists. split; [reflexivity|]. simpl. split; [reflexivity|lia].
  - destruct (N.leb_spec Py.field_limit (Py.field_len r)) as [H|H]; [lia|].
    eexists. split; [reflexivity|]. simpl. split; [reflexivity|lia].
Qed.

(** A plain character is always accepted outside [EAT_CRNL], and does not
    lead there. *)
Lemma parse_plain_char (r : Py.ReaderObj) (c : ascii) :
  plain c -> Py.state r <> Py.EAT_CRNL ->
  (Py.field_len r < Py.field_limit)%N ->
  exists r', Py.parse_process_char r (Some c) = Some r'
             /\ Py.state r' <> Py.EAT_CRNL
             /\ (Py.field_len r' <= Py.field_len r + 1)%N.
Proof.
  unfold plain. intros Hc Hr Hlt.
  destruct (parse_add_char_ok r c Hlt) as (r1 & Hadd & Hst & Hlen).
  unfold Py.parse_process_char. cbv zeta. rewrite Hadd.
  destruct (Py.state r) eqn:Hs; try congruence; rewrite ?Hc;
    repeat match goal with
           | |- context [if ?b then _ else _] => destruct b
           end;
    eexists; (split; [reflexivity|]); simpl; (split; [congruence|lia]).
Qed.

(** The end of a line is always accepted, and leaves the reader at the
    start of a record or inside a quoted field. *)
Lemma parse_end_of_line (r : Py.ReaderObj) :
  exists r', Py.parse_process_char r None = Some r'
             /\ (Py.state r' = Py.START_RECORD \/ Py.state r' = Py.IN_QUOTED_FIELD)
             /\ (Py.field_len r' <= Py.field_len r)%N.
Proof.
  unfold Py.parse_process_char.
  destruct (Py.state r) eqn:Hst; eexists; (split; [reflexivity|]); simpl;
    (split; [auto|lia]).
Qed.

Lemma parse_LF (r : Py.ReaderObj) :
  Py.state r <> Py.EAT_CRNL ->
  (Py.field_len r < Py.field_limit)%N ->
  exists r', Py.parse_process_char r (Some Py.LF) = Some r'
             /\ (Py.field_len r' <= Py.field_len r + 1)%N.
Proof.
  intros Hr Hlt.
  destruct (parse_add_char_ok r Py.LF Hlt) as (r1 & Hadd & Hst & Hlen).
  unfold Py.parse_process_char. cbv zeta. rewrite Hadd.
  destruct (Py.state r) eqn:Hs; try congruence;
    eexists; (split; [reflexivity|]); simpl; lia.
Qed.

Lemma parse_line_good (line : list ascii) (r : Py.ReaderObj) :
  good_line line -> Py.state r <> Py.EAT_CRNL ->
  (Py.field_len r + N.of_nat (length line) <= Py.field_limit)%N ->
  exists r', Py.parse_line r line = Some r'
             /\ (Py.state r' = Py.START_RECORD \/ Py.state r' = Py.IN_QUOTED_FIELD)
             /\ (Py.field_len r' <= Py.field_len r + N.of_nat (length line))%N.
Proof.
  intros (body & Hbody & Hline). revert r line Hline.
  induction Hbody as [|c body Hc Hbody IH]; intros r line Hline Hr Hlen.
  - destruct Hline as [-> | ->]; simpl.
    + destruct (parse_end_of_line r) as (r' & H1 & H2 & H3).
      exists r'. split; [exact H1|]. split; [exact H2|lia].
    + simpl in Hlen. destruct (parse_LF r Hr ltac:(lia)) as (r1 & -> & Hl1).
      destruct (parse_end_of_line r1) as (r' & H1 & H2 & H3).
      exists r'. split; [exact H1|]. split; [exact H2|lia].
  - assert (Hlt : (Py.field_len r < Py.field_limit)%N).
    { destruct Hline as [-> | ->]; simpl length in Hlen; lia. }
    destruct (parse_plain_char r c Hc Hr Hlt) as (r1 & H1 & Hr1 & Hl1).
    destruct Hline as [-> | ->]; simpl; rewrite H1.
    + simpl length in Hlen.
      destruct (IH r1 body (or_introl eq_refl) Hr1 ltac:(lia)) as (r' & H2 & H3 & H4).
      exists r'. split; [exact H2|]. split; [exact H3|lia].
    + simpl length in Hlen.
      destruct (IH r1 (body ++ [Py.LF]) (or_intror eq_refl) Hr1 ltac:(lia))
        as (r' & H2 & H3 & H4).
      exists r'. split; [exact H2|]. split; [exact H3|lia].
Qed.

Lemma reader_rows_total (lines : list (list ascii)) :
  Forall good_line lines ->
  forall r, (Py.state r = Py.START_RECORD \/ Py.state r = Py.IN_QUOTED_FIELD) ->
  (Py.field_len r + N.of_nat (length (concat lines)) <= Py.field_limit)%N ->
  is_Some (Py.reader_rows r lines).
Proof.
  induction 1 as [|line lines Hline Hlines IH]; intros r Hr Hlen; simpl.
  - destruct (_ || _); eexists; reflexivity.
  - cbn [concat] in Hlen. rewrite length_app in Hlen.
    destruct (parse_line_good line r Hline) as (r' & -> & Hr' & Hl').
    { destruct Hr as [-> | ->]; discriminate. }
    { lia. }
    destruct (Py.ParserState_eqb (Py.state r') Py.START_RECORD).
    + destruct (IH Py.parse_reset (or_introl eq_refl)) as [rows ->].
      { simpl. lia. }
      eexists; reflexivity.
    + apply IH; [exact Hr'|lia].
Qed.

Lemma csv_reader_rows (text : string) :
  is_Some (Py.csv_reader text) -> Py.csv_reader text = Some (table_rows text).
Proof. unfold table_rows. intros [rows ->]. reflexivity. Qed.

End ReaderTotal.

Section CsvRun.

(** A run of the table-import mode once the images are listed. *)
Lemma generate_from_csv_run (csv_file left_dir output_file : string)
    (time_column : Z) (filename_column : option Z) (w : world) :
  get_sorted_images left_dir w = (Ret (sorted_images w left_dir), w) ->
  generate_from_csv csv_file left_dir output_file time_column filename_column w =
  let images := sorted_images w left_dir in
  if is_empty images then (Exit 1, printed w (msg_empty_directory left_dir))
  else
    match read_error w csv_file with
    | Some f => (Raise (exn_of_failure f), w)
    | None =>
        match files w !! csv_file with
        | None => (Raise FileNotFoundError, w)
        | Some text =>
            if Py.utf8_valid text then
              match Py.csv_reader text with
              | None => (Raise CsvError, w)
              | Some rows =>
                  let '(timestamps, filenames) :=
                    csv_rows time_column filename_column rows in
                  if is_empty timestamps
                  then (Exit 1, printed w (msg_no_valid_rows csv_file))
                  else
                    match select_output timestamps filenames images with
                    | Some output_list =>
                        match write_error w output_file with
                        | Some f => (Raise (exn_of_failure f), w)
                        | None =>
                            (Ret tt,
                             written w output_file
                               (csv_header csv_file +:+ lines_text output_list)
                               (csv_summary output_file (length output_list) csv_file))
                        end
                    | None =>
                        (Exit 1,
                         printed w (msg_count_mismatch (length timestamps)
                                                       (length images)))
                    end
              end
            else (Raise UnicodeDecodeError, w)
        end
    end.
Proof.
  intros Himg.
  unfold generate_from_csv. unfold bind at 1. rewrite Himg.
  cbv zeta. set (images := sorted_images w left_dir).
  unfold bind at 1. destruct (is_empty images) eqn:He; [reflexivity|].
  unfold ret at 1. unfold bind at 1. unfold read_text at 1.
  destruct (read_error w csv_file) as [f|]; [reflexivity|].
  destruct (files w !! csv_file) as [text|]; [|reflexivity].
  destruct (Py.utf8_valid text); [|reflexivity].
  unfold bind at 1. destruct (Py.csv_reader text) as [rows|]; [|reflexivity].
  unfold ret at 1.
  destruct (csv_rows time_column filename_column rows) as [timestamps filenames].
  unfold bind at 1. destruct (is_empty timestamps) eqn:Ht; [reflexivity|].
  unfold ret at 1. unfold bind at 1. unfold select_output.
  assert (Hwrite : forall output_list,
    bind (open_w output_file) (fun _ =>
      bind (f_write output_file ("# Generated from " +:+ csv_file +:+ Py.nl)) (fun _ =>
      bind (f_write output_file ("# timestamp(s) filename" +:+ Py.nl)) (fun _ =>
      bind (for_each output_list (fun '(timestamp, filename) =>
              f_write output_file (record_line timestamp filename))) (fun _ =>
      print ("Generated " +:+ output_file +:+ " with "
               +:+ Py.str_of_nat (length output_list)
               +:+ " timestamps from " +:+ csv_file))))) w
    = match write_error w output_file with
      | Some f => (Raise (exn_of_failure f), w)
      | None =>
          (Ret tt, written w output_file
                     (csv_header csv_file +:+ lines_text output_list)
                     (csv_summary output_file (length output_list) csv_file))
      end).
  { intros output_list.
    rewrite (write_output record_line output_file
               ("# Generated from " +:+ csv_file +:+ Py.nl)
               ("# timestamp(s) filename" +:+ Py.nl)).
    destruct (write_error w output_file); [reflexivity|].
    unfold csv_header, csv_summary, lines_text.
    rewrite !append_assoc. reflexivity. }
  destruct (negb (is_empty filenames) && (length filenames =? length timestamps)%nat).
  { unfold ret at 1. apply Hwrite. }
  destruct (length timestamps =? length images)%nat.
  { unfold ret at 1. apply Hwrite. }
  reflexivity.
Qed.

End CsvRun.
(** ** The loop over the rows of the table *)

Section Rows.

Variable time_column : Z.
Variable filename_column : option Z.

Lemma csv_row_spec (timestamps : list Py.float) (filenames : list string)
    (row : list string) :
  csv_row time_column filename_column (timestamps, filenames) row =
  (timestamps ++ table_timestamps time_column [row],
   filenames ++ table_filenames time_column filename_column [row]).
Proof.
  unfold csv_row, table_timestamps, table_filenames, row_timestamp, row_filename,
    is_data_row.
  destruct row as [|first rest]; simpl.
  { rewrite !app_nil_r. reflexivity. }
  destruct (Py.startswith first "#"); simpl.
  { rewrite !app_nil_r. reflexivity. }
  destruct (Py.getitem (first :: rest) time_column) as [cell|];
    [|rewrite !app_nil_r; reflexivity].
  destruct (Py.float_of_string cell) as [t|]; [|rewrite !app_nil_r; reflexivity].
  destruct filename_column as [fc|]; [|rewrite app_nil_r; reflexivity].
  destruct (Py.getitem (first :: rest) fc); rewrite ?app_nil_r; reflexivity.
Qed.

Lemma table_timestamps_cons (row : list string) (rows : list (list string)) :
  table_timestamps time_column (row :: rows)
  = table_timestamps time_column [row] ++ table_timestamps time_column rows.
Proof. simpl. destruct (row_timestamp time_column row); reflexivity. Qed.

Lemma table_filenames_cons (row : list string) (rows : list (list string)) :
  table_filenames time_column filename_column (row :: rows)
  = table_filenames time_column filename_column [row]
      ++ table_filenames time_column filename_column rows.
Proof.
  simpl. destruct (row_timestamp time_column row); [|reflexivity].
  destruct filename_column as [fc|]; [|reflexivity].
  destruct (row_filename fc row); reflexivity.
Qed.

Lemma fold_csv_row (rows : list (list string)) :
  forall timestamps filenames,
  fold_left (csv_row time_column filename_column) rows (timestamps, filenames)
  = (timestamps ++ table_timestamps time_column rows,
     filenames ++ table_filenames time_column filename_column rows).
Proof.
  induction rows as [|row rows IH]; intros timestamps filenames.
  - simpl. rewrite !app_nil_r. reflexivity.
  - cbn [fold_left]. rewrite csv_row_spec, IH.
    rewrite (table_timestamps_cons row rows), (table_filenames_cons row rows).
    rewrite <- !app_assoc. reflexivity.
Qed.

(** The two lists the loop builds. *)
Lemma csv_rows_spec (rows : list (list string)) :
  csv_rows time_column filename_column rows
  = (table_timestamps time_column rows,
     table_filenames time_column filename_column rows).
Proof. unfold csv_rows. rewrite fold_csv_row. reflexivity. Qed.

(** No more file names than timestamps. *)
Lemma table_filenames_le (rows : list (list string)) :
  (length (table_filenames time_column filename_column rows)
   <= length (table_timestamps time_column rows))%nat.
Proof.
  induction rows as [|row rows IH]; simpl; [lia|].
  destruct (row_timestamp time_column row); [|exact IH].
  destruct filename_column as [fc|]; [|simpl; lia].
  destruct (row_filename fc row); simpl; lia.
Qed.

(** A row with a timestamp and no file name leaves the file names short. *)
Lemma table_filenames_lt (fc : Z) (rows : list (list string)) (row : list string) :
  filename_column = Some fc ->
  In row rows ->
  is_Some (row_timestamp time_column row) ->
  row_filename fc row = None ->
  (length (table_filenames time_column filename_column rows)
   < length (table_timestamps time_column rows))%nat.
Proof.
  intros Hfc Hin [t Ht] Hn. induction rows as [|r rows IH]; [destruct Hin|].
  pose proof (table_filenames_le rows) as Hle.
  destruct Hin as [-> | Hin].
  - simpl. rewrite Ht, Hfc, Hn. simpl. rewrite <- Hfc. lia.
  - specialize (IH Hin). simpl.
    destruct (row_timestamp time_column r); [|exact IH].
    destruct filename_column as [fc'|]; [|simpl; lia].
    destruct (row_filename fc' r); simpl; lia.
Qed.

(** No row yields a timestamp: the list of timestamps is empty. *)
Lemma table_timestamps_none (rows : list (list string)) :
  Forall (fun row => row_timestamp time_column row = None) rows ->
  table_timestamps time_column rows = [].
Proof.
  induction 1 as [|row rows Hrow _ IH]; simpl; [reflexivity|].
  rewrite Hrow. exact IH.
Qed.

Lemma table_timestamps_some (rows : list (list string)) (row : list string) :
  In row rows -> is_Some (row_timestamp time_column row) ->
  table_timestamps time_column rows <> [].
Proof.
  intros Hin [t Ht]. induction rows as [|r rows IH]; [destruct Hin|].
  simpl. destruct Hin as [-> | Hin].
  - rewrite Ht. discriminate.
  - destruct (row_timestamp time_column r); [discriminate|]. apply IH, Hin.
Qed.

End Rows.

Section Pairs.

Variable time_column : Z.
Variable fc : Z.

Lemma row_timestamp_data (row : list string) :
  is_data_row row = false -> row_timestamp time_column row = None.
Proof. unfold row_timestamp. intros ->. reflexivity. Qed.

Lemma full_rows_lists (rows : list (list string)) :
  full_rows time_column fc rows ->
  combine (table_timestamps time_column rows)
          (table_filenames time_column (Some fc) rows)
    = table_pairs time_column fc rows
  /\ length (table_filenames time_column (Some fc) rows)
     = length (table_timestamps time_column rows).
Proof.
  induction 1 as [|row rows Hrow _ [IH1 IH2]]; simpl; [split; reflexivity|].
  destruct (is_data_row row) eqn:Hd.
  - destruct (Hrow eq_refl) as [[t ->] [name ->]]. simpl.
    rewrite IH1, IH2. split; reflexivity.
  - rewrite (row_timestamp_data row Hd). split; assumption.
Qed.

End Pairs.
(** ** Floats and their text *)

Section Floats.

(** Rounding keeps the sign it is given. *)
Lemma binary_round_aux_sign (s : bool) (m e : Z) (l : location) :
  match binary_round_aux Py.prec Py.emax s m e l with
  | S754_zero s' | S754_infinity s' | S754_finite s' _ _ => s' = s
  | S754_nan => True
  end.
Proof.
  unfold binary_round_aux.
  destruct (shr_fexp Py.prec Py.emax m e l) as [mrs e'].
  destruct (shr_fexp Py.prec Py.emax _ e' loc_Exact) as [mrs' e''].
  destruct (shr_m mrs'); [reflexivity| |exact I].
  destruct (e'' <=? Py.emax - Py.prec); reflexivity.
Qed.

Lemma float_pos_cases (x : Py.float) :
  Py.float_pos x = true ->
  x = S754_infinity false \/ exists m e, x = S754_finite false m e.
Proof.
  unfold Py.float_pos, SFltb.
  destruct x as [s|s| |s m e]; simpl; try discriminate; destruct s; try discriminate.
  - left. reflexivity.
  - right. eauto.
Qed.

Lemma float_pos_not_zero (x : Py.float) :
  Py.float_pos x = true -> Py.is_zero x = false.
Proof. intros [-> | (m & e & ->)]%float_pos_cases; reflexivity. Qed.

Lemma truediv_pos (x : Py.float) :
  Py.float_pos x = true ->
  Py.truediv Py.float_one x = Some (Py.float_div Py.float_one x).
Proof. intros H. unfold Py.truediv. rewrite (float_pos_not_zero x H). reflexivity. Qed.

(** The frame interval of a positive rate is a zero, finite or infinite
    float of positive sign. *)
Lemma interval_sign (fps : Py.float) :
  Py.float_pos fps = true ->
  match Py.float_div Py.float_one fps with
  | S754_zero s | S754_infinity s | S754_finite s _ _ => s = false
  | S754_nan => True
  end.
Proof.
  intros [-> | (m & e & ->)]%float_pos_cases; [reflexivity|].
  unfold Py.float_div, Py.float_one, SFdiv.
  destruct (SFdiv_core_binary _ _ _ _ _ _) as [[mz ez] lz].
  apply (binary_round_aux_sign false mz ez lz).
Qed.

(** With a finite frame interval the first timestamp is [+0.0]. *)
Lemma first_timestamp_zero (fps : Py.float) :
  Py.float_pos fps = true ->
  is_finite (Py.float_div Py.float_one fps) = true ->
  Py.float_mul (Py.float_of_Z 0) (Py.float_div Py.float_one fps) = S754_zero false.
Proof.
  intros Hpos Hfin. pose proof (interval_sign fps Hpos) as Hs.
  destruct (Py.float_div Py.float_one fps) as [s|s| |s m e];
    try discriminate; subst s; reflexivity.
Qed.

Lemma round_half_even_nearest (num den : Z) :
  0 < den -> 2 * Z.abs (Py.round_half_even num den * den - num) <= den.
Proof.
  intros Hden. unfold Py.round_half_even.
  pose proof (Z.div_mod num den ltac:(lia)) as Hdm.
  pose proof (Z.mod_pos_bound num den Hden) as Hr.
  set (q := num / den) in *. set (r := num mod den) in *. clearbody q r.
  assert (Hq : q * den = num - r) by lia.
  destruct (Z.compare_spec (2 * r) den) as [Hc|Hc|Hc].
  - destruct (Z.even q); lia.
  - lia.
  - lia.
Qed.

Lemma round_half_even_tie (num den : Z) :
  0 < den ->
  2 * Z.abs (Py.round_half_even num den * den - num) = den ->
  Z.even (Py.round_half_even num den) = true.
Proof.
  intros Hden. unfold Py.round_half_even.
  pose proof (Z.div_mod num den ltac:(lia)) as Hdm.
  pose proof (Z.mod_pos_bound num den Hden) as Hr.
  set (q := num / den) in *. set (r := num mod den) in *. clearbody q r.
  assert (Hq : q * den = num - r) by lia.
  destruct (Z.compare_spec (2 * r) den) as [Hc|Hc|Hc].
  - intros _. destruct (Z.even q) eqn:He; [exact He|].
    rewrite Z.even_add, He. reflexivity.
  - lia.
  - lia.
Qed.

Lemma scaled6_nearest (m : positive) (e : Z) : nearest_micro m e (Py.scaled6 m e).
Proof.
  unfold nearest_micro, Py.scaled6. destruct (0 <=? e) eqn:He; [reflexivity|].
  cbv zeta. assert (Hden : 0 < 2 ^ (- e)) by (apply Z.pow_pos_nonneg; lia).
  split.
  - apply round_half_even_nearest, Hden.
  - apply round_half_even_tie, Hden.
Qed.

Lemma str_of_Z_digit (d : Z) :
  0 <= d < 10 ->
  exists c, Py.str_of_Z d = String c "" /\ Py.is_digit c = true /\ Py.digit_val c = d.
Proof.
  intros Hd.
  assert (d = 0 \/ d = 1 \/ d = 2 \/ d = 3 \/ d = 4 \/ d = 5 \/ d = 6 \/ d = 7
          \/ d = 8 \/ d = 9) as H by lia.
  repeat destruct H as [-> | H]; try subst d;
    eexists; (split; [reflexivity|]); split; reflexivity.
Qed.

Lemma last_digits_length (k : nat) (n : Z) : String.length (Py.last_digits k n) = k.
Proof.
  revert n. induction k as [|k IH]; intros n; simpl; [reflexivity|].
  destruct (str_of_Z_digit (n mod 10)) as (c & -> & _).
  { apply Z.mod_pos_bound. lia. }
  rewrite length_append, IH. simpl. lia.
Qed.

Lemma digits_value_app (a b : string) (acc : Z) :
  digits_value acc (a +:+ b)
  = match digits_value acc a with
    | Some v => digits_value v b
    | None => None
    end.
Proof.
  revert acc. induction a as [|c a IH]; intros acc; [reflexivity|].
  rewrite append_cons. cbn [digits_value].
  destruct (Py.is_digit c); [apply IH|reflexivity].
Qed.

(** The last [k] digits of [n] write [n mod 10^k]. *)
Lemma last_digits_value (k : nat) (n acc : Z) :
  digits_value acc (Py.last_digits k n)
  = Some (acc * 10 ^ Z.of_nat k + n mod 10 ^ Z.of_nat k).
Proof.
  revert n. induction k as [|k IH]; intros n.
  - cbn [Py.last_digits digits_value]. change (Z.of_nat 0) with 0.
    rewrite Z.pow_0_r, Z.mod_1_r. f_equal. lia.
  - cbn [Py.last_digits]. rewrite digits_value_app, IH.
    destruct (str_of_Z_digit (n mod 10)) as (c & -> & Hc & Hv).
    { apply Z.mod_pos_bound. lia. }
    cbn [digits_value]. rewrite Hc, Hv. f_equal.
    rewrite Nat2Z.inj_succ, Z.pow_succ_r by lia.
    rewrite (Z.rem_mul_r n 10 (10 ^ Z.of_nat k)) by lia. lia.
Qed.

(** [%.6f] prints a finite float rounded to six decimals. *)
Lemma format_6f_rounded (x : Py.float) : rounded_to_6_decimals x (Py.format_6f x).
Proof.
  destruct x as [s|s| |s m e]; cbn [rounded_to_6_decimals Py.format_6f].
  - destruct s; reflexivity.
  - reflexivity.
  - reflexivity.
  - exists (Py.scaled6 m e), (Py.last_digits 6 (Py.scaled6 m e)).
    split; [apply scaled6_nearest|]. split; [apply last_digits_length|].
    split; [|reflexivity].
    rewrite (last_digits_value 6). f_equal.
Qed.

End Floats.
(** ** The images and the records *)

Section Records.

Lemma combine_seq_nth {A} (l : list A) (s i : nat) :
  nth_error (combine (seq s (length l)) l) i
  = option_map (fun x => ((s + i)%nat, x)) (nth_error l i).
Proof.
  revert s i. induction l as [|x l IH]; intros s i.
  - destruct i; reflexivity.
  - destruct i as [|i]; simpl.
    + rewrite Nat.add_0_r. reflexivity.
    + rewrite IH. destruct (nth_error l i); simpl; [|reflexivity].
      do 2 f_equal. lia.
Qed.

Lemma enumerate_nth {A} (l : list A) (i : nat) :
  nth_error (enumerate l) i = option_map (fun x => (i, x)) (nth_error l i).
Proof. unfold enumerate. apply combine_seq_nth. Qed.

(** The record at position [idx] pairs [idx * dt] with the image there. *)
Lemma fps_records_nth (dt : Py.float) (images : list string) (idx : nat) :
  nth_error (fps_records dt images) idx
  = option_map (fun name => (Py.float_mul (Py.float_of_Z (Z.of_nat idx)) dt, name))
               (nth_error images idx).
Proof.
  unfold fps_records. rewrite nth_error_map, enumerate_nth.
  destruct (nth_error images idx); reflexivity.
Qed.

Lemma fps_records_length (dt : Py.float) (images : list string) :
  length (fps_records dt images) = length images.
Proof.
  unfold fps_records, enumerate.
  rewrite length_map, length_combine, length_seq. lia.
Qed.

(** On a literal directory argument there are as many images as PNG
    names, whatever the names are. *)
Lemma sorted_images_length (w : world) (directory : string) :
  literal_path directory ->
  length (sorted_images w directory) = length (png_names w directory).
Proof. intros H. apply (literal_path_listing directory w H). Qed.

Lemma sorted_images_empty (w : world) (directory : string) :
  literal_path directory ->
  is_empty (sorted_images w directory) = is_empty (png_names w directory).
Proof.
  intros Hd. pose proof (sorted_images_length w directory Hd) as H.
  destruct (sorted_images w directory), (png_names w directory);
    simpl in *; congruence.
Qed.

Lemma sorted_images_names (w : world) (directory : string) :
  literal_path directory ->
  Forall (fun name => no_sep name = true) (png_names w directory) ->
  sorted_images w directory = Py.list_sort (png_names w directory).
Proof. intros H. apply (literal_path_listing directory w H). Qed.

Lemma fnmatch_star (pat name : string) :
  Py.fnmatch (String "*" pat) name
  = Py.fnmatch pat name
    || match name with
       | EmptyString => false
       | String _ name' => Py.fnmatch (String "*" pat) name'
       end.
Proof. destruct name; reflexivity. Qed.

Lemma fnmatch_literal (c : ascii) (pat name : string) :
  Ascii.eqb c "*" = false -> Ascii.eqb c "?" = false ->
  Py.fnmatch (String c pat) name
  = match name with
    | EmptyString => false
    | String d name' => Ascii.eqb c d && Py.fnmatch pat name'
    end.
Proof. intros H1 H2. cbn [Py.fnmatch]. rewrite H1, H2. reflexivity. Qed.

Lemma fnmatch_dot_png (name : string) :
  Py.fnmatch ".png" name = true <-> name = ".png".
Proof.
  split; [|intros ->; reflexivity].
  intros H.
  do 4 (rewrite fnmatch_literal in H by reflexivity;
        destruct name as [|? name]; [discriminate|];
        apply andb_prop in H; destruct H as [<-%Ascii.eqb_eq H]).
  cbn [Py.fnmatch] in H. apply String.eqb_eq in H. subst name. reflexivity.
Qed.

(** The pattern [*.png] matches the names that end with [.png]. *)
Lemma fnmatch_png (name : string) :
  Py.fnmatch "*.png" name = true <-> exists stem, name = stem +:+ ".png".
Proof.
  induction name as [|c name IH]; rewrite fnmatch_star, orb_true_iff, fnmatch_dot_png.
  - split.
    + intros [H | H]; discriminate.
    + intros [stem H]. apply (f_equal String.length) in H.
      rewrite length_append in H. simpl in H. lia.
  - rewrite IH. split.
    + intros [H | [stem ->]].
      * exists "". rewrite H. reflexivity.
      * exists (String c stem). reflexivity.
    + intros [[|c' stem] H].
      * left. exact H.
      * right. exists stem. rewrite append_cons in H. congruence.
Qed.

(** The PNG files of a directory: the entries that end with [.png] and do
    not start with a dot. *)
Lemma png_names_spec (w : world) (directory name : string) :
  In name (png_names w directory) <->
  In name (default [] (listdir w (scan_dir directory)))
  /\ Py.startswith name "." = false
  /\ exists stem, name = stem +:+ ".png".
Proof.
  unfold png_names, Py.glob1. change (Py.ishidden "*.png") with false. cbv iota.
  rewrite !filter_In, fnmatch_png, negb_true_iff. unfold Py.ishidden. tauto.
Qed.

End Records.

(** ** The command line *)

Section Main.

Lemma main_with_run
    (gen_fps : Py.float -> string -> string -> Prog unit)
    (gen_csv : string -> string -> string -> Z -> option Z -> Prog unit)
    (args : Namespace) (w : world) :
  main_with gen_fps gen_csv args w =
  if negb (fps_truthy args) && negb (csv_file_truthy args) then
    parser_error "Either --fps or --csv-file must be specified" w
  else if fps_truthy args && csv_file_truthy args then
    parser_error "Cannot specify both --fps and --csv-file" w
  else if negb (bool_decide (is_Some (listdir w (left_dir args)))) then
    (Exit 1, printed w ("Error: Directory not found: " +:+ left_dir args))
  else if fps_truthy args then
    match fps args with
    | Some f => gen_fps f (left_dir args) (output args) w
    | None => (Raise TypeError, w)
    end
  else
    match csv_file args with
    | Some c => gen_csv c (left_dir args) (output args)
                  (time_column args) (filename_column args) w
    | None => (Raise TypeError, w)
    end.
Proof.
  unfold main_with, bind, os_path_isdir, ret.
  destruct (fps_truthy args), (csv_file_truthy args); simpl; try reflexivity;
    destruct (bool_decide (is_Some (listdir w (left_dir args)))); simpl;
    try reflexivity.
  - destruct (fps args); reflexivity.
  - destruct (csv_file args); reflexivity.
Qed.

End Main.

(** ** The choice of the records *)

Section Selection.

Variables (timestamps : list Py.float) (filenames images : list string).

Lemma select_output_table :
  timestamps <> [] -> length filenames = length timestamps ->
  select_output timestamps filenames images = Some (combine timestamps filenames).
Proof.
  intros Hts Hlen. unfold select_output.
  assert (Hf : is_empty filenames = false).
  { destruct filenames, timestamps; simpl in *; congruence. }
  rewrite Hf, Hlen, Nat.eqb_refl. reflexivity.
Qed.

Lemma select_output_images :
  length filenames <> length timestamps -> length timestamps = length images ->
  select_output timestamps filenames images = Some (combine timestamps images).
Proof.
  intros Hne Hlen. unfold select_output. apply Nat.eqb_neq in Hne.
  rewrite Hne, andb_false_r, Hlen, Nat.eqb_refl. reflexivity.
Qed.

Lemma select_output_none :
  length filenames <> length timestamps -> length timestamps <> length images ->
  select_output timestamps filenames images = None.
Proof.
  intros Hne Hni. unfold select_output.
  apply Nat.eqb_neq in Hne. apply Nat.eqb_neq in Hni.
  rewrite Hne, Hni, andb_false_r. reflexivity.
Qed.

End Selection.

(** A run of the table-import mode that gets as far as the choice of the
    records. *)
Lemma generate_from_csv_selected (w : world)
    (csv_file directory output_file text : string)
    (time_column : Z) (filename_column : option Z) :
  literal_path directory ->
  reads_table w csv_file text ->
  png_names w directory <> [] ->
  table_timestamps time_column (table_rows text) <> [] ->
  generate_from_csv csv_file directory output_file time_column filename_column w
  = match select_output (table_timestamps time_column (table_rows text))
            (table_filenames time_column filename_column (table_rows text))
            (sorted_images w directory) with
    | Some output_list =>
        match write_error w output_file with
        | Some f => (Raise (exn_of_failure f), w)
        | None =>
            (Ret tt,
             written w output_file (csv_header csv_file +:+ lines_text output_list)
               (csv_summary output_file (length output_list) csv_file))
        end
    | None =>
        (Exit 1,
         printed w (msg_count_mismatch
                      (length (table_timestamps time_column (table_rows text)))
                      (length (sorted_images w directory))))
    end.
Proof.
  intros Hdir (_ & Hopen & Hfile & Hvalid & Hrows) Hpng Hts.
  rewrite generate_from_csv_run by apply (literal_path_listing directory w Hdir).
  cbv zeta. rewrite (sorted_images_empty w directory Hdir).
  destruct (png_names w directory) eqn:E; [congruence|].
  simpl is_empty. cbv iota.
  rewrite Hopen, Hfile, Hvalid, (csv_reader_rows text Hrows), csv_rows_spec.
  destruct (table_timestamps time_column (table_rows text)); [congruence|].
  reflexivity.
Qed.

(** The same run when the output file opens for writing. *)
Lemma generate_from_csv_written (w : world)
    (csv_file directory output_file text : string)
    (time_column : Z) (filename_column : option Z) :
  literal_path directory ->
  reads_table w csv_file text ->
  writable w output_file ->
  png_names w directory <> [] ->
  table_timestamps time_column (table_rows text) <> [] ->
  generate_from_csv csv_file directory output_file time_column filename_column w
  = match select_output (table_timestamps time_column (table_rows text))
            (table_filenames time_column filename_column (table_rows text))
            (sorted_images w directory) with
    | Some output_list =>
        (Ret tt,
         written w output_file (csv_header csv_file +:+ lines_text output_list)
           (csv_summary output_file (length output_list) csv_file))
    | None =>
        (Exit 1,
         printed w (msg_count_mismatch
                      (length (table_timestamps time_column (table_rows text)))
                      (length (sorted_images w directory))))
    end.
Proof.
  intros Hdir Htable (_ & Hwrite) Hpng Hts.
  rewrite (generate_from_csv_selected w csv_file directory output_file text
             time_column filename_column Hdir Htable Hpng Hts), Hwrite.
  reflexivity.
Qed.

(** ** The claims *)

(** C1 (as amended).  Fixed-rate mode, for a directory argument that is a
    literal path, whose entries are plain names that are valid UTF-8, of
    which N >= 1 match [*.png] (end with [.png] and do not start with a
    dot), for an output file that opens for writing and for a rate
    [fps > 0]: the run succeeds and writes the header and exactly N
    records; the names of the records are the PNG names in ascending
    byte-wise order; the record at position [idx] pairs the float
    [idx * (1.0 / fps)] with the name at position [idx]; the first
    timestamp is exactly [0.0] whenever [1.0 / fps] is finite; and every
    record is written as the [%.6f] text of its timestamp, a space, its
    name and a line end, where the [%.6f] text of a finite timestamp is
    the decimal numeral, with exactly six digits after the point, of the
    multiple of [10^-6] nearest to it. *)
Theorem fixed_rate_records (w : world) (fps : Py.float) (left_dir output_file : string) :
  literal_path left_dir ->
  writable w output_file ->
  plain_names (png_names w left_dir) ->
  (1 <= length (png_names w left_dir))%nat ->
  Py.float_pos fps = true ->
  let n := length (png_names w left_dir) in
  let dt := Py.float_div Py.float_one fps in
  let names := Py.list_sort (png_names w left_dir) in
  let records := fps_records dt names in
  generate_from_fps fps left_dir output_file w
    = (Ret tt, written w output_file (fps_header n fps +:+ lines_text records)
                       (fps_summary output_file n fps))
  /\ length records = n
  /\ Permutation names (png_names w left_dir)
  /\ StronglySorted String.le names
  /\ (forall idx name, nth_error names idx = Some name ->
        nth_error records idx
        = Some (Py.float_mul (Py.float_of_Z (Z.of_nat idx)) dt, name))
  /\ (is_finite dt = true ->
        exists name rest, records = (S754_zero false, name) :: rest
                          /\ Py.format_6f (S754_zero false) = "0.000000")
  /\ (forall t name, In (t, name) records ->
        exists text, rounded_to_6_decimals t text
                     /\ record_line t name = text +:+ " " +:+ name +:+ Py.nl).
Proof.
  intros Hdir (_ & Hwrite) Hplain Hn Hpos. cbv zeta.
  pose proof (plain_names_no_sep _ Hplain) as Hnames.
  pose proof (sorted_images_names w left_dir Hdir Hnames) as Himg.
  pose proof (list_sort_length (png_names w left_dir)) as Hlen.
  pose proof (list_sort_perm (png_names w left_dir)) as Hperm.
  pose proof (list_sort_sorted (png_names w left_dir)) as Hsorted.
  remember (Py.list_sort (png_names w left_dir)) as names eqn:En.
  remember (Py.float_div Py.float_one fps) as dt eqn:Edt.
  destruct names as [|name0 names0]; [simpl in Hlen; lia|].
  split; [|split; [|split; [|split; [|split; [|split]]]]].
  - rewrite generate_from_fps_run by apply (literal_path_listing left_dir w Hdir).
    cbv zeta. rewrite Himg, Hlen.
    simpl is_empty. cbv iota. rewrite (truediv_pos fps Hpos), <- Edt, Hwrite.
    reflexivity.
  - rewrite fps_records_length. exact Hlen.
  - exact Hperm.
  - exact Hsorted.
  - intros idx name Hidx. rewrite fps_records_nth, Hidx. reflexivity.
  - intros Hfin. exists name0, (tail (fps_records dt (name0 :: names0))).
    split; [|reflexivity].
    rewrite Edt in Hfin. rewrite <- (first_timestamp_zero fps Hpos Hfin), <- Edt.
    reflexivity.
  - intros t name _. exists (Py.format_6f t).
    split; [apply format_6f_rounded|reflexivity].
Qed.

(** A directory with two PNG files at 30 frames per second. *)
Lemma fixed_rate_records_witness :
  literal_path "frames"
  /\ writable ex_world "out.txt"
  /\ plain_names (png_names ex_world "frames")
  /\ (1 <= length (png_names ex_world "frames"))%nat
  /\ Py.float_pos f30 = true
  /\ generate_from_fps f30 "frames" "out.txt" ex_world
     = (Ret tt,
        written ex_world "out.txt"
          (fps_header 2 f30
             +:+ lines_text (fps_records (Py.float_div Py.float_one f30)
                                         ["a.png"; "b.png"]))
          (fps_summary "out.txt" 2 f30)).
Proof.
  assert (H1 : literal_path "frames") by (repeat split).
  assert (H2 : writable ex_world "out.txt") by (repeat split).
  assert (H3 : plain_names (png_names ex_world "frames"))
    by (repeat constructor).
  assert (H4 : (1 <= length (png_names ex_world "frames"))%nat)
    by (vm_compute; lia).
  assert (H5 : Py.float_pos f30 = true) by reflexivity.
  split; [exact H1|]. split; [exact H2|]. split; [exact H3|].
  split; [exact H4|]. split; [exact H5|].
  exact (proj1 (fixed_rate_records ex_world f30 "frames" "out.txt" H1 H2 H3 H4 H5)).
Defined.

(** C1 as stated fails: with the least positive float as frame rate (a
    value [--fps 5e-324] gives), [1.0 / fps] overflows to infinity and the
    first timestamp [0 * inf] is a NaN, printed [nan], not [0.0]. *)
Lemma fixed_rate_first_timestamp_nan :
  Py.float_pos ftiny = true
  /\ png_names ex_world "one" = ["a.png"]
  /\ Py.float_mul (Py.float_of_Z 0) (Py.float_div Py.float_one ftiny) = S754_nan
  /\ generate_from_fps ftiny "one" "out.txt" ex_world
     = (Ret tt,
        written ex_world "out.txt"
          ("# Generated timestamps for 1 frames at 5e-324 fps" +:+ Py.nl
             +:+ "# timestamp(s) filename" +:+ Py.nl
             +:+ "nan a.png" +:+ Py.nl)
          "Generated out.txt with 1 timestamps at 5e-324 fps").
Proof. repeat split; vm_compute; reflexivity. Qed.

(** C2 (as amended).  [main] rejects an invocation whose [fps] is missing
    or zero when no table is given, and one that gives both a non-zero [fps]
    and a table; a missing directory ends the run; otherwise a non-zero
    [fps] (negative values and NaN included) is handed unchanged to the
    fixed-rate generator, and a table to the table generator.  So the
    fixed-rate generator is never invoked with a missing or zero [fps]. *)
Theorem main_dispatch
    (gen_fps : Py.float -> string -> string -> Prog unit)
    (gen_csv : string -> string -> string -> Z -> option Z -> Prog unit)
    (args : Namespace) (w : world) :
  (fps_truthy args = false /\ csv_file_truthy args = false
   /\ main_with gen_fps gen_csv args w
      = parser_error "Either --fps or --csv-file must be specified" w)
  \/ (fps_truthy args = true /\ csv_file_truthy args = true
      /\ main_with gen_fps gen_csv args w
         = parser_error "Cannot specify both --fps and --csv-file" w)
  \/ (listdir w (left_dir args) = None
      /\ main_with gen_fps gen_csv args w
         = (Exit 1, printed w ("Error: Directory not found: " +:+ left_dir args)))
  \/ (exists f, fps args = Some f /\ Py.is_zero f = false
      /\ csv_file_truthy args = false
      /\ main_with gen_fps gen_csv args w
         = gen_fps f (left_dir args) (output args) w)
  \/ (exists c, csv_file args = Some c /\ c <> "" /\ fps_truthy args = false
      /\ main_with gen_fps gen_csv args w
         = gen_csv c (left_dir args) (output args)
             (time_column args) (filename_column args) w).
Proof.
  rewrite main_with_run.
  destruct (fps_truthy args) eqn:Hf, (csv_file_truthy args) eqn:Hc; simpl.
  - right. left. auto.
  - destruct (bool_decide (is_Some (listdir w (left_dir args)))) eqn:Hd; simpl.
    + do 3 right. left. unfold fps_truthy in Hf.
      destruct (fps args) as [f|]; [|discriminate].
      exists f. unfold Py.float_truthy in Hf. apply negb_true_iff in Hf. auto.
    + do 2 right. left. split; [|reflexivity].
      apply bool_decide_eq_false in Hd. apply eq_None_not_Some, Hd.
  - destruct (bool_decide (is_Some (listdir w (left_dir args)))) eqn:Hd; simpl.
    + do 4 right. unfold csv_file_truthy in Hc.
      destruct (csv_file args) as [c|]; [|discriminate].
      exists c. apply negb_true_iff, String.eqb_neq in Hc. auto.
    + do 2 right. left. split; [|reflexivity].
      apply bool_decide_eq_false in Hd. apply eq_None_not_Some, Hd.
  - left. auto.
Qed.

(** C2 as stated fails: [--fps -5] passes the validation, and [main] runs
    the fixed-rate generator with the non-positive rate [-5.0], whatever
    that generator is; the script then writes negative timestamps. *)
Lemma main_passes_negative_fps :
  SFleb fminus5 (S754_zero false) = true
  /\ (forall gen_fps gen_csv,
        main_with gen_fps gen_csv ex_args_negative ex_world
        = gen_fps fminus5 "frames" "out.txt" ex_world)
  /\ main ex_args_negative ex_world
     = (Ret tt,
        written ex_world "out.txt"
          ("# Generated timestamps for 2 frames at -5.0 fps" +:+ Py.nl
             +:+ "# timestamp(s) filename" +:+ Py.nl
             +:+ "-0.000000 a.png" +:+ Py.nl
             +:+ "-0.200000 b.png" +:+ Py.nl)
          "Generated out.txt with 2 timestamps at -5.0 fps").
Proof.
  split; [reflexivity|]. split; [intros; reflexivity|].
  vm_compute. reflexivity.
Qed.

(** C10.  No run of [main] ends in a division by zero: the only division,
    [1.0 / fps] in the fixed-rate generator, raises ZeroDivisionError
    exactly when [fps] is zero, and [main] takes a zero [fps] for false, so
    it never hands it to that generator; with no table given either, the
    invocation is rejected as having no mode. *)
Theorem main_never_divides_by_zero (args : Namespace) (w : world) :
  (main args w).1 <> Raise ZeroDivisionError
  /\ (forall f, fps args = Some f -> Py.is_zero f = true ->
        fps_truthy args = false
        /\ (forall gen_fps gen_fps' gen_csv,
              main_with gen_fps gen_csv args w = main_with gen_fps' gen_csv args w)
        /\ (csv_file_truthy args = false ->
              main args w
              = parser_error "Either --fps or --csv-file must be specified" w)).
Proof.
  split.
  - unfold main. rewrite main_with_run.
    destruct (negb (fps_truthy args) && negb (csv_file_truthy args));
      [discriminate|].
    destruct (fps_truthy args && csv_file_truthy args); [discriminate|].
    destruct (negb (bool_decide (is_Some (listdir w (left_dir args)))));
      [discriminate|].
    destruct (get_sorted_images_cases (left_dir args) w) as [Himg|Himg].
    + destruct (fps_truthy args) eqn:Ht.
      * unfold fps_truthy in Ht. destruct (fps args) as [f|]; [|discriminate].
        rewrite generate_from_fps_run by exact Himg. cbv zeta.
        destruct (is_empty _); [discriminate|].
        unfold Py.truediv. unfold Py.float_truthy in Ht.
        apply negb_true_iff in Ht. rewrite Ht.
        destruct (write_error w (output args)) as [[]|]; discriminate.
      * destruct (csv_file args) as [c|]; [|discriminate].
        rewrite generate_from_csv_run by exact Himg. cbv zeta.
        destruct (is_empty _); [discriminate|].
        destruct (read_error w c) as [[]|]; try discriminate.
        destruct (files w !! c); [|discriminate].
        destruct (Py.utf8_valid _); [|discriminate].
        destruct (Py.csv_reader _); [|discriminate].
        destruct (csv_rows _ _ _) as [timestamps filenames].
        destruct (is_empty timestamps); [discriminate|].
        destruct (select_output _ _ _); [|discriminate].
        destruct (write_error w (output args)) as [[]|]; discriminate.
    + destruct (fps_truthy args).
      * destruct (fps args) as [f|]; [|discriminate].
        rewrite (generate_from_fps_raise _ _ _ _ _ Himg). discriminate.
      * destruct (csv_file args) as [c|]; [|discriminate].
        rewrite (generate_from_csv_raise _ _ _ _ _ _ _ Himg). discriminate.
  - intros f Hf Hz.
    assert (Ht : fps_truthy args = false).
    { unfold fps_truthy, Py.float_truthy. rewrite Hf, Hz. reflexivity. }
    split; [exact Ht|]. split.
    + intros gen_fps gen_fps' gen_csv. rewrite !main_with_run, Ht. reflexivity.
    + intros Hc. unfold main. rewrite main_with_run, Ht, Hc. reflexivity.
Qed.

(** [--fps 0] with no table. *)
Lemma main_never_divides_by_zero_witness :
  fps ex_args_zero = Some (S754_zero false)
  /\ Py.is_zero (S754_zero false) = true
  /\ csv_file_truthy ex_args_zero = false
  /\ main ex_args_zero ex_world
     = parser_error "Either --fps or --csv-file must be specified" ex_world.
Proof.
  split; [reflexivity|]. split; [reflexivity|]. split; [reflexivity|].
  exact (proj2 (proj2 (proj2 (main_never_divides_by_zero ex_args_zero ex_world)
                         (S754_zero false) eq_refl eq_refl)) eq_refl).
Defined.

(** C7.  A directory with no PNG file, given as a literal path, ends both
    modes with the message for an empty directory and exit status 1,
    whatever the frame rate (zero included) and whatever the table (a
    missing one included): nothing is read or computed before, and no file
    is written.  The same holds from [main] whenever the directory exists
    and one mode is chosen. *)
Theorem empty_directory_is_fatal (w : world) (directory : string) :
  literal_path directory ->
  png_names w directory = [] ->
  (forall fps output_file,
     generate_from_fps fps directory output_file w
     = (Exit 1, printed w (msg_empty_directory directory)))
  /\ (forall csv_file output_file time_column filename_column,
        generate_from_csv csv_file directory output_file time_column filename_column w
        = (Exit 1, printed w (msg_empty_directory directory)))
  /\ (forall args,
        left_dir args = directory ->
        is_Some (listdir w directory) ->
        fps_truthy args <> csv_file_truthy args ->
        main args w = (Exit 1, printed w (msg_empty_directory directory)))
  /\ files (printed w (msg_empty_directory directory)) = files w.
Proof.
  intros Hdir Hempty.
  pose proof (proj1 (literal_path_listing directory w Hdir)) as Himg.
  assert (He : is_empty (sorted_images w directory) = true)
    by (rewrite (sorted_images_empty w directory Hdir), Hempty; reflexivity).
  assert (Hfps : forall fps output_file,
            generate_from_fps fps directory output_file w
            = (Exit 1, printed w (msg_empty_directory directory))).
  { intros. rewrite generate_from_fps_run by exact Himg. cbv zeta.
    rewrite He. reflexivity. }
  assert (Hcsv : forall csv_file output_file time_column filename_column,
            generate_from_csv csv_file directory output_file time_column
              filename_column w
            = (Exit 1, printed w (msg_empty_directory directory))).
  { intros. rewrite generate_from_csv_run by exact Himg. cbv zeta.
    rewrite He. reflexivity. }
  split; [exact Hfps|]. split; [exact Hcsv|]. split; [|reflexivity].
  intros args Hargs Hsome Hmode. unfold main. rewrite main_with_run, Hargs.
  rewrite (bool_decide_eq_true_2 _ Hsome).
  destruct (fps_truthy args) eqn:Ht, (csv_file_truthy args) eqn:Hc;
    try congruence; simpl.
  - unfold fps_truthy in Ht. destruct (fps args); [apply Hfps|discriminate].
  - unfold csv_file_truthy in Hc. destruct (csv_file args); [apply Hcsv|discriminate].
Qed.

(** The directory [empty], with a zero rate and with a table that does not
    exist. *)
Lemma empty_directory_is_fatal_witness :
  literal_path "empty"
  /\ png_names ex_world "empty" = []
  /\ generate_from_fps (S754_zero false) "empty" "out.txt" ex_world
     = (Exit 1, printed ex_world (msg_empty_directory "empty"))
  /\ generate_from_csv "missing.csv" "empty" "out.txt" 0 None ex_world
     = (Exit 1, printed ex_world (msg_empty_directory "empty")).
Proof.
  assert (H0 : literal_path "empty") by (repeat split).
  assert (H : png_names ex_world "empty" = []) by reflexivity.
  split; [exact H0|]. split; [exact H|].
  destruct (empty_directory_is_fatal ex_world "empty" H0 H) as (Hfps & Hcsv & _).
  split; [apply Hfps|apply Hcsv].
Defined.

(** C8.  A run that does not succeed writes nothing: in both modes the
    world after a fatal condition is the world before plus one printed
    message (for an empty directory, for no valid row, or for mismatched
    counts), so every file, the output file included, is as it was; an
    escaping exception leaves the world as it was; and a run that succeeds
    changes the output file only. *)
Theorem no_write_on_failure (w : world) (fps : Py.float)
    (csv_file left_dir output_file : string)
    (time_column : Z) (filename_column : option Z) :
  match generate_from_fps fps left_dir output_file w with
  | (Ret _, w') => exists content, files w' = <[output_file := content]> (files w)
  | (Exit code, w') =>
      code = 1 /\ w' = printed w (msg_empty_directory left_dir)
      /\ files w' = files w
  | (Raise _, w') => w' = w
  end
  /\ match generate_from_csv csv_file left_dir output_file
             time_column filename_column w with
     | (Ret _, w') => exists content, files w' = <[output_file := content]> (files w)
     | (Exit code, w') =>
         code = 1
         /\ (w' = printed w (msg_empty_directory left_dir)
             \/ w' = printed w (msg_no_valid_rows csv_file)
             \/ exists n_timestamps n_images,
                  w' = printed w (msg_count_mismatch n_timestamps n_images))
         /\ files w' = files w
     | (Raise _, w') => w' = w
     end.
Proof.
  destruct (get_sorted_images_cases left_dir w) as [Himg|Himg].
  - split.
    + rewrite generate_from_fps_run by exact Himg. cbv zeta.
      destruct (is_empty _); [auto|].
      destruct (Py.truediv _ _); [|reflexivity].
      destruct (write_error w output_file); [reflexivity|].
      eexists. reflexivity.
    + rewrite generate_from_csv_run by exact Himg. cbv zeta.
      destruct (is_empty _); [auto|].
      destruct (read_error w csv_file); [reflexivity|].
      destruct (files w !! csv_file); [|reflexivity].
      destruct (Py.utf8_valid _); [|reflexivity].
      destruct (Py.csv_reader _); [|reflexivity].
      destruct (csv_rows _ _ _) as [timestamps filenames].
      destruct (is_empty timestamps); [auto|].
      destruct (select_output _ _ _).
      * destruct (write_error w output_file); [reflexivity|].
        eexists. reflexivity.
      * split; [reflexivity|]. split; [|reflexivity]. right. right. eauto.
  - rewrite (generate_from_fps_raise _ _ _ _ _ Himg).
    rewrite (generate_from_csv_raise _ _ _ _ _ _ _ Himg). split; reflexivity.
Qed.

(** C3 (as amended).  Output selection in table-import mode, for a
    directory argument that is a literal path and holds a PNG file, and a
    table that can be read and has yielded a timestamp: (1) as many file
    names taken from the table as timestamps: the timestamps are paired
    with those file names, in row order; (2) otherwise, as many timestamps
    as images: the timestamps, in row order, are paired by position with
    the images, which are the PNG names in ascending order; (3) otherwise
    the run ends with status 1 and the message that reports the number of
    timestamps and the number of images, and no file is written.  (In (1)
    and (2) the output file is supposed to open for writing, in (2) the PNG
    names to be plain names that are valid UTF-8.) *)
Theorem output_selection (w : world) (csv_file left_dir output_file text : string)
    (time_column : Z) (filename_column : option Z) :
  literal_path left_dir ->
  reads_table w csv_file text ->
  png_names w left_dir <> [] ->
  table_timestamps time_column (table_rows text) <> [] ->
  let images := sorted_images w left_dir in
  let timestamps := table_timestamps time_column (table_rows text) in
  let filenames := table_filenames time_column filename_column (table_rows text) in
  let run := generate_from_csv csv_file left_dir output_file
               time_column filename_column w in
  (length filenames = length timestamps ->
   writable w output_file ->
     run = (Ret tt,
            written w output_file
              (csv_header csv_file +:+ lines_text (combine timestamps filenames))
              (csv_summary output_file (length (combine timestamps filenames)) csv_file)))
  /\ (length filenames <> length timestamps ->
      length timestamps = length images ->
      writable w output_file ->
      plain_names (png_names w left_dir) ->
      run = (Ret tt,
             written w output_file
               (csv_header csv_file +:+ lines_text (combine timestamps images))
               (csv_summary output_file (length (combine timestamps images)) csv_file))
      /\ images = Py.list_sort (png_names w left_dir)
      /\ StronglySorted String.le images)
  /\ (length filenames <> length timestamps ->
      length timestamps <> length images ->
      run = (Exit 1,
             printed w (msg_count_mismatch (length timestamps) (length images)))
      /\ files run.2 = files w)
  /\ length images = length (png_names w left_dir).
Proof.
  intros Hdir Htable Hpng Hts. cbv zeta.
  split; [|split; [|split]].
  - intros Hlen Hw.
    rewrite (generate_from_csv_written w csv_file left_dir output_file text
               time_column filename_column Hdir Htable Hw Hpng Hts).
    rewrite (select_output_table _ _ _ Hts Hlen). reflexivity.
  - intros Hne Hlen Hw Hplain.
    rewrite (generate_from_csv_written w csv_file left_dir output_file text
               time_column filename_column Hdir Htable Hw Hpng Hts).
    rewrite (select_output_images _ _ _ Hne Hlen).
    split; [reflexivity|].
    pose proof (sorted_images_names w left_dir Hdir (plain_names_no_sep _ Hplain))
      as Himg.
    split; [exact Himg|]. rewrite Himg. apply list_sort_sorted.
  - intros Hne Hni.
    rewrite (generate_from_csv_selected w csv_file left_dir output_file text
               time_column filename_column Hdir Htable Hpng Hts).
    rewrite (select_output_none _ _ _ Hne Hni). split; reflexivity.
  - apply sorted_images_length, Hdir.
Qed.

(** The table [times.csv] with its file names in column 1: branch (1). *)
Lemma output_selection_witness :
  literal_path "frames"
  /\ reads_table ex_world "times.csv" ex_table
  /\ png_names ex_world "frames" <> []
  /\ table_timestamps 0 (table_rows ex_table) <> []
  /\ length (table_filenames 0 (Some 1) (table_rows ex_table))
     = length (table_timestamps 0 (table_rows ex_table))
  /\ writable ex_world "out.txt"
  /\ generate_from_csv "times.csv" "frames" "out.txt" 0 (Some 1) ex_world
     = (Ret tt,
        written ex_world "out.txt"
          (csv_header "times.csv"
             +:+ lines_text (combine (table_timestamps 0 (table_rows ex_table))
                                     (table_filenames 0 (Some 1) (table_rows ex_table))))
          (csv_summary "out.txt"
             (length (combine (table_timestamps 0 (table_rows ex_table))
                              (table_filenames 0 (Some 1) (table_rows ex_table))))
             "times.csv")).
Proof.
  assert (H0 : literal_path "frames") by (repeat split).
  assert (H1 : reads_table ex_world "times.csv" ex_table)
    by (repeat split; vm_compute; eexists; reflexivity).
  assert (H2 : png_names ex_world "frames" <> []) by (vm_compute; discriminate).
  assert (H3 : table_timestamps 0 (table_rows ex_table) <> [])
    by (vm_compute; discriminate).
  assert (H4 : length (table_filenames 0 (Some 1) (table_rows ex_table))
               = length (table_timestamps 0 (table_rows ex_table)))
    by (vm_compute; reflexivity).
  assert (H5 : writable ex_world "out.txt") by (repeat split).
  split; [exact H0|]. split; [exact H1|]. split; [exact H2|]. split; [exact H3|].
  split; [exact H4|]. split; [exact H5|].
  exact (proj1 (output_selection ex_world "times.csv" "frames" "out.txt" ex_table
                  0 (Some 1) H0 H1 H2 H3) H4 H5).
Defined.

(** C3 as stated fails where the run does not reach the selection.  No
    row of [bad.csv] yields a timestamp, so the file names taken from it
    are as many as the timestamps, none; yet the run neither writes the
    pairs, as (1) says, nor reports a count mismatch: it ends with the
    message for no valid rows.  And [good.csv] has two timestamps and two
    file names, but with the directory [empty] the run ends with the
    message for an empty directory. *)
Lemma selection_needs_timestamps_and_images :
  table_timestamps 1 (table_rows ex_bad_table) = []
  /\ table_filenames 1 (Some 0) (table_rows ex_bad_table) = []
  /\ generate_from_csv "bad.csv" "frames" "out.txt" 1 (Some 0) ex_world
     = (Exit 1, printed ex_world "Error: No valid timestamps found in bad.csv")
  /\ length (table_timestamps 0 (table_rows ex_good_table)) = 2%nat
  /\ length (table_filenames 0 (Some 1) (table_rows ex_good_table)) = 2%nat
  /\ generate_from_csv "good.csv" "empty" "out.txt" 0 (Some 1) ex_world
     = (Exit 1, printed ex_world "Error: No PNG files found in empty").
Proof. repeat split; vm_compute; reflexivity. Qed.

(** C4.  Parsing of the table: an empty row and a row whose first field
    starts with [#] change nothing; any other row whose timestamp column is
    missing or does not read as a float changes nothing either (the whole
    row is skipped), and the rows after it are processed as if it were not
    there; and when no row yields a timestamp the run ends with status 1
    and the message for no valid rows, and no file is written (for a
    table that can be read and a literal directory that holds a PNG
    file). *)
Theorem table_parsing (time_column : Z) (filename_column : option Z) :
  (forall acc, csv_row time_column filename_column acc [] = acc)
  /\ (forall acc first rest,
        Py.startswith first "#" = true ->
        csv_row time_column filename_column acc (first :: rest) = acc)
  /\ (forall acc row,
        is_data_row row = true ->
        Py.getitem row time_column = None
        \/ (exists cell, Py.getitem row time_column = Some cell
                         /\ Py.float_of_string cell = None) ->
        csv_row time_column filename_column acc row = acc)
  /\ (forall before row after,
        row_timestamp time_column row = None ->
        csv_rows time_column filename_column (before ++ row :: after)
        = csv_rows time_column filename_column (before ++ after))
  /\ (forall w csv_file left_dir output_file text,
        literal_path left_dir ->
        reads_table w csv_file text ->
        png_names w left_dir <> [] ->
        Forall (fun row => row_timestamp time_column row = None) (table_rows text) ->
        generate_from_csv csv_file left_dir output_file time_column filename_column w
        = (Exit 1, printed w (msg_no_valid_rows csv_file))
        /\ files (printed w (msg_no_valid_rows csv_file)) = files w).
Proof.
  assert (Hskip : forall acc row,
            row_timestamp time_column row = None ->
            csv_row time_column filename_column acc row = acc).
  { intros [timestamps filenames] row Hrow. rewrite csv_row_spec. simpl.
    rewrite Hrow, !app_nil_r. reflexivity. }
  split; [|split; [|split; [|split]]].
  - intros acc. apply Hskip. reflexivity.
  - intros acc first rest Hc. apply Hskip.
    unfold row_timestamp, is_data_row. rewrite Hc. reflexivity.
  - intros acc row Hd Hbad. apply Hskip. unfold row_timestamp. rewrite Hd.
    destruct Hbad as [-> | (cell & -> & ->)]; reflexivity.
  - intros before row after Hrow. unfold csv_rows.
    rewrite !fold_left_app. cbn [fold_left]. rewrite (Hskip _ row Hrow). reflexivity.
  - intros w csv directory output_file text Hdir
           (_ & Hopen & Hfile & Hvalid & Hreader) Hpng Hrows.
    split; [|reflexivity].
    rewrite generate_from_csv_run by apply (literal_path_listing directory w Hdir).
    cbv zeta. rewrite (sorted_images_empty w directory Hdir).
    destruct (png_names w directory) eqn:E; [congruence|].
    simpl is_empty. cbv iota.
    rewrite Hopen, Hfile, Hvalid, (csv_reader_rows text Hreader), csv_rows_spec.
    rewrite (table_timestamps_none _ _ Hrows). reflexivity.
Qed.

(** The table [bad.csv]: a comment, a row that is no number, an empty row
    and a short row. *)
Lemma table_parsing_witness :
  literal_path "frames"
  /\ reads_table ex_world "bad.csv" ex_bad_table
  /\ png_names ex_world "frames" <> []
  /\ Forall (fun row => row_timestamp 1 row = None) (table_rows ex_bad_table)
  /\ generate_from_csv "bad.csv" "frames" "out.txt" 1 None ex_world
     = (Exit 1, printed ex_world (msg_no_valid_rows "bad.csv")).
Proof.
  assert (H0 : literal_path "frames") by (repeat split).
  assert (H1 : reads_table ex_world "bad.csv" ex_bad_table)
    by (repeat split; vm_compute; eexists; reflexivity).
  assert (H2 : png_names ex_world "frames" <> []) by (vm_compute; discriminate).
  assert (H3 : Forall (fun row => row_timestamp 1 row = None)
                      (table_rows ex_bad_table)).
  { replace (table_rows ex_bad_table)
      with [["# only a comment"]; ["x"; "y"]; []; ["z"]] by (vm_compute; reflexivity).
    repeat (constructor; [vm_compute; reflexivity|]). constructor. }
  split; [exact H0|]. split; [exact H1|]. split; [exact H2|]. split; [exact H3|].
  destruct (table_parsing 1 None) as (_ & _ & _ & _ & H).
  exact (proj1 (H ex_world "bad.csv" "frames" "out.txt" ex_bad_table H0 H1 H2 H3)).
Defined.

(** C5.  The table of the specification, a comment, [1.0,imgA.png], a
    malformed row and [2.0,imgB.png], read with the file names in column 1,
    with a directory, given as a literal path, that has a PNG file, and
    with an output file that opens for writing: the output holds exactly
    the two records [1.000000 imgA.png] and [2.000000 imgB.png], in this
    order. *)
Theorem example_table_records (w : world) (csv_file left_dir output_file : string) :
  Py.utf8_valid csv_file = true ->
  read_error w csv_file = None ->
  files w !! csv_file = Some ex_table ->
  literal_path left_dir ->
  png_names w left_dir <> [] ->
  writable w output_file ->
  generate_from_csv csv_file left_dir output_file 0 (Some 1) w
  = (Ret tt,
     written w output_file
       (csv_header csv_file
          +:+ "1.000000 imgA.png" +:+ Py.nl +:+ "2.000000 imgB.png" +:+ Py.nl)
       (csv_summary output_file 2 csv_file)).
Proof.
  intros Hname Hopen Hfile Hdir Hpng Hw.
  assert (Htable : reads_table w csv_file ex_table).
  { split; [exact Hname|]. split; [exact Hopen|]. split; [exact Hfile|].
    split; [reflexivity|]. vm_compute. eexists. reflexivity. }
  assert (Hts : table_timestamps 0 (table_rows ex_table) <> [])
    by (vm_compute; discriminate).
  rewrite (generate_from_csv_written w csv_file left_dir output_file ex_table
             0 (Some 1) Hdir Htable Hw Hpng Hts).
  replace (table_timestamps 0 (table_rows ex_table))
    with [Py.float_of_Z 1; Py.float_of_Z 2] by (vm_compute; reflexivity).
  replace (table_filenames 0 (Some 1) (table_rows ex_table))
    with ["imgA.png"; "imgB.png"] by (vm_compute; reflexivity).
  replace (select_output [Py.float_of_Z 1; Py.float_of_Z 2]
             ["imgA.png"; "imgB.png"] (sorted_images w left_dir))
    with (Some [(Py.float_of_Z 1, "imgA.png"); (Py.float_of_Z 2, "imgB.png")])
    by reflexivity.
  replace (lines_text [(Py.float_of_Z 1, "imgA.png"); (Py.float_of_Z 2, "imgB.png")])
    with ("1.000000 imgA.png" +:+ Py.nl +:+ "2.000000 imgB.png" +:+ Py.nl)
    by (vm_compute; reflexivity).
  reflexivity.
Qed.

(** The table at [times.csv] and the directory [frames]. *)
Lemma example_table_records_witness :
  Py.utf8_valid "times.csv" = true
  /\ read_error ex_world "times.csv" = None
  /\ files ex_world !! "times.csv" = Some ex_table
  /\ literal_path "frames"
  /\ png_names ex_world "frames" <> []
  /\ writable ex_world "out.txt"
  /\ generate_from_csv "times.csv" "frames" "out.txt" 0 (Some 1) ex_world
     = (Ret tt,
        written ex_world "out.txt"
          (csv_header "times.csv"
             +:+ "1.000000 imgA.png" +:+ Py.nl +:+ "2.000000 imgB.png" +:+ Py.nl)
          (csv_summary "out.txt" 2 "times.csv")).
Proof.
  assert (H1 : Py.utf8_valid "times.csv" = true) by reflexivity.
  assert (H2 : read_error ex_world "times.csv" = None) by reflexivity.
  assert (H3 : files ex_world !! "times.csv" = Some ex_table) by reflexivity.
  assert (H4 : literal_path "frames") by (repeat split).
  assert (H5 : png_names ex_world "frames" <> []) by (vm_compute; discriminate).
  assert (H6 : writable ex_world "out.txt") by (repeat split).
  split; [exact H1|]. split; [exact H2|]. split; [exact H3|]. split; [exact H4|].
  split; [exact H5|]. split; [exact H6|].
  exact (example_table_records ex_world "times.csv" "frames" "out.txt"
           H1 H2 H3 H4 H5 H6).
Defined.

(** C6 (as amended).  Round trip: for a directory, given as a literal
    path, with at least one PNG file, a table that can be read and has at
    least one row that is neither empty nor a comment, all of whose such
    rows carry a timestamp that reads as a float and a file name in the
    given column, and an output file that opens for writing, table-import
    mode writes exactly the (timestamp, file name) pairs of these rows, in
    row order; which PNG files the directory holds, and how many, does not
    matter. *)
Theorem table_round_trip (w : world) (csv_file left_dir output_file text : string)
    (time_column fc : Z) :
  literal_path left_dir ->
  reads_table w csv_file text ->
  png_names w left_dir <> [] ->
  full_rows time_column fc (table_rows text) ->
  (exists row, In row (table_rows text) /\ is_data_row row = true) ->
  writable w output_file ->
  let pairs := table_pairs time_column fc (table_rows text) in
  generate_from_csv csv_file left_dir output_file time_column (Some fc) w
  = (Ret tt,
     written w output_file (csv_header csv_file +:+ lines_text pairs)
       (csv_summary output_file (length pairs) csv_file)).
Proof.
  intros Hdir Htable Hpng Hfull (row & Hin & Hdata) Hw. cbv zeta.
  destruct (full_rows_lists time_column fc (table_rows text) Hfull) as [Hpairs Hlen].
  assert (Hts : table_timestamps time_column (table_rows text) <> []).
  { apply (table_timestamps_some time_column _ row Hin).
    unfold full_rows in Hfull. rewrite List.Forall_forall in Hfull.
    apply (Hfull row Hin Hdata). }
  rewrite (generate_from_csv_written w csv_file left_dir output_file text
             time_column (Some fc) Hdir Htable Hw Hpng Hts).
  rewrite (select_output_table _ _ _ Hts Hlen), Hpairs. reflexivity.
Qed.

(** The table [good.csv] and the directory [one], whose only image
    [a.png] appears nowhere in the output. *)
Lemma table_round_trip_witness :
  literal_path "one"
  /\ reads_table ex_world "good.csv" ex_good_table
  /\ png_names ex_world "one" <> []
  /\ full_rows 0 1 (table_rows ex_good_table)
  /\ (exists row, In row (table_rows ex_good_table) /\ is_data_row row = true)
  /\ writable ex_world "out.txt"
  /\ generate_from_csv "good.csv" "one" "out.txt" 0 (Some 1) ex_world
     = (Ret tt,
        written ex_world "out.txt"
          (csv_header "good.csv"
             +:+ lines_text (table_pairs 0 1 (table_rows ex_good_table)))
          (csv_summary "out.txt"
             (length (table_pairs 0 1 (table_rows ex_good_table))) "good.csv")).
Proof.
  assert (Hrows : table_rows ex_good_table
                  = [["1.0"; "imgA.png"]; ["2.0"; "imgB.png"]])
    by (vm_compute; reflexivity).
  assert (H0 : literal_path "one") by (repeat split).
  assert (H1 : reads_table ex_world "good.csv" ex_good_table)
    by (repeat split; vm_compute; eexists; reflexivity).
  assert (H2 : png_names ex_world "one" <> []) by (vm_compute; discriminate).
  assert (H3 : full_rows 0 1 (table_rows ex_good_table)).
  { rewrite Hrows.
    repeat (constructor;
            [intros _; split; eexists; vm_compute; reflexivity|]).
    constructor. }
  assert (H4 : exists row, In row (table_rows ex_good_table)
                           /\ is_data_row row = true).
  { rewrite Hrows. exists ["1.0"; "imgA.png"]. split; [left|]; reflexivity. }
  assert (H5 : writable ex_world "out.txt") by (repeat split).
  split; [exact H0|]. split; [exact H1|]. split; [exact H2|]. split; [exact H3|].
  split; [exact H4|]. split; [exact H5|].
  exact (table_round_trip ex_world "good.csv" "one" "out.txt" ex_good_table
           0 1 H0 H1 H2 H3 H4 H5).
Defined.

(** C6 as stated fails in three ways.  On a directory without PNG files:
    every row of [good.csv] carries a timestamp and a file name, yet with
    the directory [empty] the run ends with the message for an empty
    directory and none of the table's pairs is written.  On a table
    without rows: every row of the empty table [none.csv] carries what it
    should, there being none, yet the run ends with the message for no
    valid rows instead of writing an output file without records.  On a
    row that starts with [#]: both rows of [hash.csv] carry a float in
    column 1 and a file name in column 2, yet the pair of the first row
    is not written. *)
Lemma round_trip_needs_an_image :
  files ex_world !! "good.csv" = Some ex_good_table
  /\ table_rows ex_good_table = [["1.0"; "imgA.png"]; ["2.0"; "imgB.png"]]
  /\ table_pairs 0 1 (table_rows ex_good_table)
     = [(Py.float_of_Z 1, "imgA.png"); (Py.float_of_Z 2, "imgB.png")]
  /\ generate_from_csv "good.csv" "empty" "out.txt" 0 (Some 1) ex_world
     = (Exit 1, printed ex_world "Error: No PNG files found in empty")
  /\ files (printed ex_world "Error: No PNG files found in empty") !! "out.txt"
     = Some "old"
  /\ files ex_world !! "none.csv" = Some ""
  /\ table_rows "" = []
  /\ generate_from_csv "none.csv" "frames" "out.txt" 0 (Some 1) ex_world
     = (Exit 1, printed ex_world "Error: No valid timestamps found in none.csv")
  /\ files ex_world !! "hash.csv" = Some ex_hash_table
  /\ table_rows ex_hash_table = [["#1"; "1.0"; "imgA.png"]; ["2"; "2.0"; "imgB.png"]]
  /\ Py.float_of_string "1.0" = Some (Py.float_of_Z 1)
  /\ generate_from_csv "hash.csv" "frames" "out.txt" 1 (Some 2) ex_world
     = (Ret tt,
        written ex_world "out.txt"
          ("# Generated from hash.csv" +:+ Py.nl
             +:+ "# timestamp(s) filename" +:+ Py.nl
             +:+ "2.000000 imgB.png" +:+ Py.nl)
          "Generated out.txt with 1 timestamps from hash.csv").
Proof. repeat split; vm_compute; reflexivity. Qed.

(** C9.  With a file name column given, a row whose timestamp reads as a
    float but which has no such column keeps its timestamp and adds no file
    name; a table with such a row ends with fewer file names than
    timestamps, so the file names of the table are not used: the timestamps
    are paired by position with the images of the directory when the counts
    agree, and the run ends with the count mismatch otherwise (for a
    table that can be read, a literal directory that holds PNG files with
    plain names that are valid UTF-8, and an output file that opens for
    writing). *)
Theorem short_row_keeps_timestamp (w : world)
    (csv_file left_dir output_file text : string)
    (time_column fc : Z) (row : list string) (t : Py.float) :
  In row (table_rows text) ->
  row_timestamp time_column row = Some t ->
  row_filename fc row = None ->
  let images := sorted_images w left_dir in
  let timestamps := table_timestamps time_column (table_rows text) in
  let filenames := table_filenames time_column (Some fc) (table_rows text) in
  (forall timestamps0 filenames0,
     csv_row time_column (Some fc) (timestamps0, filenames0) row
     = (timestamps0 ++ [t], filenames0))
  /\ (length filenames < length timestamps)%nat
  /\ (literal_path left_dir ->
      reads_table w csv_file text ->
      png_names w left_dir <> [] ->
      plain_names (png_names w left_dir) ->
      writable w output_file ->
      images = Py.list_sort (png_names w left_dir)
      /\ generate_from_csv csv_file left_dir output_file time_column (Some fc) w
         = if (length timestamps =? length images)%nat
           then (Ret tt,
                 written w output_file
                   (csv_header csv_file +:+ lines_text (combine timestamps images))
                   (csv_summary output_file (length (combine timestamps images))
                      csv_file))
           else (Exit 1,
                 printed w (msg_count_mismatch (length timestamps) (length images)))).
Proof.
  intros Hin Ht Hn. cbv zeta.
  assert (Hlt : (length (table_filenames time_column (Some fc) (table_rows text))
                 < length (table_timestamps time_column (table_rows text)))%nat).
  { apply (table_filenames_lt time_column (Some fc) fc (table_rows text) row);
      [reflexivity|exact Hin|eexists; exact Ht|exact Hn]. }
  assert (Hts : table_timestamps time_column (table_rows text) <> []).
  { apply (table_timestamps_some time_column _ row Hin). eexists. exact Ht. }
  split; [|split; [exact Hlt|]].
  - intros timestamps0 filenames0. rewrite csv_row_spec. simpl.
    rewrite Ht, Hn. rewrite app_nil_r. reflexivity.
  - intros Hdir Htable Hpng Hplain Hw.
    split; [apply sorted_images_names; [exact Hdir|apply plain_names_no_sep, Hplain]|].
    rewrite (generate_from_csv_written w csv_file left_dir output_file text
               time_column (Some fc) Hdir Htable Hw Hpng Hts).
    destruct (Nat.eqb_spec
                (length (table_timestamps time_column (table_rows text)))
                (length (sorted_images w left_dir))) as [He|He].
    + rewrite select_output_images; [reflexivity|lia|exact He].
    + rewrite select_output_none; [reflexivity|lia|exact He].
Qed.

(** The table [short.csv], whose second row is [2.0] alone: with the two
    images of [frames] the rows are paired with [a.png] and [b.png], and
    the file name [imgA.png] of the table is dropped. *)
Lemma short_row_keeps_timestamp_witness :
  In ["2.0"] (table_rows ex_short_table)
  /\ row_timestamp 0 ["2.0"] = Some (Py.float_of_Z 2)
  /\ row_filename 1 ["2.0"] = None
  /\ literal_path "frames"
  /\ reads_table ex_world "short.csv" ex_short_table
  /\ png_names ex_world "frames" <> []
  /\ plain_names (png_names ex_world "frames")
  /\ writable ex_world "out.txt"
  /\ (length (table_filenames 0%Z (Some 1%Z) (table_rows ex_short_table))
      < length (table_timestamps 0%Z (table_rows ex_short_table)))%nat
  /\ sorted_images ex_world "frames" = Py.list_sort (png_names ex_world "frames").
Proof.
  assert (H1 : In ["2.0"] (table_rows ex_short_table)).
  { replace (table_rows ex_short_table) with [["1.0"; "imgA.png"]; ["2.0"]]
      by (vm_compute; reflexivity).
    right. left. reflexivity. }
  assert (H2 : row_timestamp 0 ["2.0"] = Some (Py.float_of_Z 2))
    by (vm_compute; reflexivity).
  assert (H3 : row_filename 1 ["2.0"] = None) by reflexivity.
  assert (H4 : literal_path "frames") by (repeat split).
  assert (H5 : reads_table ex_world "short.csv" ex_short_table)
    by (repeat split; vm_compute; eexists; reflexivity).
  assert (H6 : png_names ex_world "frames" <> []) by (vm_compute; discriminate).
  assert (H7 : plain_names (png_names ex_world "frames")) by (repeat constructor).
  assert (H8 : writable ex_world "out.txt") by (repeat split).
  split; [exact H1|]. split; [exact H2|]. split; [exact H3|]. split; [exact H4|].
  split; [exact H5|]. split; [exact H6|]. split; [exact H7|]. split; [exact H8|].
  destruct (short_row_keeps_timestamp ex_world "short.csv" "frames" "out.txt"
              ex_short_table 0 1 ["2.0"] (Py.float_of_Z 2) H1 H2 H3)
    as (_ & Hlt & Hrun).
  split; [exact Hlt|]. exact (proj1 (Hrun H4 H5 H6 H7 H8)).
Defined.

(** The same run written out, and the run on the directory [one], which
    ends with the count mismatch. *)
Example short_row_runs :
  generate_from_csv "short.csv" "frames" "out.txt" 0 (Some 1) ex_world
  = (Ret tt,
     written ex_world "out.txt"
       ("# Generated from short.csv" +:+ Py.nl
          +:+ "# timestamp(s) filename" +:+ Py.nl
          +:+ "1.000000 a.png" +:+ Py.nl +:+ "2.000000 b.png" +:+ Py.nl)
       "Generated out.txt with 2 timestamps from short.csv")
  /\ generate_from_csv "short.csv" "one" "out.txt" 0 (Some 1) ex_world
     = (Exit 1,
        printed ex_world
          "Error: Number of timestamps (2) doesn't match number of images (1)").
Proof. split; vm_compute; reflexivity. Qed.

(** ** Further properties of the script *)

#[local] Set Warnings "-clear-no-such-hyp".

Section SortedUnique.

Lemma string_le_antisym (a b : string) : String.le a b -> String.le b a -> a = b.
Proof.
  unfold String.le. intros H1%Is_true_true H2%Is_true_true.
  apply String.leb_antisym; assumption.
Qed.

(** Two ascending arrangements of the same strings are the same list. *)
Lemma sorted_perm_unique (l1 l2 : list string) :
  StronglySorted String.le l1 -> StronglySorted String.le l2 ->
  Permutation l1 l2 -> l1 = l2.
Proof.
  revert l2. induction l1 as [|x l1 IH]; intros l2 H1 H2 Hp.
  - apply Permutation_nil in Hp. congruence.
  - destruct l2 as [|y l2].
    { apply Permutation_sym, Permutation_nil in Hp. discriminate. }
    apply StronglySorted_inv in H1 as [H1 Hx].
    apply StronglySorted_inv in H2 as [H2 Hy].
    assert (x = y) as ->.
    { assert (Hxin : In x (y :: l2))
        by (apply (Permutation_in x Hp); left; reflexivity).
      assert (Hyin : In y (x :: l1))
        by (apply (Permutation_in y (Permutation_sym Hp)); left; reflexivity).
      rewrite List.Forall_forall in Hx, Hy.
      destruct Hxin as [->|Hxin]; [reflexivity|].
      destruct Hyin as [->|Hyin]; [reflexivity|].
      apply string_le_antisym; auto. }
    f_equal. apply IH; [assumption..|].
    apply (Permutation_cons_inv Hp).
Qed.

Lemma list_sort_permutation (l1 l2 : list string) :
  Permutation l1 l2 -> Py.list_sort l1 = Py.list_sort l2.
Proof.
  intros Hp. apply sorted_perm_unique; try apply list_sort_sorted.
  rewrite !list_sort_perm. exact Hp.
Qed.

Lemma filter_permutation {A} (f : A -> bool) (l1 l2 : list A) :
  Permutation l1 l2 -> Permutation (List.filter f l1) (List.filter f l2).
Proof.
  induction 1 as [|x l1 l2 _ IH|x y l|l1 l2 l3 _ IH1 _ IH2]; simpl.
  - reflexivity.
  - destruct (f x); [constructor|]; exact IH.
  - destruct (f x), (f y); try reflexivity. apply perm_swap.
  - etransitivity; eassumption.
Qed.

Lemma glob1_permutation (pattern : string) (l1 l2 : list string) :
  Permutation l1 l2 -> Permutation (Py.glob1 l1 pattern) (Py.glob1 l2 pattern).
Proof.
  intros Hp. unfold Py.glob1.
  destruct (Py.ishidden pattern); repeat apply filter_permutation; exact Hp.
Qed.

End SortedUnique.

Section MoreFacts.

Lemma endswith_app_sep (d : string) : Py.endswith (d +:+ "/") Py.sep = true.
Proof.
  pose proof (substring_app_r d "/") as Hsub.
  change (String.length "/") with 1%nat in Hsub.
  unfold Py.endswith, Py.sep. rewrite length_append.
  change (String.length "/") with 1%nat.
  replace (String.length d + 1 - 1)%nat with (String.length d) by lia.
  rewrite Hsub.
  apply andb_true_intro. split; [apply Nat.leb_le; lia|reflexivity].
Qed.

Lemma is_empty_false {A} (l : list A) : is_empty l = false <-> l <> [].
Proof. destruct l; simpl; split; congruence. Qed.

Lemma is_empty_true {A} (l : list A) : is_empty l = true <-> l = [].
Proof. destruct l; simpl; split; congruence. Qed.

Lemma map_fst_combine {A B} (l : list A) (l' : list B) :
  length l = length l' -> map fst (combine l l') = l.
Proof.
  revert l'. induction l as [|x l IH]; intros [|y l'] Hlen; simpl in *;
    try discriminate; [reflexivity|].
  f_equal. apply IH. lia.
Qed.

Lemma table_filenames_none (time_column : Z) (rows : list (list string)) :
  table_filenames time_column None rows = [].
Proof.
  induction rows as [|row rows IH]; simpl; [reflexivity|].
  destruct (row_timestamp time_column row); exact IH.
Qed.

(** The decimal text of a number starts with a digit. *)
Lemma str_of_N_head (n : N) :
  exists c rest, Py.str_of_N n = String c rest /\ Py.is_digit c = true.
Proof.
  unfold Py.str_of_N. destruct (N.to_uint n); eexists _, _; split; reflexivity.
Qed.

Lemma prefix_hash_digit (c : ascii) (rest : string) :
  Py.is_digit c = true -> String.prefix "#" (String c rest) = false.
Proof.
  intros Hc.
  change (String.prefix "#" (String c rest))
    with (if ascii_dec "#" c then String.prefix "" rest else false).
  destruct (ascii_dec "#" c) as [<-|]; [discriminate|reflexivity].
Qed.

Lemma fixed6_not_comment (neg : bool) (q : Z) (tail : string) :
  String.prefix "#" (Py.fixed6 neg q +:+ tail) = false.
Proof.
  unfold Py.fixed6. destruct neg.
  - reflexivity.
  - rewrite append_nil_l. unfold Py.str_of_Z.
    destruct (str_of_N_head (Z.to_N (q / 1000000))) as (c & rest & -> & Hc).
    rewrite !append_cons. apply prefix_hash_digit, Hc.
Qed.

End MoreFacts.

Section LineFacts.

Lemma any_char_weaken (p q : ascii -> bool) (s : string) :
  (forall c, p c = true -> q c = true) ->
  Py.any_char q s = false -> Py.any_char p s = false.
Proof.
  intros Hpq. induction s as [|c s IH]; [reflexivity|].
  cbn [Py.any_char]. intros [Hc Hs]%orb_false_elim. rewrite (IH Hs), orb_false_r.
  destruct (p c) eqn:Hp; [|reflexivity]. rewrite (Hpq c Hp) in Hc. discriminate.
Qed.

Lemma digit_not_newline (c : ascii) :
  Py.is_newline c = true -> negb (Py.is_digit c) = true.
Proof.
  unfold Py.is_newline. intros [H|H]%orb_prop; apply Ascii.eqb_eq in H; subst c;
    reflexivity.
Qed.

(** The decimal text of a number holds digits only. *)
Lemma string_of_uint_digits (u : Decimal.uint) :
  Py.any_char (fun c => negb (Py.is_digit c)) (NilEmpty.string_of_uint u) = false.
Proof.
  induction u; cbn [NilEmpty.string_of_uint Py.any_char]; try exact IHu; reflexivity.
Qed.

Lemma str_of_N_digits (n : N) :
  Py.any_char (fun c => negb (Py.is_digit c)) (Py.str_of_N n) = false.
Proof.
  unfold Py.str_of_N, NilZero.string_of_uint.
  destruct (N.to_uint n) eqn:E; try reflexivity;
    rewrite <- E; apply string_of_uint_digits.
Qed.

Lemma last_digits_digits (k : nat) (n : Z) :
  Py.any_char (fun c => negb (Py.is_digit c)) (Py.last_digits k n) = false.
Proof.
  revert n. induction k as [|k IH]; intros n; [reflexivity|].
  cbn [Py.last_digits]. rewrite any_char_app, IH. apply str_of_N_digits.
Qed.

(** The [%.6f] text of a float holds no line break. *)
Lemma format_6f_one_line (x : Py.float) :
  Py.any_char Py.is_newline (Py.format_6f x) = false.
Proof.
  assert (Hfixed : forall neg q, Py.any_char Py.is_newline (Py.fixed6 neg q) = false).
  { intros neg q. unfold Py.fixed6, Py.str_of_Z. rewrite !any_char_app.
    rewrite (any_char_weaken _ _ _ digit_not_newline (str_of_N_digits _)).
    rewrite (any_char_weaken _ _ _ digit_not_newline (last_digits_digits _ _)).
    destruct neg; reflexivity. }
  destruct x as [s|s| |s m e]; cbn [Py.format_6f]; try apply Hfixed.
  - destruct s; reflexivity.
  - reflexivity.
Qed.

End LineFacts.

(** X1.  [get_sorted_images], for a directory argument that is a literal
    path and whose PNG entries are plain names that are valid UTF-8: it
    leaves the world as it is and returns the entries that end with [.png]
    and do not start with a dot, each as often as it is listed, without any
    directory part, in ascending byte-wise order. *)
Theorem get_sorted_images_spec (w : world) (directory : string) :
  literal_path directory ->
  plain_names (png_names w directory) ->
  exists images,
    get_sorted_images directory w = (Ret images, w)
    /\ StronglySorted String.le images
    /\ Permutation images (png_names w directory)
    /\ Forall (fun name => no_sep name = true) images
    /\ (forall name,
          In name images <->
          In name (default [] (listdir w (scan_dir directory)))
          /\ Py.startswith name "." = false
          /\ exists stem, name = stem +:+ ".png").
Proof.
  intros Hdir Hplain. pose proof (plain_names_no_sep _ Hplain) as Hnames.
  exists (sorted_images w directory).
  split; [apply (literal_path_listing directory w Hdir)|].
  rewrite (sorted_images_names w directory Hdir Hnames).
  split; [apply list_sort_sorted|].
  split; [apply list_sort_perm|]. split; [apply Forall_no_sep_sort, Hnames|].
  intros name. rewrite <- png_names_spec. split.
  - apply Permutation_in, list_sort_perm.
  - apply Permutation_in, Permutation_sym, list_sort_perm.
Qed.

(** The directory [frames]: two of its four entries are images. *)
Lemma get_sorted_images_spec_witness :
  literal_path "frames"
  /\ plain_names (png_names ex_world "frames")
  /\ exists images,
       get_sorted_images "frames" ex_world = (Ret images, ex_world)
       /\ StronglySorted String.le images
       /\ Permutation images ["b.png"; "a.png"].
Proof.
  assert (H0 : literal_path "frames") by (repeat split).
  assert (H : plain_names (png_names ex_world "frames")) by (repeat constructor).
  split; [exact H0|]. split; [exact H|].
  destruct (get_sorted_images_spec ex_world "frames" H0 H)
    as (images & Hrun & Hsorted & Hperm & _).
  exists images. split; [exact Hrun|]. split; [exact Hsorted|exact Hperm].
Defined.

(** X2.  The order in which the system lists the directory does not
    matter: for a directory argument that is a literal path, two worlds
    that differ only in the order of the listing of that directory give the
    same images, the same end of the run and the same files after it, in
    both modes. *)
Theorem listing_order_irrelevant (w1 w2 : world) (directory : string)
    (entries1 entries2 : list string) :
  literal_path directory ->
  listdir w1 (scan_dir directory) = Some entries1 ->
  listdir w2 (scan_dir directory) = Some entries2 ->
  Permutation entries1 entries2 ->
  Forall (fun name => no_sep name = true) entries1 ->
  files w1 = files w2 ->
  read_error w1 = read_error w2 ->
  write_error w1 = write_error w2 ->
  sorted_images w1 directory = sorted_images w2 directory
  /\ (forall fps output_file,
        (generate_from_fps fps directory output_file w1).1
        = (generate_from_fps fps directory output_file w2).1
        /\ files (generate_from_fps fps directory output_file w1).2
           = files (generate_from_fps fps directory output_file w2).2)
  /\ (forall csv_file output_file time_column filename_column,
        (generate_from_csv csv_file directory output_file
           time_column filename_column w1).1
        = (generate_from_csv csv_file directory output_file
             time_column filename_column w2).1
        /\ files (generate_from_csv csv_file directory output_file
                    time_column filename_column w1).2
           = files (generate_from_csv csv_file directory output_file
                      time_column filename_column w2).2).
Proof.
  intros Hdir H1 H2 Hperm Hnames Hfiles Hread Hwrite.
  assert (Hp : Permutation (png_names w1 directory) (png_names w2 directory)).
  { unfold png_names. rewrite H1, H2. apply glob1_permutation, Hperm. }
  assert (Hn1 : Forall (fun name => no_sep name = true) (png_names w1 directory)).
  { unfold png_names, Py.glob1. rewrite H1. simpl.
    apply incl_Forall with (l1 := entries1); [|exact Hnames].
    intros x Hx. apply filter_In in Hx as [Hx _]. apply filter_In in Hx as [Hx _].
    exact Hx. }
  assert (Hn2 : Forall (fun name => no_sep name = true) (png_names w2 directory))
    by (eapply Permutation_Forall; eassumption).
  assert (Himg : sorted_images w1 directory = sorted_images w2 directory).
  { rewrite (sorted_images_names w1 directory Hdir Hn1),
            (sorted_images_names w2 directory Hdir Hn2).
    apply list_sort_permutation, Hp. }
  pose proof (proj1 (literal_path_listing directory w1 Hdir)) as Hrun1.
  pose proof (proj1 (literal_path_listing directory w2 Hdir)) as Hrun2.
  split; [exact Himg|]. split.
  - intros fps output_file.
    rewrite (generate_from_fps_run fps directory output_file w1 Hrun1),
            (generate_from_fps_run fps directory output_file w2 Hrun2).
    cbv zeta. rewrite Himg, Hwrite.
    destruct (is_empty _); [split; [reflexivity|exact Hfiles]|].
    destruct (Py.truediv _ _); [|split; [reflexivity|exact Hfiles]].
    destruct (write_error w2 output_file); [split; [reflexivity|exact Hfiles]|].
    simpl. rewrite Hfiles. split; reflexivity.
  - intros csv_file output_file time_column filename_column.
    rewrite (generate_from_csv_run csv_file directory output_file
               time_column filename_column w1 Hrun1),
            (generate_from_csv_run csv_file directory output_file
               time_column filename_column w2 Hrun2).
    cbv zeta. rewrite Himg, Hfiles, Hread, Hwrite.
    destruct (is_empty _); [split; [reflexivity|exact Hfiles]|].
    destruct (read_error w2 csv_file); [split; [reflexivity|exact Hfiles]|].
    destruct (files w2 !! csv_file); [|split; [reflexivity|exact Hfiles]].
    destruct (Py.utf8_valid _); [|split; [reflexivity|exact Hfiles]].
    destruct (Py.csv_reader _); [|split; [reflexivity|exact Hfiles]].
    destruct (csv_rows _ _ _) as [timestamps filenames].
    destruct (is_empty timestamps); [split; [reflexivity|exact Hfiles]|].
    destruct (select_output _ _ _); [|split; [reflexivity|exact Hfiles]].
    destruct (write_error w2 output_file); [split; [reflexivity|exact Hfiles]|].
    simpl. rewrite Hfiles. split; reflexivity.
Qed.

(** The directory [frames] listed in two orders. *)
Lemma listing_order_irrelevant_witness :
  literal_path "frames"
  /\ listdir ex_world (scan_dir "frames")
     = Some ["b.png"; "a.png"; "notes.txt"; ".hidden.png"]
  /\ listdir ex_world_reordered (scan_dir "frames")
     = Some [".hidden.png"; "a.png"; "notes.txt"; "b.png"]
  /\ sorted_images ex_world "frames" = sorted_images ex_world_reordered "frames".
Proof.
  assert (H0 : literal_path "frames") by (repeat split).
  assert (H1 : listdir ex_world (scan_dir "frames")
               = Some ["b.png"; "a.png"; "notes.txt"; ".hidden.png"]) by reflexivity.
  assert (H2 : listdir ex_world_reordered (scan_dir "frames")
               = Some [".hidden.png"; "a.png"; "notes.txt"; "b.png"]) by reflexivity.
  assert (Hp : Permutation ["b.png"; "a.png"; "notes.txt"; ".hidden.png"]
                           [".hidden.png"; "a.png"; "notes.txt"; "b.png"]).
  { transitivity (["a.png"; "notes.txt"; ".hidden.png"] ++ ["b.png"]).
    - apply Permutation_cons_append.
    - change ([".hidden.png"; "a.png"; "notes.txt"; "b.png"])
        with ((".hidden.png" :: ["a.png"; "notes.txt"]) ++ ["b.png"]).
      apply Permutation_app_tail. symmetry.
      apply (Permutation_cons_append ["a.png"; "notes.txt"] ".hidden.png"). }
  assert (Hn : Forall (fun name => no_sep name = true)
                      ["b.png"; "a.png"; "notes.txt"; ".hidden.png"])
    by (repeat constructor).
  split; [exact H0|]. split; [exact H1|]. split; [exact H2|].
  exact (proj1 (listing_order_irrelevant ex_world ex_world_reordered "frames"
                  _ _ H0 H1 H2 Hp Hn eq_refl eq_refl eq_refl)).
Defined.

(** X3.  A slash at the end of the directory argument makes no
    difference to [get_sorted_images]: for a non-empty directory name that
    does not end with a slash, the name with a slash added gives the same
    pattern, hence the same images. *)
Theorem trailing_slash_irrelevant (directory : string) (w : world) :
  directory <> "" ->
  Py.endswith directory Py.sep = false ->
  Py.path_join (directory +:+ "/") "*.png" = Py.path_join directory "*.png"
  /\ get_sorted_images (directory +:+ "/") w = get_sorted_images directory w.
Proof.
  intros Hne Hend.
  assert (Hjoin : Py.path_join (directory +:+ "/") "*.png"
                  = Py.path_join directory "*.png").
  { unfold Py.path_join.
    change (Py.startswith "*.png" Py.sep) with false. cbv iota.
    rewrite endswith_app_sep, orb_true_r, Hend, orb_false_r.
    apply String.eqb_neq in Hne. rewrite Hne.
    unfold Py.sep. rewrite append_assoc. reflexivity. }
  split; [exact Hjoin|].
  unfold get_sorted_images. rewrite Hjoin. reflexivity.
Qed.

(** [frames/] and [frames]. *)
Lemma trailing_slash_irrelevant_witness :
  "frames" <> "" /\ Py.endswith "frames" Py.sep = false
  /\ get_sorted_images "frames/" ex_world = get_sorted_images "frames" ex_world.
Proof.
  assert (H1 : "frames" <> "") by discriminate.
  assert (H2 : Py.endswith "frames" Py.sep = false) by reflexivity.
  split; [exact H1|]. split; [exact H2|].
  exact (proj2 (trailing_slash_irrelevant "frames" ex_world H1 H2)).
Defined.

(** X4.  A directory that does not exist, given as a literal path:
    [main], given one mode, ends with the message that the directory was
    not found and status 1 before anything is listed or read; the two
    generators called on their own do not tell it from an empty directory,
    because [glob] returns no match for a directory it cannot list. *)
Theorem missing_directory (w : world) (directory : string) :
  literal_path directory ->
  listdir w directory = None ->
  listdir w (scan_dir directory) = None ->
  (forall args,
     left_dir args = directory ->
     fps_truthy args <> csv_file_truthy args ->
     main args w
     = (Exit 1, printed w ("Error: Directory not found: " +:+ directory)))
  /\ (forall fps output_file,
        generate_from_fps fps directory output_file w
        = (Exit 1, printed w (msg_empty_directory directory)))
  /\ (forall csv_file output_file time_column filename_column,
        generate_from_csv csv_file directory output_file time_column filename_column w
        = (Exit 1, printed w (msg_empty_directory directory))).
Proof.
  intros Hlit Hdir Hscan.
  pose proof (proj1 (literal_path_listing directory w Hlit)) as Himg.
  assert (He : is_empty (sorted_images w directory) = true).
  { rewrite (sorted_images_empty w directory Hlit). unfold png_names.
    rewrite Hscan. reflexivity. }
  split; [|split].
  - intros args Hargs Hmode. unfold main. rewrite main_with_run, Hargs, Hdir.
    destruct (fps_truthy args), (csv_file_truthy args); try congruence; reflexivity.
  - intros. rewrite generate_from_fps_run by exact Himg. cbv zeta.
    rewrite He. reflexivity.
  - intros. rewrite generate_from_csv_run by exact Himg. cbv zeta.
    rewrite He. reflexivity.
Qed.

(** The directory [nowhere] of the example world. *)
Lemma missing_directory_witness :
  literal_path "nowhere"
  /\ listdir ex_world "nowhere" = None
  /\ listdir ex_world (scan_dir "nowhere") = None
  /\ main ex_args_nowhere ex_world
     = (Exit 1, printed ex_world "Error: Directory not found: nowhere").
Proof.
  assert (H0 : literal_path "nowhere") by (repeat split).
  assert (H1 : listdir ex_world "nowhere" = None) by reflexivity.
  assert (H2 : listdir ex_world (scan_dir "nowhere") = None) by reflexivity.
  split; [exact H0|]. split; [exact H1|]. split; [exact H2|].
  apply (proj1 (missing_directory ex_world "nowhere" H0 H1 H2) ex_args_nowhere);
    [reflexivity|discriminate].
Defined.

(** X5.  How a call of [generate_from_fps] ends, for a directory argument
    that is a literal path whose PNG entries are plain names and valid
    UTF-8.  It succeeds exactly when the directory has a PNG file, [fps] is
    not zero and the output file opens for writing; it leaves with status
    1 exactly when the directory has no PNG file; ZeroDivisionError escapes
    exactly when the directory has a PNG file and [fps] is zero; when the
    output file does not open, the exception of [open] escapes; and an
    exception leaves the world as it was. *)
Theorem fixed_rate_outcome (w : world) (fps : Py.float) (directory output_file : string) :
  literal_path directory ->
  plain_names (png_names w directory) ->
  Py.utf8_valid output_file = true ->
  let run := generate_from_fps fps directory output_file w in
  (run.1 = Ret tt <->
     png_names w directory <> [] /\ Py.is_zero fps = false
     /\ write_error w output_file = None)
  /\ (run.1 = Exit 1 <-> png_names w directory = [])
  /\ (run.1 = Raise ZeroDivisionError <->
      png_names w directory <> [] /\ Py.is_zero fps = true)
  /\ (forall f, png_names w directory <> [] -> Py.is_zero fps = false ->
        write_error w output_file = Some f ->
        run = (Raise (exn_of_failure f), w))
  /\ (forall e, run.1 = Raise e -> run.2 = w)
  /\ (forall code, run.1 = Exit code -> code = 1).
Proof.
  intros Hdir _ _. cbv zeta.
  rewrite generate_from_fps_run by apply (literal_path_listing directory w Hdir).
  cbv zeta. rewrite (sorted_images_empty w directory Hdir). unfold Py.truediv.
  destruct (png_names w directory) as [|name names]; simpl is_empty; cbv iota.
  - simpl. naive_solver.
  - destruct (Py.is_zero fps); [simpl; naive_solver|].
    destruct (write_error w output_file) as [f|]; [|simpl; naive_solver].
    destruct f; simpl; naive_solver.
Qed.

(** The directory [frames] at 30 frames per second, with an output file
    that opens and with one that does not. *)
Lemma fixed_rate_outcome_witness :
  literal_path "frames"
  /\ plain_names (png_names ex_world "frames")
  /\ Py.utf8_valid "locked.txt" = true
  /\ generate_from_fps f30 "frames" "locked.txt" ex_world
     = (Raise PermissionError, ex_world).
Proof.
  assert (H1 : literal_path "frames") by (repeat split).
  assert (H2 : plain_names (png_names ex_world "frames")) by (repeat constructor).
  assert (H3 : Py.utf8_valid "locked.txt" = true) by reflexivity.
  split; [exact H1|]. split; [exact H2|]. split; [exact H3|].
  destruct (fixed_rate_outcome ex_world f30 "frames" "locked.txt" H1 H2 H3)
    as (_ & _ & _ & H & _).
  apply (H PermissionDenied); [vm_compute; discriminate|reflexivity|reflexivity].
Defined.

(** X6.  How a call of [generate_from_csv] ends, for a directory argument
    that is a literal path whose PNG entries are plain names and valid
    UTF-8.  It succeeds exactly when the directory has a PNG file, the
    table opens, is valid UTF-8 and passes the reader, some row yields a
    timestamp, the timestamps are as many as the file names taken from the
    table or as many as the images, and the output file opens for writing.
    Once the directory has a PNG file, a table that does not open raises
    the exception of [open] (FileNotFoundError for a missing file), one
    that is not UTF-8 raises UnicodeDecodeError (or [csv.Error], should a
    field beyond the reader's limit come first), and one that is UTF-8 and
    has a field beyond the reader's limit raises [csv.Error].  Every
    exception leaves the world as it was, and every exit has status 1. *)
Theorem table_outcome (w : world) (csv_file directory output_file : string)
    (time_column : Z) (filename_column : option Z) :
  literal_path directory ->
  plain_names (png_names w directory) ->
  Py.utf8_valid csv_file = true ->
  Py.utf8_valid output_file = true ->
  let run := generate_from_csv csv_file directory output_file
               time_column filename_column w in
  (run.1 = Ret tt <->
     png_names w directory <> []
     /\ write_error w output_file = None
     /\ exists text,
          (read_error w csv_file = None /\ files w !! csv_file = Some text
           /\ Py.utf8_valid text = true /\ is_Some (Py.csv_reader text))
          /\ table_timestamps time_column (table_rows text) <> []
          /\ (length (table_filenames time_column filename_column (table_rows text))
              = length (table_timestamps time_column (table_rows text))
              \/ length (table_timestamps time_column (table_rows text))
                 = length (png_names w directory)))
  /\ (png_names w directory <> [] ->
      match read_error w csv_file, files w !! csv_file with
      | Some f, _ => run = (Raise (exn_of_failure f), w)
      | None, None => run = (Raise FileNotFoundError, w)
      | None, Some text =>
          if Py.utf8_valid text
          then Py.csv_reader text = None -> run = (Raise CsvError, w)
          else run = (Raise UnicodeDecodeError, w) \/ run = (Raise CsvError, w)
      end)
  /\ (forall e, run.1 = Raise e -> run.2 = w /\ png_names w directory <> [])
  /\ (forall code, run.1 = Exit code -> code = 1).
Proof.
  intros Hdir _ _ _. cbv zeta.
  rewrite generate_from_csv_run by apply (literal_path_listing directory w Hdir).
  cbv zeta.
  rewrite (sorted_images_empty w directory Hdir),
          <- (sorted_images_length w directory Hdir).
  destruct (png_names w directory) as [|name names] eqn:Epng; simpl is_empty; cbv iota.
  { simpl. naive_solver. }
  destruct (read_error w csv_file) as [f|] eqn:Eread; [simpl; naive_solver|].
  destruct (files w !! csv_file) as [text|] eqn:Efile; [|simpl; naive_solver].
  destruct (Py.utf8_valid text) eqn:Evalid.
  2:{ simpl. split; [|naive_solver]. split; [discriminate|].
      intros (_ & _ & text' & (_ & Hf & Hv & _) & _).
      assert (text' = text) as -> by congruence. congruence. }
  unfold table_rows.
  destruct (Py.csv_reader text) as [rows|] eqn:Erows.
  2:{ simpl. split; [|naive_solver]. split; [discriminate|].
      intros (_ & _ & text' & (_ & Hf & _ & [rows' Hr]) & _).
      assert (text' = text) as -> by congruence. congruence. }
  rewrite csv_rows_spec.
  set (timestamps := table_timestamps time_column rows).
  set (filenames := table_filenames time_column filename_column rows).
  assert (Hrows : forall text', Some text = Some text' ->
            default [] (Py.csv_reader text') = rows).
  { intros text' [= <-]. rewrite Erows. reflexivity. }
  destruct (is_empty timestamps) eqn:Et.
  { apply is_empty_true in Et. simpl. split; [|naive_solver].
    split; [discriminate|].
    intros (_ & _ & text' & (_ & Hf & _) & Hts & _).
    rewrite (Hrows text' Hf) in Hts. contradiction. }
  apply is_empty_false in Et.
  destruct (Nat.eq_dec (length filenames) (length timestamps)) as [Hlen|Hlen].
  { rewrite (select_output_table _ _ _ Et Hlen).
    destruct (write_error w output_file) as [f|] eqn:Ew; simpl.
    - split; [|naive_solver]. split; [discriminate|]. intros (_ & [=] & _).
    - split; [|naive_solver]. split; [|reflexivity]. intros _.
      split; [discriminate|]. split; [reflexivity|]. exists text.
      rewrite Erows. simpl. split; [eauto|]. split; [exact Et|]. left. exact Hlen. }
  destruct (Nat.eq_dec (length timestamps) (length (sorted_images w directory)))
    as [Himg|Himg].
  { rewrite (select_output_images _ _ _ Hlen Himg).
    destruct (write_error w output_file) as [f|] eqn:Ew; simpl.
    - split; [|naive_solver]. split; [discriminate|]. intros (_ & [=] & _).
    - split; [|naive_solver]. split; [|reflexivity]. intros _.
      split; [discriminate|]. split; [reflexivity|]. exists text.
      rewrite Erows. simpl. split; [eauto|]. split; [exact Et|]. right. exact Himg. }
  rewrite (select_output_none _ _ _ Hlen Himg). simpl.
  split; [|naive_solver]. split; [discriminate|].
  intros (_ & _ & text' & (_ & Hf & _) & _ & Hor).
  rewrite (Hrows text' Hf) in Hor. fold timestamps filenames in Hor. tauto.
Qed.

(** The table [latin1.csv], which is not UTF-8. *)
Lemma table_outcome_witness :
  literal_path "frames"
  /\ plain_names (png_names ex_world "frames")
  /\ Py.utf8_valid "latin1.csv" = true
  /\ Py.utf8_valid "out.txt" = true
  /\ (generate_from_csv "latin1.csv" "frames" "out.txt" 0 (Some 1) ex_world
      = (Raise UnicodeDecodeError, ex_world)
      \/ generate_from_csv "latin1.csv" "frames" "out.txt" 0 (Some 1) ex_world
         = (Raise CsvError, ex_world)).
Proof.
  assert (H1 : literal_path "frames") by (repeat split).
  assert (H2 : plain_names (png_names ex_world "frames")) by (repeat constructor).
  assert (H3 : Py.utf8_valid "latin1.csv" = true) by reflexivity.
  assert (H4 : Py.utf8_valid "out.txt" = true) by reflexivity.
  split; [exact H1|]. split; [exact H2|]. split; [exact H3|]. split; [exact H4|].
  destruct (table_outcome ex_world "latin1.csv" "frames" "out.txt" 0 (Some 1)
              H1 H2 H3 H4) as (_ & H & _).
  apply H. vm_compute. discriminate.
Defined.

(** X7.  Without a file name column the table gives no file names, so
    the images of the directory are the names: for a directory argument
    that is a literal path and holds PNG files with plain names that are
    valid UTF-8, a table that can be read and has yielded a timestamp, and
    an output file that opens for writing, the run succeeds when the
    timestamps are as many as the images, pairing the timestamp of
    position [i] with the PNG name of position [i] in ascending order, and
    ends with the count mismatch otherwise. *)
Theorem positional_pairing (w : world) (csv_file left_dir output_file text : string)
    (time_column : Z) :
  literal_path left_dir ->
  reads_table w csv_file text ->
  png_names w left_dir <> [] ->
  plain_names (png_names w left_dir) ->
  table_timestamps time_column (table_rows text) <> [] ->
  writable w output_file ->
  let names := Py.list_sort (png_names w left_dir) in
  let timestamps := table_timestamps time_column (table_rows text) in
  (csv_rows time_column None (table_rows text)).2 = []
  /\ generate_from_csv csv_file left_dir output_file time_column None w
     = (if (length timestamps =? length names)%nat
        then (Ret tt,
              written w output_file
                (csv_header csv_file +:+ lines_text (combine timestamps names))
                (csv_summary output_file (length (combine timestamps names)) csv_file))
        else (Exit 1,
              printed w (msg_count_mismatch (length timestamps) (length names))))
  /\ StronglySorted String.le names
  /\ (forall i t name,
        nth_error timestamps i = Some t -> nth_error names i = Some name ->
        nth_error (combine timestamps names) i = Some (t, name)).
Proof.
  intros Hdir Htable Hpng Hplain Hts Hw. cbv zeta.
  split; [rewrite csv_rows_spec; apply table_filenames_none|]. split; [|split].
  - rewrite (generate_from_csv_written w csv_file left_dir output_file text
               time_column None Hdir Htable Hw Hpng Hts).
    rewrite table_filenames_none.
    rewrite (sorted_images_names w left_dir Hdir (plain_names_no_sep _ Hplain)).
    assert (Hne : length (@nil string)
                  <> length (table_timestamps time_column (table_rows text))).
    { destruct (table_timestamps time_column (table_rows text));
        [congruence|discriminate]. }
    destruct (Nat.eqb_spec
                (length (table_timestamps time_column (table_rows text)))
                (length (Py.list_sort (png_names w left_dir)))) as [He|He].
    + rewrite (select_output_images _ _ _ Hne He). reflexivity.
    + rewrite (select_output_none _ _ _ Hne He). reflexivity.
  - apply list_sort_sorted.
  - intros i t name. generalize (Py.list_sort (png_names w left_dir)) as images.
    generalize (table_timestamps time_column (table_rows text)) as timestamps.
    induction i as [|i IH]; intros [|t0 timestamps] [|n0 images] Ht Hn;
      simpl in *; try discriminate.
    + congruence.
    + apply IH; assumption.
Qed.

(** The two rows of [good.csv] and the two images of [frames]. *)
Lemma positional_pairing_witness :
  literal_path "frames"
  /\ reads_table ex_world "good.csv" ex_good_table
  /\ png_names ex_world "frames" <> []
  /\ plain_names (png_names ex_world "frames")
  /\ table_timestamps 0 (table_rows ex_good_table) <> []
  /\ writable ex_world "out.txt"
  /\ generate_from_csv "good.csv" "frames" "out.txt" 0 None ex_world
     = (Ret tt,
        written ex_world "out.txt"
          ("# Generated from good.csv" +:+ Py.nl
             +:+ "# timestamp(s) filename" +:+ Py.nl
             +:+ "1.000000 a.png" +:+ Py.nl +:+ "2.000000 b.png" +:+ Py.nl)
          "Generated out.txt with 2 timestamps from good.csv").
Proof.
  assert (H0 : literal_path "frames") by (repeat split).
  assert (H1 : reads_table ex_world "good.csv" ex_good_table)
    by (repeat split; vm_compute; eexists; reflexivity).
  assert (H2 : png_names ex_world "frames" <> []) by (vm_compute; discriminate).
  assert (H3 : plain_names (png_names ex_world "frames")) by (repeat constructor).
  assert (H4 : table_timestamps 0 (table_rows ex_good_table) <> [])
    by (vm_compute; discriminate).
  assert (H5 : writable ex_world "out.txt") by (repeat split).
  split; [exact H0|]. split; [exact H1|]. split; [exact H2|]. split; [exact H3|].
  split; [exact H4|]. split; [exact H5|].
  rewrite (proj1 (proj2 (positional_pairing ex_world "good.csv" "frames" "out.txt"
                           ex_good_table 0 H0 H1 H2 H3 H4 H5))).
  vm_compute. reflexivity.
Defined.

(** X8.  A successful run of the table-import mode writes every
    timestamp of the table exactly once and in row order: the output file
    is the header followed by one line per record, and the timestamps of
    the records are the list of timestamps the rows yielded. *)
Theorem table_records_keep_timestamps (w : world)
    (csv_file left_dir output_file text : string)
    (time_column : Z) (filename_column : option Z) :
  files w !! csv_file = Some text ->
  (generate_from_csv csv_file left_dir output_file time_column filename_column w).1
    = Ret tt ->
  exists records,
    files (generate_from_csv csv_file left_dir output_file
             time_column filename_column w).2 !! output_file
      = Some (csv_header csv_file +:+ lines_text records)
    /\ map fst records = (csv_rows time_column filename_column (table_rows text)).1
    /\ length records
       = length (csv_rows time_column filename_column (table_rows text)).1.
Proof.
  intros Hfile.
  destruct (get_sorted_images_cases left_dir w) as [Himg|Himg].
  2:{ rewrite (generate_from_csv_raise _ _ _ _ _ _ _ Himg). discriminate. }
  rewrite generate_from_csv_run by exact Himg. cbv zeta.
  destruct (is_empty (sorted_images w left_dir)); [discriminate|].
  destruct (read_error w csv_file); [discriminate|].
  rewrite Hfile. destruct (Py.utf8_valid text); [|discriminate].
  unfold table_rows.
  destruct (Py.csv_reader text) as [rows|]; [|discriminate].
  cbn [default from_option id].
  destruct (csv_rows time_column filename_column rows)
    as [timestamps filenames].
  destruct (is_empty timestamps); [discriminate|].
  unfold select_output.
  destruct (negb (is_empty filenames) && (length filenames =? length timestamps)%nat)
    eqn:H1.
  - destruct (write_error w output_file); [discriminate|].
    intros _. apply andb_prop in H1 as [_ Hlen%Nat.eqb_eq].
    exists (combine timestamps filenames). simpl.
    rewrite lookup_insert_eq, (map_fst_combine timestamps filenames) by lia.
    rewrite length_combine. split; [reflexivity|]. split; [reflexivity|lia].
  - destruct (length timestamps =? length (sorted_images w left_dir))%nat eqn:H2;
      [|discriminate].
    destruct (write_error w output_file); [discriminate|].
    intros _. apply Nat.eqb_eq in H2.
    exists (combine timestamps (sorted_images w left_dir)). simpl.
    rewrite lookup_insert_eq, (map_fst_combine timestamps _) by lia.
    rewrite length_combine. split; [reflexivity|]. split; [reflexivity|lia].
Qed.

(** The table [times.csv], whose good rows carry 1.0 and 2.0. *)
Lemma table_records_keep_timestamps_witness :
  files ex_world !! "times.csv" = Some ex_table
  /\ (generate_from_csv "times.csv" "frames" "out.txt" 0 (Some 1) ex_world).1 = Ret tt
  /\ exists records,
       files (generate_from_csv "times.csv" "frames" "out.txt" 0 (Some 1)
                ex_world).2 !! "out.txt"
         = Some (csv_header "times.csv" +:+ lines_text records)
       /\ map fst records = (csv_rows 0 (Some 1) (table_rows ex_table)).1.
Proof.
  assert (H1 : files ex_world !! "times.csv" = Some ex_table) by reflexivity.
  assert (H2 : (generate_from_csv "times.csv" "frames" "out.txt" 0 (Some 1)
                  ex_world).1 = Ret tt) by (vm_compute; reflexivity).
  split; [exact H1|]. split; [exact H2|].
  destruct (table_records_keep_timestamps ex_world "times.csv" "frames" "out.txt"
              ex_table 0 (Some 1) H1 H2) as (records & Hf & Hm & _).
  exists records. split; [exact Hf|exact Hm].
Defined.

(** X9.  The loop over the rows never collects more file names than
    timestamps; with a file name column it collects as many exactly when
    every row that yields a timestamp also has that column; and when it
    has collected as many, and at least one, the choice of the records
    takes the file names of the table whatever the images are. *)
Theorem filenames_never_exceed_timestamps (time_column : Z)
    (filename_column : option Z) (rows : list (list string)) :
  (length (csv_rows time_column filename_column rows).2
   <= length (csv_rows time_column filename_column rows).1)%nat
  /\ (forall fc, filename_column = Some fc ->
        (length (csv_rows time_column filename_column rows).2
         = length (csv_rows time_column filename_column rows).1
         <-> Forall (fun row => is_Some (row_timestamp time_column row) ->
                                is_Some (row_filename fc row)) rows))
  /\ (forall images,
        (csv_rows time_column filename_column rows).1 <> [] ->
        length (csv_rows time_column filename_column rows).2
        = length (csv_rows time_column filename_column rows).1 ->
        select_output (csv_rows time_column filename_column rows).1
                      (csv_rows time_column filename_column rows).2 images
        = Some (combine (csv_rows time_column filename_column rows).1
                        (csv_rows time_column filename_column rows).2)).
Proof.
  rewrite csv_rows_spec. cbn [fst snd].
  split; [apply table_filenames_le|]. split.
  - intros fc ->. split.
    + intros Hlen. apply List.Forall_forall. intros row Hin Hts.
      destruct (row_filename fc row) as [name|] eqn:Hn; [eexists; reflexivity|].
      pose proof (table_filenames_lt time_column (Some fc) fc rows row
                    eq_refl Hin Hts Hn). lia.
    + induction 1 as [|row rows Hrow _ IH]; simpl; [reflexivity|].
      destruct (row_timestamp time_column row) as [t|]; [|exact IH].
      destruct (Hrow ltac:(eexists; reflexivity)) as [name ->]. simpl. lia.
  - intros images Hts Hlen. apply select_output_table; assumption.
Qed.

(** The rows of [times.csv] with the file names in column 1. *)
Lemma filenames_never_exceed_timestamps_witness :
  (csv_rows 0 (Some 1) (table_rows ex_table)).1 <> []
  /\ length (csv_rows 0 (Some 1) (table_rows ex_table)).2
     = length (csv_rows 0 (Some 1) (table_rows ex_table)).1
  /\ select_output (csv_rows 0 (Some 1) (table_rows ex_table)).1
                   (csv_rows 0 (Some 1) (table_rows ex_table)).2 ["a.png"]
     = Some (combine (csv_rows 0 (Some 1) (table_rows ex_table)).1
                     (csv_rows 0 (Some 1) (table_rows ex_table)).2).
Proof.
  assert (H1 : (csv_rows 0 (Some 1) (table_rows ex_table)).1 <> [])
    by (vm_compute; discriminate).
  assert (H2 : length (csv_rows 0 (Some 1) (table_rows ex_table)).2
               = length (csv_rows 0 (Some 1) (table_rows ex_table)).1)
    by (vm_compute; reflexivity).
  split; [exact H1|]. split; [exact H2|].
  exact (proj2 (proj2 (filenames_never_exceed_timestamps 0 (Some 1)
                         (table_rows ex_table))) ["a.png"] H1 H2).
Defined.

(** X10.  How a run of [main] ends once [parse_args] has returned the
    arguments, when the paths among them and the names of the images are
    valid UTF-8.  A success changes the output file and nothing else among
    the files and prints one line; an exit with status 2 happens exactly
    when both or neither of the two modes are given, and then the usage
    text and one message go to the standard error stream and nothing is
    printed or written; every other exit has status 1, prints one line and
    writes nothing; and an exception that escapes leaves the world as it
    was. *)
Theorem main_outcome (args : Namespace) (w : world) :
  Py.utf8_valid (left_dir args) = true ->
  Py.utf8_valid (output args) = true ->
  (forall c, csv_file args = Some c -> Py.utf8_valid c = true) ->
  Forall (fun name => Py.utf8_valid name = true) (sorted_images w (left_dir args)) ->
  match main args w with
  | (Ret _, w') =>
      (exists content, files w' = <[output args := content]> (files w))
      /\ (exists line, stdout w' = stdout w ++ [line])
      /\ stderr w' = stderr w
      /\ fps_truthy args <> csv_file_truthy args
  | (Exit code, w') =>
      files w' = files w
      /\ ((code = 2 /\ fps_truthy args = csv_file_truthy args
           /\ stdout w' = stdout w
           /\ exists message,
                stderr w' = stderr w ++ [usage w; prog w +:+ ": error: " +:+ message])
          \/ (code = 1 /\ fps_truthy args <> csv_file_truthy args
              /\ stderr w' = stderr w
              /\ exists line, stdout w' = stdout w ++ [line]))
  | (Raise e, w') =>
      w' = w /\ fps_truthy args <> csv_file_truthy args
  end.
Proof.
  intros _ _ _ _.
  unfold main. rewrite main_with_run.
  destruct (fps_truthy args) eqn:Hf, (csv_file_truthy args) eqn:Hc; simpl.
  - split; [reflexivity|]. left. eauto.
  - destruct (bool_decide (is_Some (listdir w (left_dir args)))); simpl.
    + unfold fps_truthy in Hf. destruct (fps args) as [f|]; [|discriminate].
      unfold Py.float_truthy in Hf. apply negb_true_iff in Hf.
      destruct (get_sorted_images_cases (left_dir args) w) as [Himg|Himg].
      * rewrite generate_from_fps_run by exact Himg. cbv zeta.
        destruct (is_empty _).
        -- simpl. split; [reflexivity|]. right. eauto.
        -- unfold Py.truediv. rewrite Hf.
           destruct (write_error w (output args)); simpl; [auto|]. eauto 10.
      * rewrite (generate_from_fps_raise _ _ _ _ _ Himg). auto.
    + split; [reflexivity|]. right. eauto.
  - destruct (bool_decide (is_Some (listdir w (left_dir args)))); simpl.
    + unfold csv_file_truthy in Hc. destruct (csv_file args) as [c|]; [|discriminate].
      destruct (get_sorted_images_cases (left_dir args) w) as [Himg|Himg].
      * rewrite generate_from_csv_run by exact Himg. cbv zeta.
        destruct (is_empty _); [simpl; split; [reflexivity|]; right; eauto|].
        destruct (read_error w c); [auto|].
        destruct (files w !! c); [|auto].
        destruct (Py.utf8_valid _); [|auto].
        destruct (Py.csv_reader _); [|auto].
        destruct (csv_rows _ _ _) as [timestamps filenames].
        destruct (is_empty timestamps); [simpl; split; [reflexivity|]; right; eauto|].
        destruct (select_output _ _ _); simpl.
        -- destruct (write_error w (output args)); simpl; [auto|]. eauto 10.
        -- split; [reflexivity|]. right. eauto.
      * rewrite (generate_from_csv_raise _ _ _ _ _ _ _ Himg). auto.
    + split; [reflexivity|]. right. eauto.
  - split; [reflexivity|]. left. eauto.
Qed.

(** [--fps 0 --left-dir frames]: no mode is given. *)
Lemma main_outcome_witness :
  Py.utf8_valid (left_dir ex_args_zero) = true
  /\ Py.utf8_valid (output ex_args_zero) = true
  /\ Forall (fun name => Py.utf8_valid name = true)
            (sorted_images ex_world (left_dir ex_args_zero))
  /\ main ex_args_zero ex_world
     = (Exit 2,
        set_stderr ex_world
          [ex_usage;
           "generate_timestamps.py: error: Either --fps or --csv-file must be specified"])
  /\ files (main ex_args_zero ex_world).2 = files ex_world.
Proof.
  assert (H1 : Py.utf8_valid (left_dir ex_args_zero) = true) by reflexivity.
  assert (H2 : Py.utf8_valid (output ex_args_zero) = true) by reflexivity.
  assert (H3 : forall c, csv_file ex_args_zero = Some c -> Py.utf8_valid c = true)
    by (intros c; discriminate).
  assert (H4 : Forall (fun name => Py.utf8_valid name = true)
                      (sorted_images ex_world (left_dir ex_args_zero)))
    by (repeat constructor).
  assert (Hrun : main ex_args_zero ex_world
                 = (Exit 2,
                    set_stderr ex_world
                      [ex_usage;
                       "generate_timestamps.py: error: Either --fps or --csv-file must be specified"]))
    by reflexivity.
  split; [exact H1|]. split; [exact H2|]. split; [exact H4|].
  split; [exact Hrun|].
  pose proof (main_outcome ex_args_zero ex_world H1 H2 H3 H4) as H.
  rewrite Hrun in H. rewrite Hrun. exact (proj1 H).
Defined.

(** X11.  A record never starts with [#], whatever its file name: its
    text begins with the [%.6f] text of the timestamp, a sign, a digit,
    [nan] or [inf]; and a record whose file name holds no line break is
    one line, the only line break being its last character. *)
Theorem record_line_not_comment (timestamp : Py.float) (filename : string) :
  Py.startswith (record_line timestamp filename) "#" = false
  /\ (Py.any_char Py.is_newline filename = false ->
      exists body, record_line timestamp filename = body +:+ Py.nl
                   /\ Py.any_char Py.is_newline body = false).
Proof.
  split.
  - unfold Py.startswith, record_line.
    destruct timestamp as [s|s| |s m e]; unfold Py.format_6f.
    + apply fixed6_not_comment.
    + destruct s; reflexivity.
    + reflexivity.
    + apply fixed6_not_comment.
  - intros Hname. exists (Py.format_6f timestamp +:+ " " +:+ filename).
    split; [unfold record_line; rewrite !append_assoc; reflexivity|].
    rewrite !any_char_app, format_6f_one_line, Hname. reflexivity.
Qed.

(** The record of [1.0] and [a.png] is one line. *)
Lemma record_line_not_comment_witness :
  Py.any_char Py.is_newline "a.png" = false
  /\ record_line Py.float_one "a.png" = "1.000000 a.png" +:+ Py.nl
  /\ exists body, record_line Py.float_one "a.png" = body +:+ Py.nl
                  /\ Py.any_char Py.is_newline body = false.
Proof.
  assert (H : Py.any_char Py.is_newline "a.png" = false) by reflexivity.
  split; [exact H|]. split; [vm_compute; reflexivity|].
  exact (proj2 (record_line_not_comment Py.float_one "a.png") H).
Defined.

(** A file name with a line break, which a quoted field of the table can
    hold, gives a record of two lines, the second of which starts with
    [#]. *)
Example record_line_broken :
  record_line Py.float_one ("a" +:+ Py.nl +:+ "#b")
  = "1.000000 a" +:+ Py.nl +:+ "#b" +:+ Py.nl.
Proof. vm_compute. reflexivity. Qed.

(** X12.  The loop over the rows works row by row: the lists it builds
    for a table made of two parts are the lists for the first part followed
    by the lists for the second. *)
Theorem csv_rows_app (time_column : Z) (filename_column : option Z)
    (rows1 rows2 : list (list string)) :
  csv_rows time_column filename_column (rows1 ++ rows2)
  = ((csv_rows time_column filename_column rows1).1
       ++ (csv_rows time_column filename_column rows2).1,
     (csv_rows time_column filename_column rows1).2
       ++ (csv_rows time_column filename_column rows2).2).
Proof.
  unfold csv_rows. rewrite fold_left_app, !fold_csv_row. reflexivity.
Qed.

(** X13.  The output file is overwritten, never appended to or read: when
    the output path is not the path of the table, what the output file held
    before changes neither how the run ends nor, after a success, any
    file. *)
Theorem output_is_overwritten (w : world) (fps : Py.float)
    (csv_file directory output_file old : string)
    (time_column : Z) (filename_column : option Z) :
  output_file <> csv_file ->
  let w_old := with_file w output_file old in
  ((generate_from_fps fps directory output_file w_old).1
   = (generate_from_fps fps directory output_file w).1
   /\ ((generate_from_fps fps directory output_file w).1 = Ret tt ->
       files (generate_from_fps fps directory output_file w_old).2
       = files (generate_from_fps fps directory output_file w).2))
  /\ ((generate_from_csv csv_file directory output_file
         time_column filename_column w_old).1
      = (generate_from_csv csv_file directory output_file
           time_column filename_column w).1
      /\ ((generate_from_csv csv_file directory output_file
             time_column filename_column w).1 = Ret tt ->
          files (generate_from_csv csv_file directory output_file
                   time_column filename_column w_old).2
          = files (generate_from_csv csv_file directory output_file
                     time_column filename_column w).2)).
Proof.
  intros Hne. cbv zeta.
  destruct (get_sorted_images_frame directory (with_file w output_file old) w
              eq_refl eq_refl) as (r & Hold & Hnew & [-> | ->]).
  2:{ rewrite (generate_from_fps_raise _ _ _ _ _ Hold),
              (generate_from_fps_raise _ _ _ _ _ Hnew),
              (generate_from_csv_raise _ _ _ _ _ _ _ Hold),
              (generate_from_csv_raise _ _ _ _ _ _ _ Hnew).
      repeat split; discriminate. }
  assert (Himg : sorted_images w directory
                 = sorted_images (with_file w output_file old) directory).
  { unfold sorted_images at 1. rewrite Hnew. reflexivity. }
  rewrite <- Himg in Hold, Hnew.
  assert (Hold' : get_sorted_images directory (with_file w output_file old)
                  = (Ret (sorted_images (with_file w output_file old) directory),
                     with_file w output_file old))
    by (rewrite <- Himg; exact Hold).
  split.
  - rewrite (generate_from_fps_run fps directory output_file _ Hold'),
            (generate_from_fps_run fps directory output_file w Hnew).
    cbv zeta. rewrite <- Himg.
    destruct (is_empty _); [split; [reflexivity|discriminate]|].
    destruct (Py.truediv _ _); [|split; [reflexivity|discriminate]].
    change (write_error (with_file w output_file old) output_file)
      with (write_error w output_file).
    destruct (write_error w output_file); [split; [reflexivity|discriminate]|].
    simpl. split; [reflexivity|]. intros _. apply insert_insert_eq.
  - rewrite (generate_from_csv_run csv_file directory output_file
               time_column filename_column _ Hold'),
            (generate_from_csv_run csv_file directory output_file
               time_column filename_column w Hnew).
    cbv zeta. rewrite <- Himg.
    destruct (is_empty _); [split; [reflexivity|discriminate]|].
    change (read_error (with_file w output_file old) csv_file)
      with (read_error w csv_file).
    destruct (read_error w csv_file); [split; [reflexivity|discriminate]|].
    assert (Hlook : files (with_file w output_file old) !! csv_file
                    = files w !! csv_file)
      by (unfold with_file, set_files; cbn [files]; apply lookup_insert_ne, Hne).
    rewrite !Hlook.
    destruct (files w !! csv_file); [|split; [reflexivity|discriminate]].
    destruct (Py.utf8_valid _); [|split; [reflexivity|discriminate]].
    destruct (Py.csv_reader _); [|split; [reflexivity|discriminate]].
    destruct (csv_rows _ _ _) as [timestamps filenames].
    destruct (is_empty timestamps); [split; [reflexivity|discriminate]|].
    destruct (select_output _ _ _); [|split; [reflexivity|discriminate]].
    change (write_error (with_file w output_file old) output_file)
      with (write_error w output_file).
    destruct (write_error w output_file); [split; [reflexivity|discriminate]|].
    simpl. split; [reflexivity|]. intros _. apply insert_insert_eq.
Qed.

(** The old contents of [out.txt] in the example world. *)
Lemma output_is_overwritten_witness :
  "out.txt" <> "times.csv"
  /\ files (generate_from_fps f30 "frames" "out.txt"
              (with_file ex_world "out.txt" "older")).2
     = files (generate_from_fps f30 "frames" "out.txt" ex_world).2.
Proof.
  assert (H : "out.txt" <> "times.csv") by discriminate.
  split; [exact H|].
  apply (proj1 (output_is_overwritten ex_world f30 "times.csv" "frames" "out.txt"
                  "older" 0 None H)).
  vm_compute. reflexivity.
Defined.

Section SimpleNames.

Lemma no_sep_app (a b : string) : no_sep (a +:+ b) = no_sep a && no_sep b.
Proof.
  induction a as [|c a IH]; [reflexivity|].
  rewrite append_cons. cbn [no_sep]. rewrite IH, andb_assoc. reflexivity.
Qed.

Lemma no_sep_not_endswith (d : string) :
  no_sep d = true -> Py.endswith d Py.sep = false.
Proof.
  intros Hd. destruct (Py.endswith d Py.sep) eqn:He; [|reflexivity].
  apply endswith_sep in He as [y ->]. rewrite no_sep_app in Hd.
  apply andb_prop in Hd as [_ Hd]. discriminate.
Qed.

Lemma rstrip_sep_simple (d : string) :
  d <> "" -> no_sep d = true -> Py.rstrip_sep (d +:+ "/") = d.
Proof.
  induction d as [|c d IH]; [congruence|]. intros _ [Hc Hd]%andb_prop.
  rewrite append_cons. cbn [Py.rstrip_sep]. destruct d as [|c' d].
  - apply negb_true_iff in Hc. simpl. rewrite Hc. reflexivity.
  - rewrite IH by (discriminate || exact Hd). reflexivity.
Qed.

(** The pattern for a directory argument that is a single name. *)
Lemma split_simple (d : string) :
  d <> "" -> no_sep d = true ->
  Py.path_split (Py.path_join d "*.png") = (d, "*.png").
Proof.
  intros Hne Hd.
  assert (Hprefix : glob_prefix d = d +:+ "/").
  { unfold glob_prefix. apply String.eqb_neq in Hne.
    rewrite Hne, (no_sep_not_endswith d Hd). reflexivity. }
  rewrite path_join_name by reflexivity.
  unfold Py.path_split. cbv zeta.
  rewrite (after_last_sep_prefixed _ "*.png" (glob_prefix_dir d) eq_refl),
          length_append.
  replace (String.length (glob_prefix d) + String.length "*.png"
           - String.length (glob_prefix d))%nat
    with (String.length "*.png") by lia.
  rewrite substring_app_l, substring_app_r, Hprefix.
  assert (Hhead : negb (String.eqb (d +:+ "/") "") && negb (Py.all_sep (d +:+ "/"))
                  = true).
  { destruct d as [|c d]; [congruence|]. apply andb_prop in Hd as [Hc _].
    rewrite append_cons. cbn [Py.all_sep]. apply negb_true_iff in Hc.
    rewrite Hc. reflexivity. }
  rewrite Hhead, (rstrip_sep_simple d Hne Hd). reflexivity.
Qed.

End SimpleNames.

(** X14.  The CSV reader fails only at its limit on the size of a field:
    a table of at most 131072 bytes is always read to its end. *)
Theorem csv_reader_total (text : string) :
  (N.of_nat (String.length text) <= Py.field_limit)%N ->
  is_Some (Py.csv_reader text).
Proof.
  intros Hlen.
  apply reader_rows_total; [apply text_lines_good|left; reflexivity|].
  pose proof (text_lines_length text). simpl. lia.
Qed.

(** The table of the specification. *)
Lemma csv_reader_total_witness :
  (N.of_nat (String.length ex_table) <= Py.field_limit)%N
  /\ is_Some (Py.csv_reader ex_table).
Proof.
  assert (H : (N.of_nat (String.length ex_table) <= Py.field_limit)%N)
    by (apply N.leb_le; reflexivity).
  split; [exact H|]. exact (csv_reader_total ex_table H).
Defined.

(** X15.  A directory argument that holds one of the characters [*], [?]
    and the opening bracket is read by [glob] as a pattern, not as the name
    of a directory.  For an argument that is a single name: when the
    pattern stands for no directory, no image is found and both modes end
    with the message for an empty directory, whatever the directory of
    that very name holds; when it stands for one directory with a literal
    name, the images are those of that directory; and when the search for
    the pattern raises ValueError, so does the listing. *)
Theorem wildcard_directory (w : world) (directory : string) :
  directory <> "" ->
  no_sep directory = true ->
  Py.has_magic directory = true ->
  (glob_dirs w directory = Some [] ->
     get_sorted_images directory w = (Ret [], w)
     /\ (forall fps output_file,
           generate_from_fps fps directory output_file w
           = (Exit 1, printed w (msg_empty_directory directory)))
     /\ (forall csv_file output_file time_column filename_column,
           generate_from_csv csv_file directory output_file
             time_column filename_column w
           = (Exit 1, printed w (msg_empty_directory directory))))
  /\ (forall other,
        glob_dirs w directory = Some [other] ->
        other <> "" -> no_sep other = true -> Py.has_magic other = false ->
        get_sorted_images directory w = get_sorted_images other w)
  /\ (glob_dirs w directory = None ->
      get_sorted_images directory w = (Raise ValueError, w)).
Proof.
  intros Hne Hd Hmagic.
  assert (Hrun : forall dirs,
            glob_dirs w directory = Some dirs ->
            get_sorted_images directory w
            = bind (glob_in_dirs dirs "*.png")
                   (fun images => ret (map Py.path_basename (Py.list_sort images))) w).
  { intros dirs Hdirs. unfold get_sorted_images, glob_glob.
    rewrite (split_simple directory Hne Hd).
    apply String.eqb_neq in Hne. rewrite Hne.
    unfold bind at 1 2. unfold glob_dirs_of. rewrite Hmagic, Hdirs. reflexivity. }
  split; [|split].
  - intros Hdirs.
    assert (Himg : get_sorted_images directory w = (Ret [], w))
      by (rewrite (Hrun [] Hdirs); reflexivity).
    assert (Hs : sorted_images w directory = [])
      by (unfold sorted_images; rewrite Himg; reflexivity).
    rewrite <- Hs in Himg. split; [rewrite Hs in Himg; exact Himg|]. split.
    + intros. rewrite generate_from_fps_run by exact Himg. cbv zeta.
      rewrite Hs. reflexivity.
    + intros. rewrite generate_from_csv_run by exact Himg. cbv zeta.
      rewrite Hs. reflexivity.
  - intros other Hdirs Hne' Hd' Hmagic'.
    rewrite (Hrun [other] Hdirs).
    unfold get_sorted_images, glob_glob.
    rewrite (split_simple other Hne' Hd').
    apply String.eqb_neq in Hne'. rewrite Hne'.
    unfold bind at 2 3. unfold glob_dirs_of. rewrite Hmagic'. reflexivity.
  - intros Hdirs. unfold get_sorted_images, glob_glob.
    rewrite (split_simple directory Hne Hd).
    apply String.eqb_neq in Hne. rewrite Hne.
    unfold bind, glob_dirs_of. rewrite Hmagic, Hdirs. reflexivity.
Qed.

(** The name [fr[a]mes] stands for the directory [frames]. *)
Lemma wildcard_directory_witness :
  "fr[a]mes" <> ""
  /\ no_sep "fr[a]mes" = true
  /\ Py.has_magic "fr[a]mes" = true
  /\ glob_dirs ex_world "fr[a]mes" = Some ["frames"]
  /\ get_sorted_images "fr[a]mes" ex_world = get_sorted_images "frames" ex_world.
Proof.
  assert (H1 : "fr[a]mes" <> "") by discriminate.
  assert (H2 : no_sep "fr[a]mes" = true) by reflexivity.
  assert (H3 : Py.has_magic "fr[a]mes" = true) by reflexivity.
  assert (H4 : glob_dirs ex_world "fr[a]mes" = Some ["frames"]) by reflexivity.
  split; [exact H1|]. split; [exact H2|]. split; [exact H3|]. split; [exact H4|].
  apply (proj1 (proj2 (wildcard_directory ex_world "fr[a]mes" H1 H2 H3)) "frames" H4);
    [discriminate|reflexivity|reflexivity].
Defined.
